(** * Verification of the sharded-UPDATE planner and the keyspace-id resolvers

    Shallow embedding of
    - [go/vt/worker/key_resolver.go] (module [Worker]),
    - [go/vt/vtgate/planbuilder/update.go] (module [Planbuilder]) and
    - [initTabletEnvironment] of [go/vt/vtexplain/vtexplain_vttablet.go]
      (module [Vtexplain]),
    followed by the properties proved about them. *)

From stdpp Require Import gmap strings list.
From Stdlib Require Import Ascii ZArith Lia.

Set Warnings "-register-all".

(** ** Go runtime model *)

(** Canonical error codes used by [vterrors.Errorf] in the two files. *)
Inductive Code := Code_INVALID_ARGUMENT | Code_UNIMPLEMENTED.

(** Go [error] values, by the call that builds them.  [fmt.Errorf] without a
    wrapping verb is [errors.New] of the rendered message. *)
Inductive error :=
| errors_New (msg : string)
| vterrors_Errorf (code : Code) (msg : string)
| vterrors_Wrap (cause : error) (msg : string).

Definition fmt_Errorf (msg : string) : error := errors_New msg.

#[global] Instance Code_eq_dec : EqDecision Code.
Proof. solve_decision. Defined.

#[global] Instance error_eq_dec : EqDecision error.
Proof. solve_decision. Defined.

(** What a panicking call carries: the argument of an explicit [panic] or a
    run-time error raised by the Go runtime. *)
Inductive panic_value :=
| panic_string (msg : string)
| runtime_nil_dereference
| runtime_index_out_of_range.

(** A Go call either returns or panics. *)
Inductive outcome (A : Type) :=
| Returned (a : A)
| Panicked (p : panic_value).
Arguments Returned {A} a.
Arguments Panicked {A} p.

Definition obind {A B} (o : outcome A) (k : A -> outcome B) : outcome B :=
  match o with
  | Returned a => k a
  | Panicked p => Panicked p
  end.

(** A Go function returning [(T, error)] that hands back either a value
    with a nil error or a zero value with an error. *)
Inductive result (A : Type) :=
| Ok (a : A)
| Err (e : error).
Arguments Ok {A} a.
Arguments Err {A} e.

(** The error of a failed call. *)
Definition error_of {A} (r : result A) : option error :=
  match r with
  | Ok _ => None
  | Err e => Some e
  end.

(** Dereference of a possibly nil pointer. *)
Definition deref {A} (p : option A) : outcome A :=
  match p with
  | Some a => Returned a
  | None => Panicked runtime_nil_dereference
  end.

(** Slice indexing [s[i]] with a Go [int] index. *)
Definition index {A} (s : list A) (i : Z) : outcome A :=
  if decide (0 ≤ i)%Z then
    match s !! Z.to_nat i with
    | Some a => Returned a
    | None => Panicked runtime_index_out_of_range
    end
  else Panicked runtime_index_out_of_range.

(** Byte slices: every element is an 8-bit integer. *)
Definition bytes := list Z.

(** [s] occurs in [t]. *)
Definition substring (s t : string) : Prop :=
  exists pre post, t = pre +:+ s +:+ post.

(** The elements of [l] with [sep] between them. *)
Fixpoint join (sep : string) (l : list string) : string :=
  match l with
  | [] => ""
  | [x] => x
  | x :: rest => x +:+ sep +:+ join sep rest
  end.

(** An error names [s] when [s] occurs in one of the messages it is built from. *)
Fixpoint error_names (s : string) (e : error) : Prop :=
  match e with
  | errors_New msg => substring s msg
  | vterrors_Errorf _ msg => substring s msg
  | vterrors_Wrap cause msg => substring s msg \/ error_names s cause
  end.

(** ** Shared schema model *)

(** [sqltypes.Value]: a type tag (the number of the [querypb.Type] enum) and
    the raw bytes. *)
Record Value := { typ : Z; val : bytes }.

(** Modelled from the spec: [sqltypes.Value.ToBytes], not among the sources;
    the spec has the fixed-column resolver return "the raw bytes" of the value. *)
Definition ToBytes (v : Value) : bytes := val v.

(** [key.Destination]: the tagged result of a vindex mapping. *)
Inductive Destination :=
| DestinationKeyspaceID (ksid : bytes)
| DestinationKeyspaceIDs (ksids : list bytes)
| DestinationShard (shard : string)
| DestinationAllShards
| DestinationNone.

(** The [vindexes.Vindex] interface, reduced to what the two files call:
    [Map] with the cursor argument ([None] is the nil cursor), and whether the
    dynamic type also implements [vindexes.Lookup]. *)
Record Vindex := {
  vindex_String : string;
  vindex_Map : option unit -> list Value -> list Destination * option error;
  vindex_implements_Lookup : bool
}.

(** [sqlparser.ColIdent] and [sqlparser.TableIdent] are not among the sources:
    the identifiers are kept abstract and reached through the methods the
    two files call. *)
Class Idents := {
  ColIdent : Type;
  TableIdent : Type;
  (** [ColIdent.Equal] *)
  ColIdent_Equal : ColIdent -> ColIdent -> bool;
  (** [ColIdent.EqualString] *)
  ColIdent_EqualString : ColIdent -> string -> bool;
  (** [ColIdent.String], also what the verb [%v] of [fmt] prints *)
  ColIdent_String : ColIdent -> string;
  (** what [%v] of [TrackedBuffer.Myprintf] writes for a column *)
  ColIdent_Format : ColIdent -> string;
  (** what [%v] of [TrackedBuffer.Myprintf] writes for a table name *)
  TableIdent_Format : TableIdent -> string
}.

Section Schema.
Context `{Idents}.

(** [vindexes.Keyspace] *)
Record Keyspace := { Keyspace_Name : string; Sharded : bool }.

(** [vindexes.ColumnVindex] *)
Record ColumnVindex := {
  Columns : list ColIdent;
  cv_Type : string;
  cv_Name : string;
  Owned : bool;
  cv_Vindex : Vindex
}.

(** [vindexes.Table] *)
Record Table := {
  Table_Name : TableIdent;
  Table_Keyspace : Keyspace;
  ColumnVindexes : list ColumnVindex;
  Table_Owned : list ColumnVindex
}.

(** [vindexes.KeyspaceSchema] *)
Record KeyspaceSchema := {
  ks_Keyspace : Keyspace;
  Tables : gmap string Table
}.
End Schema.

(** ** go/vt/worker/key_resolver.go *)

Module Worker.

(** [topodatapb.KeyspaceIdType]; a protobuf enum also carries numbers
    outside its declared names. *)
Inductive KeyspaceIdType :=
| KeyspaceIdType_UNSET
| KeyspaceIdType_UINT64
| KeyspaceIdType_BYTES
| KeyspaceIdType_unknown (n : Z).

#[global] Instance KeyspaceIdType_eq_dec : EqDecision KeyspaceIdType.
Proof. solve_decision. Defined.

(** [topo.KeyspaceInfo], the two fields read here. *)
Record KeyspaceInfo := {
  ShardingColumnName : string;
  ShardingColumnType : KeyspaceIdType
}.

(** [tabletmanagerdatapb.TableDefinition] *)
Record TableDefinition := {
  td_Name : string;
  td_Type : string;
  td_Columns : list string;
  td_PrimaryKeyColumns : list string
}.

(** [tmutils.TableBaseTable], the table type MySQL reports for a base table *)
Definition TableBaseTable : string := "BASE TABLE".

(** Modelled from the spec: [key.Uint64Key.Bytes], not among the sources;
    the spec has the number encoded "as a fixed-width big-endian byte
    sequence", eight bytes for a 64-bit integer.  Byte [k] counts from the
    most significant one. *)
Definition uint64_byte (i : Z) (k : Z) : Z :=
  Z.land (Z.shiftr i (8 * (7 - k))) 255.

Definition Uint64Key_Bytes (i : Z) : bytes :=
  uint64_byte i <$> [0; 1; 2; 3; 4; 5; 6; 7]%Z.

(** Reading a big-endian byte sequence back. *)
Definition BigEndian_Uint (b : bytes) : Z :=
  fold_left (fun acc x => (acc * 256 + x)%Z) b 0%Z.

(** Functions of other packages that the resolvers call and that are not
    among the sources. *)
Class Externals `{Idents} := {
  (** [sqltypes.ToUint64] *)
  ToUint64 : Value -> Z * option error;
  (** the verb [%v] of [fmt] on a [sqltypes.Value] *)
  Value_String : Value -> string;
  (** the verb [%v] of [fmt] on a [key.Destination] *)
  Destination_String : Destination -> string;
  (** [key.DestinationsString] *)
  DestinationsString : list Destination -> string;
  (** the verb [%v] of [fmt] on a [topodatapb.KeyspaceIdType] *)
  KeyspaceIdType_String : KeyspaceIdType -> string;
  (** [tmutils.TableDefinitionGetColumn] *)
  TableDefinitionGetColumn : TableDefinition -> string -> Z * bool;
  (** [vindexes.FindVindexForSharding] *)
  FindVindexForSharding : string -> list ColumnVindex -> result ColumnVindex;
  (** [debugTable], of this package but not among the sources: it is
      called with the pointer to a table definition, [None] when nil, and
      may return or panic *)
  debugTable : option TableDefinition -> outcome bool
}.

Section Resolvers.
Context `{Externals}.

(** *** v2Resolver *)

Record v2Resolver := {
  v2_keyspaceInfo : KeyspaceInfo;
  v2_shardingColumnIndex : Z
}.

Definition errV2unsupported : error :=
  errors_New "Should debug unsupported for v2".

(** [error.Error()] of [errV2unsupported] *)
Definition errV2unsupported_Error : string :=
  "Should debug unsupported for v2".

Definition v2_shouldDebug (r : v2Resolver) : outcome (bool * option error) :=
  Returned (false, Some errV2unsupported).

Definition v2_primaryColumns (r : v2Resolver) : outcome (list string) :=
  Panicked (panic_string errV2unsupported_Error).

Definition v2_primaryIndexes (r : v2Resolver) : outcome (list Z) :=
  Panicked (panic_string errV2unsupported_Error).

Definition v2_keyspaceID (r : v2Resolver) (row : list Value)
  : outcome (bytes * option error) :=
  obind (index row (v2_shardingColumnIndex r)) (fun v =>
    match ShardingColumnType (v2_keyspaceInfo r) with
    | KeyspaceIdType_BYTES => Returned (ToBytes v, None)
    | KeyspaceIdType_UINT64 =>
        match ToUint64 v with
        | (i, None) => Returned (Uint64Key_Bytes i, None)
        | (_, Some err) =>
            Returned ([], Some (vterrors_Wrap err "Non numerical value"))
        end
    | t =>
        Returned ([], Some (fmt_Errorf
          ("unsupported ShardingColumnType: " +:+ KeyspaceIdType_String t)))
    end).

Definition newV2Resolver (keyspaceInfo : KeyspaceInfo) (td : TableDefinition)
  : result v2Resolver :=
  if decide (ShardingColumnName keyspaceInfo = "") then
    Err (errors_New "ShardingColumnName needs to be set for a v2 sharding key")
  else if decide (ShardingColumnType keyspaceInfo = KeyspaceIdType_UNSET) then
    Err (errors_New "ShardingColumnType needs to be set for a v2 sharding key")
  else if decide (td_Type td = TableBaseTable) then
    match TableDefinitionGetColumn td (ShardingColumnName keyspaceInfo) with
    | (columnIndex, true) =>
        Ok {| v2_keyspaceInfo := keyspaceInfo;
               v2_shardingColumnIndex := columnIndex |}
    | (_, false) =>
        Err (fmt_Errorf ("table " +:+ td_Name td +:+
               " doesn't have a column named '" +:+
               ShardingColumnName keyspaceInfo +:+ "'"))
    end
  else
    Err (fmt_Errorf
           ("a keyspaceID resolver can only be created for a base table, got "
            +:+ td_Type td)).

(** *** v3Resolver *)

Record v3Resolver := {
  v3_shardingColumnIndex : Z;
  v3_vindex : Vindex;
  v3_td : option TableDefinition
}.

Definition v3_shouldDebug (r : v3Resolver) : outcome (bool * option error) :=
  obind (debugTable (v3_td r)) (fun b => Returned (b, None)).

Definition v3_primaryColumns (r : v3Resolver) : outcome (list string) :=
  obind (deref (v3_td r)) (fun td => Returned (td_PrimaryKeyColumns td)).

(** The inner loop of [primaryIndexes]: [i] runs over the positions of the
    remaining [names]; the first position holding [name] is appended and
    the loop is left. *)
Fixpoint primaryIndexes_inner (names : list string) (name : string)
    (i : Z) (primaryIndexIndexes : list Z) : list Z :=
  match names with
  | [] => primaryIndexIndexes
  | n :: rest =>
      if decide (n = name) then primaryIndexIndexes ++ [i]
      else primaryIndexes_inner rest name (i + 1) primaryIndexIndexes
  end.

(** The outer loop, over the [names] still to visit. *)
Fixpoint primaryIndexes_outer (primaryIndexNames names : list string)
    (primaryIndexIndexes : list Z) : list Z :=
  match names with
  | [] => primaryIndexIndexes
  | name :: rest =>
      primaryIndexes_outer primaryIndexNames rest
        (primaryIndexes_inner primaryIndexNames name 0 primaryIndexIndexes)
  end.

Definition v3_primaryIndexes (r : v3Resolver) : outcome (list Z) :=
  obind (deref (v3_td r)) (fun td =>
    let primaryIndexNames := td_PrimaryKeyColumns td in
    Returned (primaryIndexes_outer primaryIndexNames primaryIndexNames [])).

Definition newV3ResolverFromTableDefinition
    (keyspaceSchema : KeyspaceSchema) (td : TableDefinition)
  : outcome (result v3Resolver) :=
  if decide (td_Type td = TableBaseTable) then
    match Tables keyspaceSchema !! td_Name td with
    | None =>
        Returned (Err (fmt_Errorf
          ("no vschema definition for table " +:+ td_Name td)))
    | Some tableSchema =>
        match FindVindexForSharding (td_Name td) (ColumnVindexes tableSchema) with
        | Err err => Returned (Err err)
        | Ok colVindex =>
            obind (index (Columns colVindex) 0) (fun col0 =>
              match TableDefinitionGetColumn td (ColIdent_String col0) with
              | (columnIndex, true) =>
                  Returned (Ok {| v3_shardingColumnIndex := columnIndex;
                                   v3_vindex := cv_Vindex colVindex;
                                   v3_td := Some td |})
              | (_, false) =>
                  Returned (Err (fmt_Errorf
                    ("table " +:+ td_Name td +:+
                     " has a Vindex on unknown column " +:+
                     ColIdent_String col0)))
              end)
        end
    end
  else
    Returned (Err (fmt_Errorf
      ("a keyspaceID resolver can only be created for a base table, got "
       +:+ td_Type td))).

(** The column search of [newV3ResolverFromColumnList]: [columnIndex]
    starts at -1 and takes the first position whose name equals [col0], the
    first column of the vindex.  [Columns[0]] is read in the first pass of
    the loop, or for the error message when there is no pass. *)
Fixpoint findColumnIndex (col0 : ColIdent) (columns : list string) (i : Z) : Z :=
  match columns with
  | [] => (-1)%Z
  | n :: rest =>
      if ColIdent_EqualString col0 n then i
      else findColumnIndex col0 rest (i + 1)
  end.

Definition newV3ResolverFromColumnList
    (keyspaceSchema : KeyspaceSchema) (name : string) (columns : list string)
  : outcome (result v3Resolver) :=
  match Tables keyspaceSchema !! name with
  | None =>
      Returned (Err (fmt_Errorf ("no vschema definition for table " +:+ name)))
  | Some tableSchema =>
      match FindVindexForSharding name (ColumnVindexes tableSchema) with
      | Err err => Returned (Err err)
      | Ok colVindex =>
          obind (index (Columns colVindex) 0) (fun col0 =>
            let columnIndex := findColumnIndex col0 columns 0 in
            if decide (columnIndex = (-1)%Z) then
              Returned (Err (fmt_Errorf
                ("table " +:+ name +:+
                 " has a Vindex on unknown column " +:+
                 ColIdent_String col0)))
            else
              Returned (Ok {| v3_shardingColumnIndex := columnIndex;
                              v3_vindex := cv_Vindex colVindex;
                              v3_td := None |}))
      end
  end.

Definition v3_keyspaceID (r : v3Resolver) (row : list Value)
  : outcome (bytes * option error) :=
  obind (index row (v3_shardingColumnIndex r)) (fun v =>
    match vindex_Map (v3_vindex r) None [v] with
    | (_, Some err) => Returned ([], Some err)
    | (destinations, None) =>
        match destinations with
        | [d0] =>
            match d0 with
            | DestinationKeyspaceID ((_ :: _) as ksid) => Returned (ksid, None)
            | _ =>
                Returned ([], Some (fmt_Errorf
                  ("could not map " +:+ Value_String v +:+
                   " to a keyspace id, got destination " +:+
                   Destination_String d0)))
            end
        | _ =>
            Returned ([], Some (fmt_Errorf
              ("mapping row to keyspace id returned an invalid array of keyspace ids: "
               +:+ DestinationsString destinations)))
        end
    end).

End Resolvers.
End Worker.


(** ** go/vt/vtgate/planbuilder/update.go *)

Module Planbuilder.

(** The parts of the parsed statement that [update.go] only hands on to
    other functions, and [sqltypes.PlanValue]; none is among the sources. *)
Class Ast := {
  TableExprs : Type;
  Where : Type;
  Order : Type;
  Limit : Type;
  VSchema : Type;
  PlanValue : Type;
  (** what [%v] of [TrackedBuffer.Myprintf] writes for the three clauses;
      [None] is the nil clause *)
  Where_Format : option Where -> string;
  OrderBy_Format : list Order -> string;
  Limit_Format : option Limit -> string
}.

(** The kinds of [sqlparser.SQLVal]: the four that the comment above
    [extractValueFromUpdate] names, and the other literals of the parser. *)
Inductive ValType := StrVal | IntVal | FloatVal | HexNum | HexVal | ValArg | BitVal.

Section Statement.
Context `{Idents} `{Ast}.

(** [sqlparser.ColName] *)
Record ColName := { Name : ColIdent; Qualifier : string }.

(** Modelled from the spec: [sqlparser.Expr], not among the sources.  The
    spec tells literals and bind-variable placeholders from "any other
    expression (arithmetic, function call, column reference, subquery)". *)
Inductive Expr :=
| SQLVal (t : ValType) (v : bytes)
| ColumnRef (c : ColName)
| BinaryExpr (operator : string) (left right : Expr)
| FuncExpr (name : string) (args : list Expr)
| Subquery (select : string)
| NullVal.

(** Modelled from the spec: [sqlparser.IsValue], not among the sources.  The
    comment above [extractValueFromUpdate] lists what it supports: StrVal,
    HexVal, IntVal, ValArg; the spec words it as "a literal value
    (string/hex/integer) or a bind-variable placeholder". *)
Definition IsValue (node : Expr) : bool :=
  match node with
  | SQLVal StrVal _ | SQLVal HexVal _ | SQLVal IntVal _ | SQLVal ValArg _ => true
  | _ => false
  end.

(** [sqlparser.UpdateExpr] *)
Record UpdateExpr := { ue_Name : ColName; ue_Expr : Expr }.

(** [sqlparser.Update] *)
Record Update := {
  upd_TableExprs : TableExprs;
  Exprs : list UpdateExpr;
  upd_Where : option Where;
  OrderBy : list Order;
  upd_Limit : option Limit
}.

(** [engine.UpdateOpcode] *)
Inductive UpdateOpcode := UpdateUnsharded | UpdateEqual.

(** [engine.Update] *)
Record engine_Update := {
  Opcode : UpdateOpcode;
  eupd_Keyspace : option Keyspace;
  Query : string;
  eupd_Vindex : option Vindex;
  Values : list PlanValue;
  ChangedVindexValues : gmap string (list PlanValue);
  eupd_Table : option Table;
  OwnedVindexQuery : string
}.

(** [engine.Route], the two fields read here. *)
Record engine_Route := {
  TargetDestination : option Destination;
  Route_Keyspace : Keyspace
}.

(** An entry of the symbol table. *)
Record table := { vindexTable : option Table }.

(** The [route] builder: its [ERoute] and the tables of its [Symtab()], a
    map listed in iteration order. *)
Record route := {
  ERoute : engine_Route;
  Symtab_tables : list (string * table)
}.

(** The [builder] interface: a [*route] or another primitive. *)
Inductive builder :=
| builder_route (rb : route)
| builder_other.

End Statement.

(** Functions of this and other packages that [update.go] calls and that are
    not among the sources. *)
Class Externals `{Idents} `{Ast} := {
  (** [sqlparser.NewPlanValue] *)
  NewPlanValue : Expr -> result PlanValue;
  generateQuery : Update -> string;
  processTableExprs : TableExprs -> VSchema -> result builder;
  validateSubquerySamePlan :
    string -> route -> VSchema -> list UpdateExpr -> option Where ->
    list Order -> option Limit -> bool;
  hasSubquery : Update -> bool;
  getDMLRouting :
    option Where -> Table -> option Vindex * list PlanValue * option error
}.

Section Update.
Context `{Externals}.

Definition err_only_values (upd : UpdateExpr) : error :=
  vterrors_Errorf Code_UNIMPLEMENTED
    ("unsupported: Only values are supported. Invalid update on column: "
     +:+ ColIdent_String (Name (ue_Name upd))).

Definition extractValueFromUpdate (upd : UpdateExpr) (col : ColIdent)
  : result PlanValue :=
  if negb (IsValue (ue_Expr upd)) then Err (err_only_values upd)
  else NewPlanValue (ue_Expr upd).

Definition err_duplicate_set_values (assignment : UpdateExpr) : error :=
  vterrors_Errorf Code_INVALID_ARGUMENT
    ("column has duplicate set values: '" +:+
     ColIdent_String (Name (ue_Name assignment)) +:+ "'").

(** The loop over [update.Exprs] for one column [vcol] of a vindex; [found]
    and [vindexValues] are the loop's variables. *)
Fixpoint scan_assignments (vcol : ColIdent) (exprs : list UpdateExpr)
    (found : bool) (vindexValues : list PlanValue)
  : result (bool * list PlanValue) :=
  match exprs with
  | [] => Ok (found, vindexValues)
  | assignment :: rest =>
      if negb (ColIdent_Equal vcol (Name (ue_Name assignment))) then
        scan_assignments vcol rest found vindexValues
      else if found then Err (err_duplicate_set_values assignment)
      else
        match extractValueFromUpdate assignment vcol with
        | Err err => Err err
        | Ok pv => scan_assignments vcol rest true (vindexValues ++ [pv])
        end
  end.

(** The loop over [vindex.Columns]. *)
Fixpoint scan_columns (exprs : list UpdateExpr) (columns : list ColIdent)
    (vindexValues : list PlanValue) : result (list PlanValue) :=
  match columns with
  | [] => Ok vindexValues
  | vcol :: rest =>
      match scan_assignments vcol exprs false vindexValues with
      | Err err => Err err
      | Ok (_, vindexValues') => scan_columns exprs rest vindexValues'
      end
  end.

Definition err_all_columns (vindex : ColumnVindex) : error :=
  vterrors_Errorf Code_UNIMPLEMENTED
    ("unsupported: update does not have values for all the columns in vindex ("
     +:+ cv_Name vindex +:+ ")").

Definition err_limit_without_order (vindex : ColumnVindex) : error :=
  vterrors_Errorf Code_UNIMPLEMENTED
    ("unsupported: Need to provide order by clause when using limit. Invalid update on vindex: "
     +:+ cv_Name vindex).

Definition err_primary_vindex (vindex : ColumnVindex) : error :=
  vterrors_Errorf Code_UNIMPLEMENTED
    ("unsupported: You can't update primary vindex columns. Invalid update on vindex: "
     +:+ cv_Name vindex).

Definition err_not_lookup (vindex : ColumnVindex) : error :=
  vterrors_Errorf Code_UNIMPLEMENTED
    ("unsupported: You can only update lookup vindexes. Invalid update on vindex: "
     +:+ cv_Name vindex).

Definition err_not_owned (vindex : ColumnVindex) : error :=
  vterrors_Errorf Code_UNIMPLEMENTED
    ("unsupported: You can only update owned vindexes. Invalid update on vindex: "
     +:+ cv_Name vindex).

(** The loop over [colVindexes], from index [i] on; [changedVindexes] is the
    map filled so far. *)
Fixpoint scan_vindexes (update : Update) (i : Z) (colVindexes : list ColumnVindex)
    (changedVindexes : gmap string (list PlanValue))
  : result (gmap string (list PlanValue)) :=
  match colVindexes with
  | [] => Ok changedVindexes
  | vindex :: rest =>
      match scan_columns (Exprs update) (Columns vindex) [] with
      | Err err => Err err
      | Ok vindexValues =>
          if decide (length vindexValues = 0%nat) then
            scan_vindexes update (i + 1) rest changedVindexes
          else if decide (length vindexValues ≠ length (Columns vindex)) then
            Err (err_all_columns vindex)
          else if bool_decide (is_Some (upd_Limit update)) &&
                  bool_decide (length (OrderBy update) = 0%nat) then
            Err (err_limit_without_order vindex)
          else if decide (i = 0%Z) then
            Err (err_primary_vindex vindex)
          else if negb (vindex_implements_Lookup (cv_Vindex vindex)) then
            Err (err_not_lookup vindex)
          else if negb (Owned vindex) then
            Err (err_not_owned vindex)
          else
            scan_vindexes update (i + 1) rest
              (<[cv_Name vindex := vindexValues]> changedVindexes)
      end
  end.

Definition buildChangedVindexesValues (eupd : engine_Update) (update : Update)
    (colVindexes : list ColumnVindex) : result (gmap string (list PlanValue)) :=
  scan_vindexes update 0 colVindexes ∅.

(** The loop over [cv.Columns] in [generateUpdateSubquery], appending to the
    buffer [buf]. *)
Fixpoint write_columns (vIdx cIdx : Z) (columns : list ColIdent) (buf : string)
  : string :=
  match columns with
  | [] => buf
  | column :: rest =>
      write_columns vIdx (cIdx + 1) rest
        (if bool_decide (cIdx = 0%Z) && bool_decide (vIdx = 0%Z)
         then buf +:+ ColIdent_Format column
         else buf +:+ ", " +:+ ColIdent_Format column)
  end.

(** The loop over [table.Owned]. *)
Fixpoint write_owned (vIdx : Z) (owned : list ColumnVindex) (buf : string)
  : string :=
  match owned with
  | [] => buf
  | cv :: rest =>
      write_owned (vIdx + 1) rest (write_columns vIdx 0 (Columns cv) buf)
  end.

Definition generateUpdateSubquery (upd : Update) (table : Table) : string :=
  let buf := "select " in
  let buf := write_owned 0 (Table_Owned table) buf in
  buf +:+ " from " +:+ TableIdent_Format (Table_Name table) +:+
  Where_Format (upd_Where upd) +:+ OrderBy_Format (OrderBy upd) +:+
  Limit_Format (upd_Limit upd) +:+ " for update".

(** The loop [for _, tval := range rb.Symtab().tables]. *)
Definition last_vindexTable (tables : list (string * table)) : option Table :=
  fold_left (fun _ tval => vindexTable tval.2) tables None.

Definition buildUpdatePlan (upd : Update) (vschema : VSchema)
  : result engine_Update :=
  match processTableExprs (upd_TableExprs upd) vschema with
  | Err err => Err err
  | Ok (builder_other) =>
      Err (errors_New "unsupported: multi-table update statement in sharded keyspace")
  | Ok (builder_route rb) =>
      match TargetDestination (ERoute rb) with
      | Some _ => Err (errors_New "unsupported: UPDATE with a target destination")
      | None =>
          let keyspace := Route_Keyspace (ERoute rb) in
          if negb (Sharded keyspace) then
            if negb (validateSubquerySamePlan (Keyspace_Name keyspace) rb vschema
                       (Exprs upd) (upd_Where upd) (OrderBy upd) (upd_Limit upd))
            then Err (errors_New "unsupported: sharded subqueries in DML")
            else
              Ok {| Opcode := UpdateUnsharded;
                    eupd_Keyspace := Some keyspace;
                    Query := generateQuery upd;
                    eupd_Vindex := None;
                    Values := [];
                    ChangedVindexValues := ∅;
                    eupd_Table := None;
                    OwnedVindexQuery := "" |}
          else if hasSubquery upd then
            Err (errors_New "unsupported: subqueries in sharded DML")
          else if decide (length (Symtab_tables rb) ≠ 1%nat) then
            Err (errors_New "unsupported: multi-table update statement in sharded keyspace")
          else
            match last_vindexTable (Symtab_tables rb) with
            | None =>
                Err (errors_New "internal error: table.vindexTable is mysteriously nil")
            | Some vtable =>
                match getDMLRouting (upd_Where upd) vtable with
                | (_, _, Some err) => Err err
                | (vindex, values, None) =>
                    let eupd :=
                      {| Opcode := UpdateEqual;
                         eupd_Keyspace := Some keyspace;
                         Query := generateQuery upd;
                         eupd_Vindex := vindex;
                         Values := values;
                         ChangedVindexValues := ∅;
                         eupd_Table := Some vtable;
                         OwnedVindexQuery := "" |} in
                    match buildChangedVindexesValues eupd upd (ColumnVindexes vtable) with
                    | Err err => Err err
                    | Ok changed =>
                        Ok {| Opcode := UpdateEqual;
                              eupd_Keyspace := Some keyspace;
                              Query := generateQuery upd;
                              eupd_Vindex := vindex;
                              Values := values;
                              ChangedVindexValues := changed;
                              eupd_Table := Some vtable;
                              OwnedVindexQuery :=
                                if decide (size changed ≠ 0%nat)
                                then generateUpdateSubquery upd vtable
                                else "" |}
                    end
                end
            end
      end
  end.

End Update.
End Planbuilder.


(** ** go/vt/vtexplain/vtexplain_vttablet.go *)

Module Vtexplain.

(** [querypb.Field], the two fields set here; the type is the number of the
    [querypb.Type] enum. *)
Record Field := { Field_Name : string; Field_Type : Z }.

(** [sqltypes.Result], the three fields set here.  A slice that is nil and
    one that is empty are both the empty list. *)
Record Result := {
  Fields : list Field;
  RowsAffected : Z;
  Rows : list (list Value)
}.

(** The conversion [[]byte(s)]. *)
Definition bytes_of (s : string) : bytes :=
  (λ c, Z.of_nat (nat_of_ascii c)) <$> String.list_ascii_of_string s.

(** What the file uses of the packages [sqltypes], [sqlparser] and [mysql],
    none of them among the sources. *)
Class Externals `{Idents} := {
  (** [sqltypes.Int32], [sqltypes.Uint64] and [sqltypes.VarChar] *)
  sqltypes_Int32 : Z;
  sqltypes_Uint64 : Z;
  sqltypes_VarChar : Z;
  (** [sqltypes.MakeTrusted] and [sqltypes.MakeString] *)
  sqltypes_MakeTrusted : Z -> bytes -> Value;
  sqltypes_MakeString : bytes -> Value;
  (** [TableIdent.String] *)
  TableIdent_String : TableIdent -> string;
  (** [sqlparser.ColumnType] and what its field [Default] points to *)
  ColumnType : Type;
  DefaultValue : Type;
  (** the field [Default], [None] when nil, and the field [NotNull] *)
  ColumnType_Default : ColumnType -> option DefaultValue;
  ColumnType_NotNull : ColumnType -> bool;
  (** [ColumnType.DescribeType] and [ColumnType.SqlType] *)
  ColumnType_DescribeType : ColumnType -> string;
  ColumnType_SqlType : ColumnType -> Z;
  (** [sqlparser.String] on a default value *)
  sqlparser_String : DefaultValue -> string;
  (** [mysql.BaseShowTables], [mysql.BaseShowTablesFields],
      [mysql.BaseShowTablesRow] and [mysql.BaseShowTablesForTable] *)
  mysql_BaseShowTables : string;
  mysql_BaseShowTablesFields : list Field;
  mysql_BaseShowTablesRow : string -> bool -> string -> list Value;
  mysql_BaseShowTablesForTable : string -> string;
  (** [mysql.ShowIndexFromTableFields] and [mysql.ShowIndexFromTableRow] *)
  mysql_ShowIndexFromTableFields : list Field;
  mysql_ShowIndexFromTableRow :
    string -> bool -> string -> Z -> string -> bool -> list Value;
  (** [mysql.DescribeTableFields] and [mysql.DescribeTableRow] *)
  mysql_DescribeTableFields : list Field;
  mysql_DescribeTableRow :
    string -> string -> bool -> string -> string -> list Value
}.

Section Tablet.
Context `{Externals}.

(** The parts of a parsed statement that [initTabletEnvironment] reads.  Of
    the index and column definitions the source shows the fields it reads;
    they are held by value. *)
Record IndexInfo := { Primary : bool; Unique : bool; ii_Name : ColIdent }.

Record IndexDefinition := { Info : IndexInfo; idx_Columns : list ColIdent }.

Record ColumnDefinition := { cd_Name : ColIdent; cd_Type : ColumnType }.

Record TableSpec := {
  ts_Columns : list ColumnDefinition;
  Indexes : list IndexDefinition
}.

Record TableName := { tn_Name : TableIdent }.

(** [sqlparser.DDL].  The table specification is reached through a pointer,
    nil ([None]) in a statement that has none; the statements themselves
    come as pointers too, a [[]*sqlparser.DDL]. *)
Record DDL := { NewName : TableName; ddl_TableSpec : option TableSpec }.

(** The five queries that every tablet environment answers. *)
Definition fixed_queries : gmap string Result :=
  <[ "show variables like 'binlog_format'" :=
       {| Fields := [ {| Field_Name := ""; Field_Type := sqltypes_VarChar |};
                      {| Field_Name := ""; Field_Type := sqltypes_VarChar |} ];
          RowsAffected := 1;
          Rows := [[ sqltypes_MakeString (bytes_of "binlog_format");
                     sqltypes_MakeString (bytes_of "ROW") ]] |} ]>
  (<[ "select user_id from name_user_map where name = 'bob' limit 10001" :=
       {| Fields := [ {| Field_Name := ""; Field_Type := sqltypes_Uint64 |} ];
          RowsAffected := 1;
          Rows := [[ sqltypes_MakeString (bytes_of "10") ]] |} ]>
  (<[ "select @@autocommit" :=
       {| Fields := [ {| Field_Name := ""; Field_Type := sqltypes_Uint64 |} ];
          RowsAffected := 1;
          Rows := [[ sqltypes_MakeString (bytes_of "1") ]] |} ]>
  (<[ "select @@global.sql_mode" :=
       {| Fields := [ {| Field_Name := ""; Field_Type := sqltypes_VarChar |} ];
          RowsAffected := 1;
          Rows := [[ sqltypes_MakeString (bytes_of "STRICT_TRANS_TABLES") ]] |} ]>
  (<[ "select unix_timestamp()" :=
       {| Fields := [ {| Field_Name := ""; Field_Type := sqltypes_Uint64 |} ];
          RowsAffected := 1;
          Rows := [[ sqltypes_MakeTrusted sqltypes_Int32
                       (bytes_of "1427325875") ]] |} ]> ∅)))).

(** [ddl.NewName.Name.String()] *)
Definition table_of (ddl : DDL) : string :=
  TableIdent_String (tn_Name (NewName ddl)).

(** The first loop over the statements: one row of the table list for each
    of them. *)
Fixpoint scan_tables (ddls : list (option DDL))
    (showTableRows : list (list Value))
  : outcome (list (list Value)) :=
  match ddls with
  | [] => Returned showTableRows
  | ddl :: rest =>
      obind (deref ddl) (fun ddl =>
        scan_tables rest
          (showTableRows ++ [mysql_BaseShowTablesRow (table_of ddl) false ""]))
  end.

(** The loop over the columns of one index, [i] being the position of the
    first of [columns]; [pkColumns] is the Go map from names to [bool]. *)
Fixpoint scan_index_columns (table : string) (idx : IndexDefinition)
    (columns : list ColIdent) (i : Z) (indexRows : list (list Value))
    (pkColumns : gmap string bool)
  : list (list Value) * gmap string bool :=
  match columns with
  | [] => (indexRows, pkColumns)
  | col :: rest =>
      let row :=
        mysql_ShowIndexFromTableRow table (Unique (Info idx))
          (ColIdent_String (ii_Name (Info idx))) (i + 1)
          (ColIdent_String col) false in
      let indexRows := indexRows ++ [row] in
      let pkColumns :=
        if Primary (Info idx) then <[ ColIdent_String col := true ]> pkColumns
        else pkColumns in
      scan_index_columns table idx rest (i + 1) indexRows pkColumns
  end.

(** The loop over the indexes of a table. *)
Fixpoint scan_indexes (table : string) (indexes : list IndexDefinition)
    (indexRows : list (list Value)) (pkColumns : gmap string bool)
  : list (list Value) * gmap string bool :=
  match indexes with
  | [] => (indexRows, pkColumns)
  | idx :: rest =>
      let '(indexRows, pkColumns) :=
        scan_index_columns table idx (idx_Columns idx) 0 indexRows pkColumns in
      scan_indexes table rest indexRows pkColumns
  end.

(** Reading the map [pkColumns]: a name without entry gives [false]. *)
Definition pk_lookup (pkColumns : gmap string bool) (colName : string) : bool :=
  default false (pkColumns !! colName).

(** The loop over the columns of a table. *)
Fixpoint scan_table_columns (columns : list ColumnDefinition)
    (pkColumns : gmap string bool) (describeTableRows : list (list Value))
    (rowTypes : list Field)
  : list (list Value) * list Field :=
  match columns with
  | [] => (describeTableRows, rowTypes)
  | col :: rest =>
      let colName := ColIdent_String (cd_Name col) in
      let defaultVal :=
        match ColumnType_Default (cd_Type col) with
        | Some d => sqlparser_String d
        | None => ""
        end in
      let idxVal := if pk_lookup pkColumns colName then "PRI" else "" in
      let row :=
        mysql_DescribeTableRow colName (ColumnType_DescribeType (cd_Type col))
          (negb (ColumnType_NotNull (cd_Type col))) idxVal defaultVal in
      let rowType :=
        {| Field_Name := colName;
           Field_Type := ColumnType_SqlType (cd_Type col) |} in
      scan_table_columns rest pkColumns (describeTableRows ++ [row])
        (rowTypes ++ [rowType])
  end.

(** The second loop over the statements, [i] being the position of the
    first of [ddls]: the four entries of each table.  [ddl.TableSpec] is
    read twice, for the indexes and for the columns. *)
Fixpoint scan_ddls (showTableRows : list (list Value))
    (ddls : list (option DDL)) (i : Z) (schemaQueries : gmap string Result)
  : outcome (gmap string Result) :=
  match ddls with
  | [] => Returned schemaQueries
  | ddl :: rest =>
      obind (deref ddl) (fun ddl =>
      let table := table_of ddl in
      obind (index showTableRows i) (fun showTableRow =>
      let schemaQueries :=
        <[ mysql_BaseShowTablesForTable table :=
             {| Fields := mysql_BaseShowTablesFields;
                RowsAffected := 1;
                Rows := [showTableRow] |} ]> schemaQueries in
      obind (deref (ddl_TableSpec ddl)) (fun tableSpec =>
      let '(indexRows, pkColumns) :=
        scan_indexes table (Indexes tableSpec) [] ∅ in
      let schemaQueries :=
        <[ "show index from " +:+ table :=
             {| Fields := mysql_ShowIndexFromTableFields;
                RowsAffected := Z.of_nat (length indexRows);
                Rows := indexRows |} ]> schemaQueries in
      obind (deref (ddl_TableSpec ddl)) (fun tableSpec =>
      let '(describeTableRows, rowTypes) :=
        scan_table_columns (ts_Columns tableSpec) pkColumns [] [] in
      let schemaQueries :=
        <[ "describe " +:+ table :=
             {| Fields := mysql_DescribeTableFields;
                RowsAffected := Z.of_nat (length describeTableRows);
                Rows := describeTableRows |} ]> schemaQueries in
      let schemaQueries :=
        <[ "select * from " +:+ table +:+ " where 1 != 1" :=
             {| Fields := rowTypes; RowsAffected := 0; Rows := [] |} ]>
          schemaQueries in
      scan_ddls showTableRows rest (i + 1) schemaQueries))))
  end.

(** [initTabletEnvironment] replaces the package variable [schemaQueries],
    here passed in and handed back with the returned error.  A panic ends
    the call without result; what the variable holds by then is left out. *)
Definition initTabletEnvironment (ddls : list (option DDL))
    (schemaQueries : gmap string Result)
  : outcome (option error * gmap string Result) :=
  let schemaQueries := fixed_queries in
  obind (scan_tables ddls []) (fun showTableRows =>
  let schemaQueries :=
    <[ mysql_BaseShowTables :=
         {| Fields := mysql_BaseShowTablesFields;
            RowsAffected := Z.of_nat (length showTableRows);
            Rows := showTableRows |} ]> schemaQueries in
  obind (scan_ddls showTableRows ddls 0 schemaQueries) (fun schemaQueries =>
    Returned (None, schemaQueries))).

End Tablet.
End Vtexplain.

(** ** A concrete environment

    Stand-ins for the functions outside the files, used to run the
    embedding on concrete statements and rows. *)

Module Fixture.

Definition ascii_lower (c : ascii) : ascii :=
  let n := nat_of_ascii c in
  if (65 <=? n)%nat && (n <=? 90)%nat then ascii_of_nat (n + 32) else c.

Fixpoint string_lower (s : string) : string :=
  match s with
  | EmptyString => EmptyString
  | String c rest => String (ascii_lower c) (string_lower rest)
  end.

Fixpoint bytes_to_string (b : bytes) : string :=
  match b with
  | [] => EmptyString
  | x :: rest => String (ascii_of_nat (Z.to_nat x)) (bytes_to_string rest)
  end.

(** Identifiers are strings compared without regard to ASCII case. *)
Definition idents : Idents := {|
  ColIdent := string;
  TableIdent := string;
  ColIdent_Equal := λ a b, bool_decide (string_lower a = string_lower b);
  ColIdent_EqualString := λ a b, bool_decide (string_lower a = string_lower b);
  ColIdent_String := λ a, a;
  ColIdent_Format := λ a, a;
  TableIdent_Format := λ a, a
|}.
#[local] Existing Instance idents.

(** Modelled from the spec: the number parser behind [sqltypes.ToUint64],
    not among the sources; the spec has it parse "an unsigned 64-bit integer
    (fail on non-numeric content)".  Decimal digits, most significant first. *)
Fixpoint parse_decimal (b : bytes) (acc : Z) : option Z :=
  match b with
  | [] => Some acc
  | d :: rest =>
      if bool_decide (48 ≤ d ≤ 57)%Z then parse_decimal rest (acc * 10 + (d - 48))
      else None
  end.

Definition ToUint64_decimal (v : Value) : Z * option error :=
  match val v with
  | [] => (0%Z, Some (errors_New "could not parse value"))
  | b =>
      match parse_decimal b 0 with
      | Some n =>
          if bool_decide (n < 2 ^ 64)%Z then (n, None)
          else (0%Z, Some (errors_New "could not parse value"))
      | None => (0%Z, Some (errors_New "could not parse value"))
      end
  end.

Definition Destination_text (d : Destination) : string :=
  match d with
  | DestinationKeyspaceID ksid =>
      "DestinationKeyspaceID(" +:+ bytes_to_string ksid +:+ ")"
  | DestinationKeyspaceIDs ksids =>
      "DestinationKeyspaceIDs(" +:+ join "," (bytes_to_string <$> ksids) +:+ ")"
  | DestinationShard shard => "DestinationShard(" +:+ shard +:+ ")"
  | DestinationAllShards => "DestinationAllShards()"
  | DestinationNone => "DestinationNone()"
  end.

Fixpoint column_position (columns : list string) (name : string) (i : Z) : Z * bool :=
  match columns with
  | [] => ((-1)%Z, false)
  | n :: rest =>
      if bool_decide (string_lower n = string_lower name) then (i, true)
      else column_position rest name (i + 1)
  end.

Definition worker_externals : Worker.Externals := {|
  Worker.ToUint64 := ToUint64_decimal;
  Worker.Value_String := λ v, "VARBINARY(" +:+ bytes_to_string (val v) +:+ ")";
  Worker.Destination_String := Destination_text;
  Worker.DestinationsString := λ ds,
    "Destinations:" +:+ join "," (Destination_text <$> ds);
  Worker.KeyspaceIdType_String := λ t,
    match t with
    | Worker.KeyspaceIdType_UNSET => "UNSET"
    | Worker.KeyspaceIdType_UINT64 => "UINT64"
    | Worker.KeyspaceIdType_BYTES => "BYTES"
    | Worker.KeyspaceIdType_unknown _ => "unknown"
    end;
  Worker.TableDefinitionGetColumn := λ td name,
    column_position (Worker.td_Columns td) name 0;
  Worker.FindVindexForSharding := λ name colVindexes,
    match colVindexes with
    | cv :: _ => Ok cv
    | [] => Err (errors_New ("no vindex definition for table " +:+ name))
    end;
  Worker.debugTable := λ _, Returned false
|}.

(** A vindex mapping every value to the two-byte keyspace id 16 6A. *)
Definition two_byte_vindex : Vindex :=
  {| vindex_String := "two_bytes";
     vindex_Map := λ _ _, ([DestinationKeyspaceID [22; 106]%Z], None);
     vindex_implements_Lookup := false |}.

(** A vindex whose mapping fails. *)
Definition failing_vindex : Vindex :=
  {| vindex_String := "failing";
     vindex_Map := λ _ _, ([], Some (errors_New "boom"));
     vindex_implements_Lookup := false |}.

(** A keyspace schema with the table [t], sharded by [two_byte_vindex] on
    its column [id]. *)
Definition id_vindex : ColumnVindex :=
  {| Columns := ["id"]; cv_Type := "two_bytes"; cv_Name := "id_index";
     Owned := false; cv_Vindex := two_byte_vindex |}.

Definition schema_t : KeyspaceSchema :=
  {| ks_Keyspace := {| Keyspace_Name := "ks"; Sharded := true |};
     Tables := {[ "t" :=
       {| Table_Name := "t";
          Table_Keyspace := {| Keyspace_Name := "ks"; Sharded := true |};
          ColumnVindexes := [id_vindex];
          Table_Owned := [] |} ]} |}.

(** Plan values of the concrete planner: a literal or a bind variable. *)
Inductive plan_value :=
| pv_literal (t : Planbuilder.ValType) (v : bytes)
| pv_bind (key : bytes).

Definition ast : Planbuilder.Ast := {|
  Planbuilder.TableExprs := string;
  Planbuilder.Where := string;
  Planbuilder.Order := string;
  Planbuilder.Limit := string;
  Planbuilder.VSchema := unit;
  Planbuilder.PlanValue := plan_value;
  Planbuilder.Where_Format := λ w,
    match w with Some e => " where " +:+ e | None => "" end;
  Planbuilder.OrderBy_Format := λ o,
    match o with [] => "" | _ => " order by " +:+ join ", " o end;
  Planbuilder.Limit_Format := λ l,
    match l with Some n => " limit " +:+ n | None => "" end
|}.
#[local] Existing Instance ast.

(** A hash vindex and a lookup vindex. *)
Definition hash_vindex : Vindex :=
  {| vindex_String := "hash"; vindex_Map := λ _ _, ([DestinationNone], None);
     vindex_implements_Lookup := false |}.

Definition lookup_vindex : Vindex :=
  {| vindex_String := "lookup"; vindex_Map := λ _ _, ([DestinationNone], None);
     vindex_implements_Lookup := true |}.

(** The table [user]: primary vindex [user_index] on [id], owned lookup
    vindex [name_user_map] on [name]. *)
Definition user_index : ColumnVindex :=
  {| Columns := ["id"]; cv_Type := "hash"; cv_Name := "user_index";
     Owned := false; cv_Vindex := hash_vindex |}.

Definition name_user_map : ColumnVindex :=
  {| Columns := ["name"]; cv_Type := "lookup"; cv_Name := "name_user_map";
     Owned := true; cv_Vindex := lookup_vindex |}.

Definition sharded_ks : Keyspace := {| Keyspace_Name := "user"; Sharded := true |}.
Definition main_ks : Keyspace := {| Keyspace_Name := "main"; Sharded := false |}.

Definition user_table : Table :=
  {| Table_Name := "user"; Table_Keyspace := sharded_ks;
     ColumnVindexes := [user_index; name_user_map];
     Table_Owned := [name_user_map] |}.

Definition user_route : Planbuilder.route :=
  {| Planbuilder.ERoute :=
       {| Planbuilder.TargetDestination := None;
          Planbuilder.Route_Keyspace := sharded_ks |};
     Planbuilder.Symtab_tables :=
       [("user", {| Planbuilder.vindexTable := Some user_table |})] |}.

Definition unsharded_route : Planbuilder.route :=
  {| Planbuilder.ERoute :=
       {| Planbuilder.TargetDestination := None;
          Planbuilder.Route_Keyspace := main_ks |};
     Planbuilder.Symtab_tables :=
       [("unsharded", {| Planbuilder.vindexTable := None |})] |}.

Fixpoint render_expr (e : Planbuilder.Expr) : string :=
  match e with
  | Planbuilder.SQLVal _ v => bytes_to_string v
  | Planbuilder.ColumnRef c => Planbuilder.Name c
  | Planbuilder.BinaryExpr op l r => render_expr l +:+ " " +:+ op +:+ " " +:+ render_expr r
  | Planbuilder.FuncExpr name _ => name +:+ "()"
  | Planbuilder.Subquery sel => "(" +:+ sel +:+ ")"
  | Planbuilder.NullVal => "null"
  end.

Definition render_assignment (a : Planbuilder.UpdateExpr) : string :=
  Planbuilder.Name (Planbuilder.ue_Name a) +:+ " = " +:+
  render_expr (Planbuilder.ue_Expr a).

Definition planbuilder_externals : Planbuilder.Externals := {|
  Planbuilder.NewPlanValue := λ e,
    match e with
    | Planbuilder.SQLVal Planbuilder.ValArg v => Ok (pv_bind v)
    | Planbuilder.SQLVal Planbuilder.StrVal v => Ok (pv_literal Planbuilder.StrVal v)
    | Planbuilder.SQLVal Planbuilder.IntVal v => Ok (pv_literal Planbuilder.IntVal v)
    | Planbuilder.SQLVal Planbuilder.HexVal v => Ok (pv_literal Planbuilder.HexVal v)
    | _ => Err (errors_New "expression is too complex")
    end;
  Planbuilder.generateQuery := λ upd,
    "update " +:+ Planbuilder.upd_TableExprs upd +:+ " set " +:+
    join ", " (render_assignment <$> Planbuilder.Exprs upd) +:+
    Planbuilder.Where_Format (Planbuilder.upd_Where upd) +:+
    Planbuilder.OrderBy_Format (Planbuilder.OrderBy upd) +:+
    Planbuilder.Limit_Format (Planbuilder.upd_Limit upd);
  Planbuilder.processTableExprs := λ tableExprs _,
    if bool_decide (tableExprs = "user") then Ok (Planbuilder.builder_route user_route)
    else if bool_decide (tableExprs = "unsharded") then
      Ok (Planbuilder.builder_route unsharded_route)
    else if bool_decide (tableExprs = "user join unsharded") then
      Ok Planbuilder.builder_other
    else Err (errors_New ("table " +:+ tableExprs +:+ " not found"));
  Planbuilder.validateSubquerySamePlan := λ _ _ _ _ _ _ _, true;
  Planbuilder.hasSubquery := λ _, false;
  Planbuilder.getDMLRouting := λ whereClause vtable,
    match whereClause, ColumnVindexes vtable with
    | Some _, cv :: _ =>
        (Some (cv_Vindex cv), [pv_literal Planbuilder.IntVal [49]%Z], None)
    | _, _ =>
        (None, [], Some (errors_New "unsupported: multi-shard update"))
    end
|}.

(** [update <table> set <exprs> where id = 1] *)
Definition update_where_id (tableExprs : string)
    (exprs : list Planbuilder.UpdateExpr) : Planbuilder.Update :=
  {| Planbuilder.upd_TableExprs := tableExprs;
     Planbuilder.Exprs := exprs;
     Planbuilder.upd_Where := Some "id = 1";
     Planbuilder.OrderBy := [];
     Planbuilder.upd_Limit := None |}.

Definition set_to (column : string) (e : Planbuilder.Expr) : Planbuilder.UpdateExpr :=
  {| Planbuilder.ue_Name := {| Planbuilder.Name := column; Planbuilder.Qualifier := "" |};
     Planbuilder.ue_Expr := e |}.

(** The literal [2] and the expression [column + 1]. *)
Definition lit_2 : Planbuilder.Expr := Planbuilder.SQLVal Planbuilder.IntVal [50]%Z.

(** The string literal ['x']. *)
Definition lit_x : Planbuilder.Expr := Planbuilder.SQLVal Planbuilder.StrVal [120]%Z.

Definition plus_1 (column : string) : Planbuilder.Expr :=
  Planbuilder.BinaryExpr "+"
    (Planbuilder.ColumnRef {| Planbuilder.Name := column; Planbuilder.Qualifier := "" |})
    (Planbuilder.SQLVal Planbuilder.IntVal [49]%Z).

(** The plan of [update user set name = 'x' where id = 1]. *)
Definition set_name_plan : Planbuilder.engine_Update :=
  {| Planbuilder.Opcode := Planbuilder.UpdateEqual;
     Planbuilder.eupd_Keyspace := Some sharded_ks;
     Planbuilder.Query := "update user set name = x where id = 1";
     Planbuilder.eupd_Vindex := Some hash_vindex;
     Planbuilder.Values := [pv_literal Planbuilder.IntVal [49]%Z];
     Planbuilder.ChangedVindexValues :=
       {[ "name_user_map" := [pv_literal Planbuilder.StrVal [120]%Z] ]};
     Planbuilder.eupd_Table := Some user_table;
     Planbuilder.OwnedVindexQuery :=
       "select name from user where id = 1 for update" |}.

(** The definition of the table [t], with the columns [msg] and [id]. *)
Definition table_t : Worker.TableDefinition :=
  {| Worker.td_Name := "t"; Worker.td_Type := Worker.TableBaseTable;
     Worker.td_Columns := ["msg"; "id"];
     Worker.td_PrimaryKeyColumns := ["id"] |}.

(** A keyspace whose tables keep their keyspace id in the bytes column [id]. *)
Definition bytes_keyspace : Worker.KeyspaceInfo :=
  {| Worker.ShardingColumnName := "id";
     Worker.ShardingColumnType := Worker.KeyspaceIdType_BYTES |}.

(** A vindex that maps a value to its own bytes. *)
Definition identity_vindex : Vindex :=
  {| vindex_String := "binary";
     vindex_Map := λ _ ids,
       match ids with
       | [v] => ([DestinationKeyspaceID (val v)], None)
       | _ => ([], Some (errors_New "one value expected"))
       end;
     vindex_implements_Lookup := false |}.

(** A keyspace schema with the table [t], sharded by [identity_vindex] on
    its column [id]. *)
Definition binary_index : ColumnVindex :=
  {| Columns := ["id"]; cv_Type := "binary"; cv_Name := "id_index";
     Owned := false; cv_Vindex := identity_vindex |}.

Definition binary_table : Table :=
  {| Table_Name := "t";
     Table_Keyspace := {| Keyspace_Name := "ks"; Sharded := true |};
     ColumnVindexes := [binary_index];
     Table_Owned := [] |}.

Definition schema_identity : KeyspaceSchema :=
  {| ks_Keyspace := {| Keyspace_Name := "ks"; Sharded := true |};
     Tables := {[ "t" := binary_table ]} |}.

(** The owned lookup vindex [full_name_map] on the two columns [first] and
    [last], the hash vindex [email_index] and the lookup vindex [phone_map]
    that the table does not own. *)
Definition full_name_map : ColumnVindex :=
  {| Columns := ["first"; "last"]; cv_Type := "lookup";
     cv_Name := "full_name_map"; Owned := true; cv_Vindex := lookup_vindex |}.

Definition email_index : ColumnVindex :=
  {| Columns := ["email"]; cv_Type := "hash"; cv_Name := "email_index";
     Owned := false; cv_Vindex := hash_vindex |}.

Definition phone_map : ColumnVindex :=
  {| Columns := ["phone"]; cv_Type := "lookup"; cv_Name := "phone_map";
     Owned := false; cv_Vindex := lookup_vindex |}.

(** [update user set <exprs> where id = 1 limit 10] *)
Definition update_limit (exprs : list Planbuilder.UpdateExpr) : Planbuilder.Update :=
  {| Planbuilder.upd_TableExprs := "user";
     Planbuilder.Exprs := exprs;
     Planbuilder.upd_Where := Some "id = 1";
     Planbuilder.OrderBy := [];
     Planbuilder.upd_Limit := Some "10" |}.

(** The plan of [update user set msg = 'x' where id = 1 limit 10]. *)
Definition set_msg_plan : Planbuilder.engine_Update :=
  {| Planbuilder.Opcode := Planbuilder.UpdateEqual;
     Planbuilder.eupd_Keyspace := Some sharded_ks;
     Planbuilder.Query := "update user set msg = x where id = 1 limit 10";
     Planbuilder.eupd_Vindex := Some hash_vindex;
     Planbuilder.Values := [pv_literal Planbuilder.IntVal [49]%Z];
     Planbuilder.ChangedVindexValues := ∅;
     Planbuilder.eupd_Table := Some user_table;
     Planbuilder.OwnedVindexQuery := "" |}.

(** Column types of the concrete tablet environment: the text of the type,
    whether the column is NOT NULL, and the default. *)
Record column_type := {
  ct_text : string;
  ct_not_null : bool;
  ct_default : option string
}.

(** A text as a value of type VARCHAR. *)
Definition text_value (s : string) : Value :=
  {| typ := 6165; val := Vtexplain.bytes_of s |}.

Definition vtexplain_externals : Vtexplain.Externals := {|
  Vtexplain.sqltypes_Int32 := 263;
  Vtexplain.sqltypes_Uint64 := 778;
  Vtexplain.sqltypes_VarChar := 6165;
  Vtexplain.sqltypes_MakeTrusted := λ t b, {| typ := t; val := b |};
  Vtexplain.sqltypes_MakeString := λ b, {| typ := 10262; val := b |};
  Vtexplain.TableIdent_String := λ t, t;
  Vtexplain.ColumnType := column_type;
  Vtexplain.DefaultValue := string;
  Vtexplain.ColumnType_Default := ct_default;
  Vtexplain.ColumnType_NotNull := ct_not_null;
  Vtexplain.ColumnType_DescribeType := ct_text;
  Vtexplain.ColumnType_SqlType := λ ct,
    if bool_decide (ct_text ct = "bigint") then 265%Z else 6165%Z;
  Vtexplain.sqlparser_String := λ d, "'" +:+ d +:+ "'";
  Vtexplain.mysql_BaseShowTables := "show tables";
  Vtexplain.mysql_BaseShowTablesFields :=
    [ {| Vtexplain.Field_Name := "table_name"; Vtexplain.Field_Type := 6165 |};
      {| Vtexplain.Field_Name := "table_comment"; Vtexplain.Field_Type := 6165 |} ];
  Vtexplain.mysql_BaseShowTablesRow := λ table _ comment,
    [text_value table; text_value comment];
  Vtexplain.mysql_BaseShowTablesForTable := λ table,
    "show tables like '" +:+ table +:+ "'";
  Vtexplain.mysql_ShowIndexFromTableFields :=
    [ {| Vtexplain.Field_Name := "Table"; Vtexplain.Field_Type := 6165 |};
      {| Vtexplain.Field_Name := "Non_unique"; Vtexplain.Field_Type := 6165 |};
      {| Vtexplain.Field_Name := "Key_name"; Vtexplain.Field_Type := 6165 |};
      {| Vtexplain.Field_Name := "Seq_in_index"; Vtexplain.Field_Type := 265 |};
      {| Vtexplain.Field_Name := "Column_name"; Vtexplain.Field_Type := 6165 |} ];
  Vtexplain.mysql_ShowIndexFromTableRow := λ table unique name seq column _,
    [ text_value table; text_value (if unique then "0" else "1");
      text_value name; {| typ := 265; val := [48 + seq]%Z |};
      text_value column ];
  Vtexplain.mysql_DescribeTableFields :=
    [ {| Vtexplain.Field_Name := "Field"; Vtexplain.Field_Type := 6165 |};
      {| Vtexplain.Field_Name := "Type"; Vtexplain.Field_Type := 6165 |};
      {| Vtexplain.Field_Name := "Null"; Vtexplain.Field_Type := 6165 |};
      {| Vtexplain.Field_Name := "Key"; Vtexplain.Field_Type := 6165 |};
      {| Vtexplain.Field_Name := "Default"; Vtexplain.Field_Type := 6165 |} ];
  Vtexplain.mysql_DescribeTableRow := λ name type null key default,
    [ text_value name; text_value type;
      text_value (if null then "YES" else "NO"); text_value key;
      text_value default ]
|}.
#[local] Existing Instance vtexplain_externals.

(** [create table t (id bigint not null, msg varchar(64) default 'none',
    primary key (id), key by_msg (msg, id))] *)
Definition create_t : Vtexplain.DDL :=
  {| Vtexplain.NewName := {| Vtexplain.tn_Name := "t" |};
     Vtexplain.ddl_TableSpec := Some
       {| Vtexplain.ts_Columns :=
            [ {| Vtexplain.cd_Name := "id";
                 Vtexplain.cd_Type :=
                   {| ct_text := "bigint"; ct_not_null := true;
                      ct_default := None |} |};
              {| Vtexplain.cd_Name := "msg";
                 Vtexplain.cd_Type :=
                   {| ct_text := "varchar(64)"; ct_not_null := false;
                      ct_default := Some "none" |} |} ];
          Vtexplain.Indexes :=
            [ {| Vtexplain.Info :=
                   {| Vtexplain.Primary := true; Vtexplain.Unique := true;
                      Vtexplain.ii_Name := "PRIMARY" |};
                 Vtexplain.idx_Columns := ["id"] |};
              {| Vtexplain.Info :=
                   {| Vtexplain.Primary := false; Vtexplain.Unique := false;
                      Vtexplain.ii_Name := "by_msg" |};
                 Vtexplain.idx_Columns := ["msg"; "id"] |} ] |} |}.

(** [create table t (name varchar(64), unique key by_name (name))], a second
    statement on the table [t]. *)
Definition create_t_again : Vtexplain.DDL :=
  {| Vtexplain.NewName := {| Vtexplain.tn_Name := "t" |};
     Vtexplain.ddl_TableSpec := Some
       {| Vtexplain.ts_Columns :=
            [ {| Vtexplain.cd_Name := "name";
                 Vtexplain.cd_Type :=
                   {| ct_text := "varchar(64)"; ct_not_null := false;
                      ct_default := None |} |} ];
          Vtexplain.Indexes :=
            [ {| Vtexplain.Info :=
                   {| Vtexplain.Primary := false; Vtexplain.Unique := true;
                      Vtexplain.ii_Name := "by_name" |};
                 Vtexplain.idx_Columns := ["name"] |} ] |} |}.

(** [create table u (id bigint not null, primary key (id))] *)
Definition create_u : Vtexplain.DDL :=
  {| Vtexplain.NewName := {| Vtexplain.tn_Name := "u" |};
     Vtexplain.ddl_TableSpec := Some
       {| Vtexplain.ts_Columns :=
            [ {| Vtexplain.cd_Name := "id";
                 Vtexplain.cd_Type :=
                   {| ct_text := "bigint"; ct_not_null := true;
                      ct_default := None |} |} ];
          Vtexplain.Indexes :=
            [ {| Vtexplain.Info :=
                   {| Vtexplain.Primary := true; Vtexplain.Unique := true;
                      Vtexplain.ii_Name := "PRIMARY" |};
                 Vtexplain.idx_Columns := ["id"] |} ] |} |}.

(** [rename table s to t], a statement without table specification. *)
Definition rename_to_t : Vtexplain.DDL :=
  {| Vtexplain.NewName := {| Vtexplain.tn_Name := "t" |};
     Vtexplain.ddl_TableSpec := None |}.

End Fixture.


(** ** Vocabulary of the properties *)

(** Position of the first occurrence of [name] in [names], -1 when absent. *)
Definition first_occurrence (names : list string) (name : string) : Z :=
  match list_find (λ n, n = name) names with
  | Some (i, _) => Z.of_nat i
  | None => (-1)%Z
  end.

(** The claim on [keyspaceID] of the vindex-based resolver, for a row
    holding the sharding-column value [v]: success is exactly a [Map] without
    error giving one non-empty resolved keyspace id, and every other case is
    an error naming the value or the destinations. *)
Definition keyspaceID_failure_names_offender `{Worker.Externals}
    (r : Worker.v3Resolver) (row : list Value) : Prop :=
  ∀ v, index row (Worker.v3_shardingColumnIndex r) = Returned v →
    (∀ b, Worker.v3_keyspaceID r row = Returned (b, None) ↔
          vindex_Map (Worker.v3_vindex r) None [v] = ([DestinationKeyspaceID b], None)
          ∧ b ≠ []) ∧
    ((∀ b, Worker.v3_keyspaceID r row ≠ Returned (b, None)) →
     ∃ e, Worker.v3_keyspaceID r row = Returned ([], Some e) ∧
          (error_names (Worker.Value_String v) e ∨
           error_names
             (Worker.DestinationsString (vindex_Map (Worker.v3_vindex r) None [v]).1) e ∨
           ∃ d, d ∈ (vindex_Map (Worker.v3_vindex r) None [v]).1 ∧
                error_names (Worker.Destination_String d) e)).

(** [assignment] targets the column [vcol]: the test of the scan. *)
Definition targets `{Idents} (vcol : ColIdent)
    (assignment : Planbuilder.UpdateExpr) : bool :=
  ColIdent_Equal vcol (Planbuilder.Name (Planbuilder.ue_Name assignment)).

(** [buildUpdatePlan] gets as far as changed-vindex detection on [vtable]:
    the statement resolves to a single route without target destination in
    a sharded keyspace, has no subquery, touches the one table [vtable], and
    its routing is found. *)
Definition reaches_vindex_detection `{Planbuilder.Externals}
    (upd : Planbuilder.Update) (vschema : Planbuilder.VSchema)
    (vtable : Table) : Prop :=
  ∃ rb,
    Planbuilder.processTableExprs (Planbuilder.upd_TableExprs upd) vschema
      = Ok (Planbuilder.builder_route rb) ∧
    Planbuilder.TargetDestination (Planbuilder.ERoute rb) = None ∧
    Sharded (Planbuilder.Route_Keyspace (Planbuilder.ERoute rb)) = true ∧
    Planbuilder.hasSubquery upd = false ∧
    length (Planbuilder.Symtab_tables rb) = 1%nat ∧
    Planbuilder.last_vindexTable (Planbuilder.Symtab_tables rb) = Some vtable ∧
    (Planbuilder.getDMLRouting (Planbuilder.upd_Where upd) vtable).2 = None.

(** Detection gets as far as scanning the SET list for column [vcol] of the
    vindex [v]: the vindexes before [v] and the columns of [v] before [vcol]
    went through without error. *)
Definition scan_reaches `{Planbuilder.Externals}
    (update : Planbuilder.Update) (colVindexes pre : list ColumnVindex)
    (v : ColumnVindex) (cpre : list ColIdent) (vcol : ColIdent) : Prop :=
  (∃ post, colVindexes = pre ++ v :: post) ∧
  (∃ cpost, Columns v = cpre ++ vcol :: cpost) ∧
  (∃ changed, Planbuilder.scan_vindexes update 0 pre ∅ = Ok changed) ∧
  (∃ vals, Planbuilder.scan_columns (Planbuilder.Exprs update) cpre [] = Ok vals).

(** The text of the fetch subquery as the claim words it. *)
Definition expected_subquery `{Idents} `{Planbuilder.Ast}
    (upd : Planbuilder.Update) (vtable : Table) : string :=
  "select " +:+
  join ", " (ColIdent_Format <$> (Table_Owned vtable ≫= Columns)) +:+
  " from " +:+ TableIdent_Format (Table_Name vtable) +:+
  Planbuilder.Where_Format (Planbuilder.upd_Where upd) +:+
  Planbuilder.OrderBy_Format (Planbuilder.OrderBy upd) +:+
  Planbuilder.Limit_Format (Planbuilder.upd_Limit upd) +:+ " for update".


(** The claim on value extraction, for a statement that gets as far as
    changed-vindex detection: whenever an assignment to a column of a column
    vindex after the primary one holds no value, planning fails with the
    "Only values are supported" error of that assignment. *)
Definition only_values_error_for_every_assignment `{Planbuilder.Externals}
    (upd : Planbuilder.Update) (vschema : Planbuilder.VSchema)
    (vtable : Table) : Prop :=
  reaches_vindex_detection upd vschema vtable →
  ∀ k v vcol a,
    ColumnVindexes vtable !! k = Some v → (0 < k)%nat →
    vcol ∈ Columns v → a ∈ Planbuilder.Exprs upd → targets vcol a = true →
    Planbuilder.IsValue (Planbuilder.ue_Expr a) = false →
    Planbuilder.buildUpdatePlan upd vschema
    = Err (Planbuilder.err_only_values a).

(** [hasSubquery] finds the subqueries that the SET list assigns. *)
Definition finds_assigned_subqueries `{Planbuilder.Externals}
    (upd : Planbuilder.Update) : Prop :=
  ∀ a sel,
    a ∈ Planbuilder.Exprs upd →
    Planbuilder.ue_Expr a = Planbuilder.Subquery sel →
    Planbuilder.hasSubquery upd = true.

(** The claim on duplicate assignments, for a statement that gets as far as
    changed-vindex detection: whenever two or more assignments target a
    column of some column-vindex, planning fails with the duplicate error
    of one of them. *)
Definition duplicates_always_reported `{Planbuilder.Externals}
    (upd : Planbuilder.Update) (vschema : Planbuilder.VSchema)
    (vtable : Table) : Prop :=
  reaches_vindex_detection upd vschema vtable →
  ∀ v vcol,
    v ∈ ColumnVindexes vtable → vcol ∈ Columns v →
    (2 ≤ length (filter (targets vcol) (Planbuilder.Exprs upd)))%nat →
    ∃ a, a ∈ Planbuilder.Exprs upd ∧ targets vcol a = true ∧
         Planbuilder.buildUpdatePlan upd vschema
         = Err (Planbuilder.err_duplicate_set_values a).

(** Every element of [l] with the separator of the column list before it. *)
Definition with_separators (l : list string) : string :=
  foldr (λ c acc, ", " +:+ c +:+ acc) "" l.

(** The separator test of [generateUpdateSubquery] tells the first column
    by its indexes, 0 and 0: it finds it in a table whose first owned vindex
    has a column, and has nothing to find in one whose owned vindexes have
    no column at all.  A vindex of the repository is over at least one
    column: both constructors of the vindex-based resolver read
    [Columns[0]] unguarded. *)
Definition first_owned_has_column `{Idents} (vtable : Table) : Prop :=
  (∀ cv, cv ∈ Table_Owned vtable → Columns cv = []) ∨
  match Table_Owned vtable with
  | cv :: _ => Columns cv ≠ []
  | [] => False
  end.

(** Some assignment of the SET list targets a column of the vindex [v]. *)
Definition touched `{Idents} `{Planbuilder.Ast}
    (update : Planbuilder.Update) (v : ColumnVindex) : Prop :=
  ∃ vcol a, vcol ∈ Columns v ∧ a ∈ Planbuilder.Exprs update ∧
            targets vcol a = true.

(** The SET list assigns the column [vcol] exactly once, a value that
    extraction returns as [pv]. *)
Definition assigned_value `{Planbuilder.Externals}
    (update : Planbuilder.Update) (vcol : ColIdent)
    (pv : Planbuilder.PlanValue) : Prop :=
  ∃ a, filter (targets vcol) (Planbuilder.Exprs update) = [a] ∧
       Planbuilder.extractValueFromUpdate a vcol = Ok pv.

(** The vindex [v] has columns, and the SET list assigns each of them
    exactly once, a value that extraction returns. *)
Definition fully_assigned `{Planbuilder.Externals}
    (update : Planbuilder.Update) (v : ColumnVindex) : Prop :=
  Columns v ≠ [] ∧
  ∀ vcol, vcol ∈ Columns v → ∃ pv, assigned_value update vcol pv.

(** Detection gets as far as the vindex [v], which follows the vindexes
    [pre]: these went through without error. *)
Definition vindex_reached `{Planbuilder.Externals}
    (update : Planbuilder.Update) (colVindexes pre : list ColumnVindex)
    (v : ColumnVindex) : Prop :=
  (∃ post, colVindexes = pre ++ v :: post) ∧
  (∃ changed, Planbuilder.scan_vindexes update 0 pre ∅ = Ok changed).

(** The statement [update] with another SET list. *)
Definition with_Exprs `{Idents} `{Planbuilder.Ast}
    (update : Planbuilder.Update) (exprs : list Planbuilder.UpdateExpr)
  : Planbuilder.Update :=
  {| Planbuilder.upd_TableExprs := Planbuilder.upd_TableExprs update;
     Planbuilder.Exprs := exprs;
     Planbuilder.upd_Where := Planbuilder.upd_Where update;
     Planbuilder.OrderBy := Planbuilder.OrderBy update;
     Planbuilder.upd_Limit := Planbuilder.upd_Limit update |}.

(** The column list that [generateUpdateSubquery] writes for the owned
    vindexes [owned]: when the first of them has a column, the columns with
    separators between them; when it has none, every column after a
    separator. *)
Definition subquery_columns `{Idents} (owned : list ColumnVindex) : string :=
  match owned with
  | cv :: _ =>
      match Columns cv with
      | _ :: _ => join ", " (ColIdent_Format <$> (owned ≫= Columns))
      | [] => with_separators (ColIdent_Format <$> (owned ≫= Columns))
      end
  | [] => ""
  end.

(** The row of the table list for the statement [ddl]. *)
Definition show_table_row `{Vtexplain.Externals} (ddl : Vtexplain.DDL)
  : list Value :=
  Vtexplain.mysql_BaseShowTablesRow (Vtexplain.table_of ddl) false "".

(** The statement behind the pointer [ddl] is there and has a table
    specification. *)
Definition specified `{Vtexplain.Externals} (ddl : option Vtexplain.DDL)
  : bool :=
  match ddl with
  | Some ddl => bool_decide (is_Some (Vtexplain.ddl_TableSpec ddl))
  | None => false
  end.

(** The rows for the indexes of the table [table] with the specification
    [spec]: one for each column of each index, in order, the columns of an
    index numbered from 1. *)
Definition index_rows `{Vtexplain.Externals} (table : string)
    (spec : Vtexplain.TableSpec) : list (list Value) :=
  Vtexplain.Indexes spec ≫= λ idx,
    imap (λ k col,
            Vtexplain.mysql_ShowIndexFromTableRow table
              (Vtexplain.Unique (Vtexplain.Info idx))
              (ColIdent_String (Vtexplain.ii_Name (Vtexplain.Info idx)))
              (Z.of_nat k + 1) (ColIdent_String col) false)
         (Vtexplain.idx_Columns idx).

(** The names, as [String] gives them, of the columns of the primary
    indexes of a table. *)
Definition primary_key_names `{Vtexplain.Externals}
    (spec : Vtexplain.TableSpec) : list string :=
  Vtexplain.Indexes spec ≫= λ idx,
    if Vtexplain.Primary (Vtexplain.Info idx)
    then ColIdent_String <$> Vtexplain.idx_Columns idx
    else [].

(** The row that describes the column [col] of a table: the column is
    marked [PRI] when its name is one of the primary-key names. *)
Definition describe_row `{Vtexplain.Externals} (spec : Vtexplain.TableSpec)
    (col : Vtexplain.ColumnDefinition) : list Value :=
  Vtexplain.mysql_DescribeTableRow
    (ColIdent_String (Vtexplain.cd_Name col))
    (Vtexplain.ColumnType_DescribeType (Vtexplain.cd_Type col))
    (negb (Vtexplain.ColumnType_NotNull (Vtexplain.cd_Type col)))
    (if bool_decide (ColIdent_String (Vtexplain.cd_Name col)
                       ∈ primary_key_names spec)
     then "PRI" else "")
    (default "" (Vtexplain.sqlparser_String <$>
                   Vtexplain.ColumnType_Default (Vtexplain.cd_Type col))).

(** The field of the column [col] in a row of its table. *)
Definition row_type `{Vtexplain.Externals} (col : Vtexplain.ColumnDefinition)
  : Vtexplain.Field :=
  {| Vtexplain.Field_Name := ColIdent_String (Vtexplain.cd_Name col);
     Vtexplain.Field_Type :=
       Vtexplain.ColumnType_SqlType (Vtexplain.cd_Type col) |}.

(** The three queries on the table [table] whose text is written out in
    [initTabletEnvironment]. *)
Definition own_keys (table : string) : list string :=
  [ "show index from " +:+ table;
    "describe " +:+ table;
    "select * from " +:+ table +:+ " where 1 != 1" ].

(** The four results stored for a statement [ddl] with the table
    specification [spec]. *)
Definition table_row_result `{Vtexplain.Externals} (ddl : Vtexplain.DDL)
  : Vtexplain.Result :=
  {| Vtexplain.Fields := Vtexplain.mysql_BaseShowTablesFields;
     Vtexplain.RowsAffected := 1;
     Vtexplain.Rows := [show_table_row ddl] |}.

Definition index_result `{Vtexplain.Externals} (table : string)
    (spec : Vtexplain.TableSpec) : Vtexplain.Result :=
  {| Vtexplain.Fields := Vtexplain.mysql_ShowIndexFromTableFields;
     Vtexplain.RowsAffected := Z.of_nat (length (index_rows table spec));
     Vtexplain.Rows := index_rows table spec |}.

Definition describe_result `{Vtexplain.Externals} (spec : Vtexplain.TableSpec)
  : Vtexplain.Result :=
  {| Vtexplain.Fields := Vtexplain.mysql_DescribeTableFields;
     Vtexplain.RowsAffected :=
       Z.of_nat (length (Vtexplain.ts_Columns spec));
     Vtexplain.Rows := describe_row spec <$> Vtexplain.ts_Columns spec |}.

Definition fields_result `{Vtexplain.Externals} (spec : Vtexplain.TableSpec)
  : Vtexplain.Result :=
  {| Vtexplain.Fields := row_type <$> Vtexplain.ts_Columns spec;
     Vtexplain.RowsAffected := 0;
     Vtexplain.Rows := [] |}.

(** The result stored for the list of all tables. *)
Definition show_tables_result `{Vtexplain.Externals}
    (ddls : list Vtexplain.DDL) : Vtexplain.Result :=
  {| Vtexplain.Fields := Vtexplain.mysql_BaseShowTablesFields;
     Vtexplain.RowsAffected := Z.of_nat (length ddls);
     Vtexplain.Rows := show_table_row <$> ddls |}.

(** The queries for the statement behind [ddl], added to [schemaQueries] in
    the order of the source; nothing for a pointer that is not
    [specified]. *)
Definition table_entries `{Vtexplain.Externals} (ddl : option Vtexplain.DDL)
    (schemaQueries : gmap string Vtexplain.Result)
  : gmap string Vtexplain.Result :=
  match ddl with
  | Some ddl =>
      match Vtexplain.ddl_TableSpec ddl with
      | Some spec =>
          <[ "select * from " +:+ Vtexplain.table_of ddl +:+ " where 1 != 1" :=
               fields_result spec ]>
          (<[ "describe " +:+ Vtexplain.table_of ddl := describe_result spec ]>
          (<[ "show index from " +:+ Vtexplain.table_of ddl :=
                index_result (Vtexplain.table_of ddl) spec ]>
          (<[ Vtexplain.mysql_BaseShowTablesForTable (Vtexplain.table_of ddl) :=
                table_row_result ddl ]> schemaQueries)))
      | None => schemaQueries
      end
  | None => schemaQueries
  end.

(** The keys written for the statement [ddl]. *)
Definition table_keys `{Vtexplain.Externals} (ddl : Vtexplain.DDL)
  : list string :=
  Vtexplain.mysql_BaseShowTablesForTable (Vtexplain.table_of ddl)
  :: own_keys (Vtexplain.table_of ddl).

(** The five queries whose results do not depend on the statements. *)
Definition fixed_keys : list string :=
  [ "select unix_timestamp()";
    "select @@global.sql_mode";
    "select @@autocommit";
    "select user_id from name_user_map where name = 'bob' limit 10001";
    "show variables like 'binlog_format'" ].

(** A result says that it affects as many rows as it holds. *)
Definition counts_its_rows (r : Vtexplain.Result) : Prop :=
  Vtexplain.RowsAffected r = Z.of_nat (length (Vtexplain.Rows r)).


(** * Properties of the keyspace-id resolvers *)

Section WorkerFacts.
Import Worker.
Context `{Externals}.

Lemma primaryIndexes_inner_spec (names : list string) (name : string)
    (i : Z) (acc : list Z) :
  primaryIndexes_inner names name i acc =
  match list_find (λ n, n = name) names with
  | Some (k, _) => acc ++ [(i + Z.of_nat k)%Z]
  | None => acc
  end.
Proof.
  revert i. induction names as [|n names IH]; intros i; simpl; [done|].
  destruct (decide (n = name)) as [->|Hne].
  - by rewrite Z.add_0_r.
  - rewrite IH. destruct (list_find _ names) as [[k x]|]; simpl; [|done].
    do 2 f_equal. lia.
Qed.

Lemma first_occurrence_elem (names : list string) (name : string) :
  name ∈ names →
  ∃ i, list_find (λ n, n = name) names = Some (i, name).
Proof.
  intros Hin.
  destruct (list_find (λ n, n = name) names) as [[i x]|] eqn:Hfind.
  - apply list_find_Some in Hfind as (_ & -> & _). eauto.
  - apply list_find_None in Hfind. rewrite Forall_forall in Hfind.
    by destruct (Hfind _ Hin).
Qed.

Lemma primaryIndexes_outer_spec (pk names : list string) (acc : list Z) :
  Forall (λ name, name ∈ pk) names →
  primaryIndexes_outer pk names acc = acc ++ (first_occurrence pk <$> names).
Proof.
  revert acc. induction names as [|name names IH]; intros acc Hall; simpl.
  - by rewrite app_nil_r.
  - apply Forall_cons in Hall as [Hin Hall].
    rewrite IH by done. rewrite primaryIndexes_inner_spec.
    unfold first_occurrence at 2.
    destruct (first_occurrence_elem pk name Hin) as [i ->].
    by rewrite <- app_assoc.
Qed.

Lemma primaryIndexes_outer_self (pk : list string) :
  primaryIndexes_outer pk pk [] = first_occurrence pk <$> pk.
Proof.
  rewrite primaryIndexes_outer_spec; [done|].
  by apply Forall_forall.
Qed.

(** C2: on a vindex-based resolver [primaryIndexes] returns one index per
    declared primary-key column name, in order: the position of the first
    occurrence of that name within the primary-key name list itself (the
    table's column list is not consulted); for the list ["b"; "a"] the
    result is [0; 1]. *)
Theorem v3_primaryIndexes_first_occurrence (r : v3Resolver) (td : TableDefinition) :
  v3_td r = Some td →
  ∃ idxs,
    v3_primaryIndexes r = Returned idxs ∧
    length idxs = length (td_PrimaryKeyColumns td) ∧
    (∀ k name, td_PrimaryKeyColumns td !! k = Some name →
       ∃ i, idxs !! k = Some (Z.of_nat i) ∧
            td_PrimaryKeyColumns td !! i = Some name ∧
            (i ≤ k)%nat ∧
            ∀ j, (j < i)%nat → td_PrimaryKeyColumns td !! j ≠ Some name) ∧
    (td_PrimaryKeyColumns td = ["b"; "a"] → idxs = [0; 1]%Z).
Proof.
  intros Htd. exists (first_occurrence (td_PrimaryKeyColumns td) <$> td_PrimaryKeyColumns td).
  set (pk := td_PrimaryKeyColumns td).
  split; [|split; [|split]].
  - unfold v3_primaryIndexes. rewrite Htd. simpl.
    by rewrite primaryIndexes_outer_self.
  - by rewrite length_fmap.
  - intros k name Hk.
    assert (Hin : name ∈ pk) by (apply list_elem_of_lookup; eauto).
    destruct (first_occurrence_elem pk name Hin) as [i Hfind].
    exists i. rewrite list_lookup_fmap, Hk. simpl.
    unfold first_occurrence. rewrite Hfind.
    apply list_find_Some in Hfind as (Hi & _ & Hbefore).
    split; [done|]. split; [done|]. split.
    + destruct (decide (i ≤ k)%nat) as [|Hgt]; [done|].
      exfalso. apply (Hbefore k name); [done|lia|done].
    + intros j Hj Hlook. by apply (Hbefore j name).
  - intros Hpk. subst pk. by rewrite Hpk.
Qed.

Lemma v3_primaryIndexes_first_occurrence_witness :
  ∃ idxs,
    v3_primaryIndexes
      {| v3_shardingColumnIndex := 0;
         v3_vindex := {| vindex_String := "hash";
                         vindex_Map := λ _ _, ([], None);
                         vindex_implements_Lookup := false |};
         v3_td := Some {| td_Name := "t"; td_Type := TableBaseTable;
                          td_Columns := ["a"; "b"];
                          td_PrimaryKeyColumns := ["b"; "a"] |} |}
    = Returned idxs ∧ idxs = [0; 1]%Z.
Proof.
  destruct (v3_primaryIndexes_first_occurrence
    {| v3_shardingColumnIndex := 0;
       v3_vindex := {| vindex_String := "hash";
                       vindex_Map := λ _ _, ([], None);
                       vindex_implements_Lookup := false |};
       v3_td := Some {| td_Name := "t"; td_Type := TableBaseTable;
                        td_Columns := ["a"; "b"];
                        td_PrimaryKeyColumns := ["b"; "a"] |} |}
    {| td_Name := "t"; td_Type := TableBaseTable;
       td_Columns := ["a"; "b"]; td_PrimaryKeyColumns := ["b"; "a"] |}
    eq_refl) as (idxs & Hret & _ & _ & Hba).
  exists idxs. split; [exact Hret|]. apply Hba. reflexivity.
Defined.

(** C3: on the fixed-column resolver the three accessors are unsupported and
    say so: [shouldDebug] returns the error [errV2unsupported] and never a
    boolean with a nil error; [primaryColumns] and [primaryIndexes] panic
    with that error's message and never return a list, empty or not. *)
Theorem v2_accessors_unsupported (r : v2Resolver) :
  v2_shouldDebug r = Returned (false, Some errV2unsupported) ∧
  (∀ b, v2_shouldDebug r ≠ Returned (b, None)) ∧
  v2_primaryColumns r = Panicked (panic_string "Should debug unsupported for v2") ∧
  (∀ cols, v2_primaryColumns r ≠ Returned cols) ∧
  v2_primaryIndexes r = Panicked (panic_string "Should debug unsupported for v2") ∧
  (∀ idxs, v2_primaryIndexes r ≠ Returned idxs).
Proof. repeat split; intros; discriminate. Qed.

Lemma uint64_byte_range (i k : Z) : (0 ≤ uint64_byte i k < 256)%Z.
Proof.
  unfold uint64_byte. change 255%Z with (Z.ones 8).
  rewrite Z.land_ones by lia. apply Z.mod_pos_bound. lia.
Qed.

Lemma Uint64Key_Bytes_roundtrip (i : Z) :
  (0 ≤ i < 2 ^ 64)%Z → BigEndian_Uint (Uint64Key_Bytes i) = i.
Proof.
  intros Hi. unfold BigEndian_Uint, Uint64Key_Bytes, uint64_byte. simpl.
  change 255%Z with (Z.ones 8).
  rewrite !Z.land_ones by lia. rewrite !Z.shiftr_div_pow2 by lia.
  simpl Z.pow. Z.div_mod_to_equations. lia.
Qed.

Lemma index_lookup {A} (s : list A) (i : Z) (a : A) :
  (0 ≤ i)%Z → s !! Z.to_nat i = Some a → index s i = Returned a.
Proof.
  intros Hi Hlook. unfold index.
  destruct (decide (0 ≤ i)%Z); [|lia]. by rewrite Hlook.
Qed.

(** C6: on a fixed-column resolver, for a row that holds the sharding column,
    [keyspaceID] goes by the declared sharding-column type.  For bytes it
    returns the raw bytes of the value unchanged.  For uint64 it converts the
    value with [ToUint64]: a failure comes back wrapped as "Non numerical
    value", a number comes back as its eight bytes, most significant first,
    from which the number is read back (300 gives 00 00 00 00 00 00 01 2C).
    Any other declared type gives the unsupported-type error. *)
Theorem v2_keyspaceID_by_type (r : v2Resolver) (row : list Value) (v : Value) :
  (0 ≤ v2_shardingColumnIndex r)%Z →
  row !! Z.to_nat (v2_shardingColumnIndex r) = Some v →
  match ShardingColumnType (v2_keyspaceInfo r) with
  | KeyspaceIdType_BYTES => v2_keyspaceID r row = Returned (val v, None)
  | KeyspaceIdType_UINT64 =>
      match ToUint64 v with
      | (i, None) =>
          v2_keyspaceID r row = Returned (Uint64Key_Bytes i, None) ∧
          length (Uint64Key_Bytes i) = 8%nat ∧
          Forall (λ x, 0 ≤ x < 256)%Z (Uint64Key_Bytes i) ∧
          ((0 ≤ i < 2 ^ 64)%Z → BigEndian_Uint (Uint64Key_Bytes i) = i)
      | (_, Some err) =>
          v2_keyspaceID r row =
          Returned ([], Some (vterrors_Wrap err "Non numerical value"))
      end
  | t =>
      v2_keyspaceID r row =
      Returned ([], Some (errors_New
        ("unsupported ShardingColumnType: " +:+ KeyspaceIdType_String t)))
  end ∧
  Uint64Key_Bytes 300 = [0; 0; 0; 0; 0; 0; 1; 44]%Z.
Proof.
  intros Hidx Hrow. split; [|reflexivity].
  unfold v2_keyspaceID. rewrite (index_lookup _ _ _ Hidx Hrow). simpl.
  destruct (ShardingColumnType (v2_keyspaceInfo r)); try reflexivity.
  destruct (ToUint64 v) as [i [err|]]; [reflexivity|].
  split; [reflexivity|]. split; [reflexivity|]. split.
  - unfold Uint64Key_Bytes. rewrite Forall_fmap. apply Forall_forall.
    intros k _. apply uint64_byte_range.
  - apply Uint64Key_Bytes_roundtrip.
Qed.

Lemma string_app_cons (c : ascii) (s t : string) :
  String c s +:+ t = String c (s +:+ t).
Proof. reflexivity. Qed.

Lemma string_app_nil_r (s : string) : s +:+ "" = s.
Proof.
  induction s as [|c s IH]; [done|]. by rewrite string_app_cons, IH.
Qed.

Lemma string_app_assoc (s1 s2 s3 : string) :
  (s1 +:+ s2) +:+ s3 = s1 +:+ s2 +:+ s3.
Proof.
  induction s1 as [|c s1 IH]; [done|]. by rewrite !string_app_cons, IH.
Qed.

Lemma string_app_length (s1 s2 : string) :
  String.length (s1 +:+ s2) = (String.length s1 + String.length s2)%nat.
Proof.
  induction s1 as [|c s1 IH]; [done|]. rewrite string_app_cons. simpl.
  by rewrite IH.
Qed.

Lemma substring_length (s t : string) :
  substring s t → (String.length s ≤ String.length t)%nat.
Proof. intros (pre & post & ->). rewrite !string_app_length. lia. Qed.

Lemma substring_middle (pre s post : string) : substring s (pre +:+ s +:+ post).
Proof. by exists pre, post. Qed.

Lemma substring_suffix (pre s : string) : substring s (pre +:+ s).
Proof. exists pre, "". by rewrite string_app_nil_r. Qed.

(** C5, as the code has it: on a vindex-based resolver, for a row holding the
    sharding-column value [v], [keyspaceID] succeeds with [b] exactly when
    [Map] returns no error and the single destination [DestinationKeyspaceID b]
    with [b] non-empty.  An error of [Map] is returned unchanged, whatever it
    names.  A destination count other than one gives an error naming the
    destinations; a single destination of another variant or with an empty
    id gives an error naming the value and that destination. *)
Theorem v3_keyspaceID_cases (r : v3Resolver) (row : list Value) (v : Value) :
  index row (v3_shardingColumnIndex r) = Returned v →
  (∀ b, v3_keyspaceID r row = Returned (b, None) ↔
        vindex_Map (v3_vindex r) None [v] = ([DestinationKeyspaceID b], None)
        ∧ b ≠ []) ∧
  (∀ ds err, vindex_Map (v3_vindex r) None [v] = (ds, Some err) →
     v3_keyspaceID r row = Returned ([], Some err)) ∧
  (∀ ds, vindex_Map (v3_vindex r) None [v] = (ds, None) → length ds ≠ 1%nat →
     ∃ e, v3_keyspaceID r row = Returned ([], Some e) ∧
          error_names (DestinationsString ds) e) ∧
  (∀ d, vindex_Map (v3_vindex r) None [v] = ([d], None) →
     (∀ b, d = DestinationKeyspaceID b → b = []) →
     ∃ e, v3_keyspaceID r row = Returned ([], Some e) ∧
          error_names (Value_String v) e ∧
          error_names (Destination_String d) e).
Proof.
  intros Hrow. unfold v3_keyspaceID. rewrite Hrow. simpl.
  split; [|split; [|split]].
  - intros b.
    destruct (vindex_Map (v3_vindex r) None [v]) as [ds [err|]];
      [|destruct ds as [|d [|d' ds]]; [|destruct d as [[|x ksid]| | | |]|]];
      (split; [intros ?|intros [? ?]]; by simplify_eq).
  - intros ds err ->. done.
  - intros ds -> Hlen. eexists. split.
    + destruct ds as [|d [|d' ds]]; [reflexivity|done|reflexivity].
    + simpl. apply substring_suffix.
  - intros d -> Hbad. eexists. split.
    + destruct d as [[|x ksid]| | | |]; try reflexivity.
      by specialize (Hbad _ eq_refl).
    + simpl. split; [apply substring_middle|].
      rewrite <- !string_app_assoc. apply substring_suffix.
Qed.

Lemma findColumnIndex_range (col0 : ColIdent) (columns : list string) (i : Z) :
  findColumnIndex col0 columns i = (-1)%Z ∨
  (i ≤ findColumnIndex col0 columns i < i + Z.of_nat (length columns))%Z.
Proof.
  revert i. induction columns as [|n columns IH]; intros i; simpl; [by left|].
  destruct (ColIdent_EqualString col0 n); [right; lia|].
  destruct (IH (i + 1)%Z) as [->|Hr]; [by left|right; lia].
Qed.

Lemma v3_keyspaceID_returns (r : v3Resolver) (row : list Value) (v : Value) :
  index row (v3_shardingColumnIndex r) = Returned v →
  ∃ res, v3_keyspaceID r row = Returned res.
Proof.
  intros Hrow. unfold v3_keyspaceID. rewrite Hrow. simpl.
  destruct (vindex_Map (v3_vindex r) None [v]) as [ds [err|]]; [by eexists|].
  destruct ds as [|d [|d' ds]]; [by eexists| |by eexists].
  destruct d as [[|x ksid]| | | |]; by eexists.
Qed.

(** X28: a vindex-based resolver built from an explicit column list carries
    no table definition.  On it [primaryColumns] and [primaryIndexes] end in
    a nil dereference, [shouldDebug] hands the nil pointer to [debugTable]
    and returns what that returns, with a nil error, and [keyspaceID]
    returns for every row holding the sharding column, whose index lies
    within the column list.  A resolver built from a table definition keeps
    that definition: [primaryColumns] returns its primary-key columns,
    [primaryIndexes] and [keyspaceID] return, and [shouldDebug] hands the
    definition to [debugTable]. *)
Theorem v3_column_list_resolver_lacks_td :
  (∀ keyspaceSchema name columns r,
     newV3ResolverFromColumnList keyspaceSchema name columns = Returned (Ok r) →
     v3_td r = None ∧
     v3_shouldDebug r = obind (debugTable None) (λ b, Returned (b, None)) ∧
     v3_primaryColumns r = Panicked runtime_nil_dereference ∧
     v3_primaryIndexes r = Panicked runtime_nil_dereference ∧
     (0 ≤ v3_shardingColumnIndex r < Z.of_nat (length columns))%Z ∧
     (∀ row v, index row (v3_shardingColumnIndex r) = Returned v →
        ∃ res, v3_keyspaceID r row = Returned res)) ∧
  (∀ keyspaceSchema td r,
     newV3ResolverFromTableDefinition keyspaceSchema td = Returned (Ok r) →
     v3_td r = Some td ∧
     v3_shouldDebug r
     = obind (debugTable (Some td)) (λ b, Returned (b, None)) ∧
     v3_primaryColumns r = Returned (td_PrimaryKeyColumns td) ∧
     (∃ idxs, v3_primaryIndexes r = Returned idxs) ∧
     (∀ row v, index row (v3_shardingColumnIndex r) = Returned v →
        ∃ res, v3_keyspaceID r row = Returned res)).
Proof.
  split.
  - intros ks name columns r. unfold newV3ResolverFromColumnList.
    destruct (Tables ks !! name) as [tableSchema|]; [|discriminate].
    destruct (FindVindexForSharding name (ColumnVindexes tableSchema))
      as [colVindex|err]; [|discriminate].
    destruct (index (Columns colVindex) 0) as [col0|p]; [|discriminate]. simpl.
    destruct (decide (findColumnIndex col0 columns 0 = (-1)%Z)) as [|Hfound];
      [discriminate|].
    intros [= <-]. simpl. repeat split; try done.
    + destruct (findColumnIndex_range col0 columns 0); [done|lia].
    + destruct (findColumnIndex_range col0 columns 0); [done|lia].
    + intros row v Hrow. by eapply v3_keyspaceID_returns.
  - intros ks td r. unfold newV3ResolverFromTableDefinition.
    destruct (decide (td_Type td = TableBaseTable)); [|discriminate].
    destruct (Tables ks !! td_Name td) as [tableSchema|]; [|discriminate].
    destruct (FindVindexForSharding (td_Name td) (ColumnVindexes tableSchema))
      as [colVindex|err]; [|discriminate].
    destruct (index (Columns colVindex) 0) as [col0|p]; [|discriminate]. simpl.
    destruct (TableDefinitionGetColumn td (ColIdent_String col0))
      as [columnIndex [|]]; [|discriminate].
    intros [= <-]. simpl. repeat split; try done.
    + by eexists.
    + intros row v Hrow. by eapply v3_keyspaceID_returns.
Qed.

End WorkerFacts.

(** The properties above, run in the concrete environment. *)
Section WorkerRuns.
Import Worker.
#[local] Existing Instance Fixture.idents.
#[local] Existing Instance Fixture.worker_externals.

(** A uint64 keyspace whose sharding column is the second of the row; the
    row value "300" resolves to the big-endian encoding of 300. *)
Lemma v2_keyspaceID_by_type_witness :
  v2_keyspaceID
    {| v2_keyspaceInfo := {| ShardingColumnName := "keyspace_id";
                             ShardingColumnType := KeyspaceIdType_UINT64 |};
       v2_shardingColumnIndex := 1 |}
    [ {| typ := 263; val := [120]%Z |}; {| typ := 778; val := [51; 48; 48]%Z |} ]
  = Returned ([0; 0; 0; 0; 0; 0; 1; 44]%Z, None).
Proof.
  exact (proj1 (proj1 (v2_keyspaceID_by_type
    {| v2_keyspaceInfo := {| ShardingColumnName := "keyspace_id";
                             ShardingColumnType := KeyspaceIdType_UINT64 |};
       v2_shardingColumnIndex := 1 |}
    [ {| typ := 263; val := [120]%Z |}; {| typ := 778; val := [51; 48; 48]%Z |} ]
    {| typ := 778; val := [51; 48; 48]%Z |}
    ltac:(simpl; lia) eq_refl))).
Defined.

(** A bytes keyspace: the row value AB is the keyspace id. *)
Example v2_keyspaceID_bytes_example :
  v2_keyspaceID
    {| v2_keyspaceInfo := {| ShardingColumnName := "keyspace_id";
                             ShardingColumnType := KeyspaceIdType_BYTES |};
       v2_shardingColumnIndex := 0 |}
    [ {| typ := 10262; val := [171]%Z |} ]
  = Returned ([171]%Z, None).
Proof. reflexivity. Qed.

(** A value that is no number: the parser's error comes back wrapped. *)
Example v2_keyspaceID_non_numerical_example :
  v2_keyspaceID
    {| v2_keyspaceInfo := {| ShardingColumnName := "keyspace_id";
                             ShardingColumnType := KeyspaceIdType_UINT64 |};
       v2_shardingColumnIndex := 0 |}
    [ {| typ := 6165; val := [120]%Z |} ]
  = Returned ([], Some (vterrors_Wrap (errors_New "could not parse value")
                          "Non numerical value")).
Proof. reflexivity. Qed.

(** A mapping to no destination, or to two, is a failure. *)
Example v3_keyspaceID_destination_count_example :
  (∃ e, v3_keyspaceID
          {| v3_shardingColumnIndex := 0;
             v3_vindex := {| vindex_String := "none";
                             vindex_Map := λ _ _, ([], None);
                             vindex_implements_Lookup := false |};
             v3_td := None |}
          [ {| typ := 265; val := [49]%Z |} ]
        = Returned ([], Some e)) ∧
  (∃ e, v3_keyspaceID
          {| v3_shardingColumnIndex := 0;
             v3_vindex := {| vindex_String := "two";
                             vindex_Map := λ _ _,
                               ([DestinationKeyspaceID [1]%Z;
                                 DestinationKeyspaceID [2]%Z], None);
                             vindex_implements_Lookup := false |};
             v3_td := None |}
          [ {| typ := 265; val := [49]%Z |} ]
        = Returned ([], Some e)).
Proof. split; eexists; reflexivity. Qed.

(** A single resolved keyspace id of two bytes is returned as it is. *)
Lemma v3_keyspaceID_cases_witness :
  v3_keyspaceID
    {| v3_shardingColumnIndex := 0; v3_vindex := Fixture.two_byte_vindex;
       v3_td := None |}
    [ {| typ := 265; val := [49]%Z |} ]
  = Returned ([22; 106]%Z, None).
Proof.
  apply (proj1 (v3_keyspaceID_cases
    {| v3_shardingColumnIndex := 0; v3_vindex := Fixture.two_byte_vindex;
       v3_td := None |}
    [ {| typ := 265; val := [49]%Z |} ]
    {| typ := 265; val := [49]%Z |} eq_refl)).
  split; [reflexivity|discriminate].
Defined.

(** The claim fails where [Map] fails: the error "boom" of the vindex comes
    back as it is, and it names neither the value nor any destination. *)
Lemma v3_keyspaceID_map_error_unnamed :
  ¬ keyspaceID_failure_names_offender
      {| v3_shardingColumnIndex := 0; v3_vindex := Fixture.failing_vindex;
         v3_td := None |}
      [ {| typ := 265; val := [49]%Z |} ].
Proof.
  intros Hclaim.
  destruct (Hclaim {| typ := 265; val := [49]%Z |} eq_refl) as [_ Hfail].
  destruct Hfail as (e & Hret & Hnames); [discriminate|].
  injection Hret as <-.
  destruct Hnames as [Hn|[Hn|(d & Hd & _)]].
  - apply substring_length in Hn. vm_compute in Hn. lia.
  - apply substring_length in Hn. vm_compute in Hn. lia.
  - vm_compute in Hd. by apply elem_of_nil in Hd.
Qed.

(** Built from the column list [msg; id], the resolver for [t] reads column 1
    and cannot name its primary-key columns. *)
Lemma v3_column_list_resolver_lacks_td_witness :
  ∃ r, newV3ResolverFromColumnList Fixture.schema_t "t" ["msg"; "id"]
       = Returned (Ok r) ∧
       v3_shardingColumnIndex r = 1%Z ∧
       v3_primaryColumns r = Panicked runtime_nil_dereference.
Proof.
  eexists. split; [vm_compute; reflexivity|]. split; [reflexivity|].
  refine (proj1 (proj2 (proj2 (proj1 v3_column_list_resolver_lacks_td
    Fixture.schema_t "t" ["msg"; "id"] _ _)))).
  vm_compute. reflexivity.
Defined.

End WorkerRuns.

(** * Properties of the UPDATE planner *)

Section PlanbuilderFacts.
Import Planbuilder.
Context `{Externals}.

Lemma extractValueFromUpdate_not_value (a : UpdateExpr) (col : ColIdent) :
  IsValue (ue_Expr a) = false →
  extractValueFromUpdate a col = Err (err_only_values a).
Proof. intros Hv. unfold extractValueFromUpdate. by rewrite Hv. Qed.

Lemma extractValueFromUpdate_Ok (a : UpdateExpr) (col : ColIdent) (pv : PlanValue) :
  extractValueFromUpdate a col = Ok pv →
  IsValue (ue_Expr a) = true ∧ NewPlanValue (ue_Expr a) = Ok pv.
Proof.
  unfold extractValueFromUpdate.
  destruct (IsValue (ue_Expr a)); simpl; [done|discriminate].
Qed.

Lemma IsValue_inv (e : Expr) :
  IsValue e = true →
  ∃ t v, e = SQLVal t v ∧ (t = StrVal ∨ t = HexVal ∨ t = IntVal ∨ t = ValArg).
Proof.
  destruct e as [t v| | | | |]; try discriminate.
  destruct t; try discriminate; intros _; eexists _, v; split; eauto.
Qed.

Lemma scan_assignments_skip (vcol : ColIdent) (a : UpdateExpr)
    (rest : list UpdateExpr) (found : bool) (vals : list PlanValue) :
  targets vcol a = false →
  scan_assignments vcol (a :: rest) found vals
  = scan_assignments vcol rest found vals.
Proof. unfold targets. intros Ht. simpl. by rewrite Ht. Qed.

Lemma scan_assignments_hit (vcol : ColIdent) (a : UpdateExpr)
    (rest : list UpdateExpr) (found : bool) (vals : list PlanValue) :
  targets vcol a = true →
  scan_assignments vcol (a :: rest) found vals
  = if found then Err (err_duplicate_set_values a)
    else match extractValueFromUpdate a vcol with
         | Err err => Err err
         | Ok pv => scan_assignments vcol rest true (vals ++ [pv])
         end.
Proof. unfold targets. intros Ht. simpl. by rewrite Ht. Qed.

(** The scan for one column only sees the assignments that target it. *)
Lemma scan_assignments_filter (vcol : ColIdent) (exprs : list UpdateExpr)
    (found : bool) (vals : list PlanValue) :
  scan_assignments vcol exprs found vals
  = scan_assignments vcol (filter (targets vcol) exprs) found vals.
Proof.
  revert found vals. induction exprs as [|a exprs IH]; intros found vals; [done|].
  destruct (targets vcol a) eqn:Ht.
  - rewrite filter_cons_True by (by apply Is_true_true).
    rewrite !scan_assignments_hit by done.
    destruct found; [done|].
    destruct (extractValueFromUpdate a vcol); [apply IH|done].
  - rewrite filter_cons_False by (by apply Is_true_false).
    rewrite scan_assignments_skip by done. apply IH.
Qed.

Lemma filter_targets_head (vcol : ColIdent) (exprs : list UpdateExpr)
    (a : UpdateExpr) (rest : list UpdateExpr) :
  filter (targets vcol) exprs = a :: rest → targets vcol a = true.
Proof.
  intros Hf. assert (Hin : a ∈ filter (targets vcol) exprs) by (rewrite Hf; left).
  apply list_elem_of_filter in Hin as [Ht _]. by destruct (targets vcol a).
Qed.

Lemma filter_targets_second (vcol : ColIdent) (exprs : list UpdateExpr)
    (a1 a2 : UpdateExpr) (rest : list UpdateExpr) :
  filter (targets vcol) exprs = a1 :: a2 :: rest → targets vcol a2 = true.
Proof.
  intros Hf.
  assert (Hin : a2 ∈ filter (targets vcol) exprs) by (rewrite Hf; right; left).
  apply list_elem_of_filter in Hin as [Ht _]. by destruct (targets vcol a2).
Qed.

Lemma targets_filter_nonempty (vcol : ColIdent) (exprs : list UpdateExpr)
    (a : UpdateExpr) :
  a ∈ exprs → targets vcol a = true → filter (targets vcol) exprs ≠ [].
Proof.
  intros Hin Ht Hnil.
  assert (Hf : a ∈ filter (targets vcol) exprs).
  { apply list_elem_of_filter. split; [by apply Is_true_true|done]. }
  rewrite Hnil in Hf. by apply elem_of_nil in Hf.
Qed.

Lemma scan_assignments_none (vcol : ColIdent) (exprs : list UpdateExpr)
    (found : bool) (vals : list PlanValue) :
  filter (targets vcol) exprs = [] →
  scan_assignments vcol exprs found vals = Ok (found, vals).
Proof. intros Hf. by rewrite scan_assignments_filter, Hf. Qed.

Lemma scan_assignments_one (vcol : ColIdent) (exprs : list UpdateExpr)
    (a : UpdateExpr) (vals : list PlanValue) :
  filter (targets vcol) exprs = [a] →
  scan_assignments vcol exprs false vals
  = match extractValueFromUpdate a vcol with
    | Err err => Err err
    | Ok pv => Ok (true, vals ++ [pv])
    end.
Proof.
  intros Hf. rewrite scan_assignments_filter, Hf.
  rewrite scan_assignments_hit by (by eapply filter_targets_head).
  by destruct (extractValueFromUpdate a vcol).
Qed.

Lemma scan_assignments_two (vcol : ColIdent) (exprs : list UpdateExpr)
    (a1 a2 : UpdateExpr) (rest : list UpdateExpr) (vals : list PlanValue) :
  filter (targets vcol) exprs = a1 :: a2 :: rest →
  scan_assignments vcol exprs false vals
  = match extractValueFromUpdate a1 vcol with
    | Err err => Err err
    | Ok pv => Err (err_duplicate_set_values a2)
    end.
Proof.
  intros Hf. rewrite scan_assignments_filter, Hf.
  rewrite scan_assignments_hit by (by eapply filter_targets_head).
  destruct (extractValueFromUpdate a1 vcol); [|done].
  by rewrite scan_assignments_hit by (by eapply filter_targets_second).
Qed.

(** What a scan that went through has seen. *)
Lemma scan_assignments_Ok (vcol : ColIdent) (exprs : list UpdateExpr)
    (found : bool) (vals vals' : list PlanValue) :
  scan_assignments vcol exprs false vals = Ok (found, vals') →
  (filter (targets vcol) exprs = [] ∧ vals' = vals) ∨
  (∃ a pv, filter (targets vcol) exprs = [a] ∧
           extractValueFromUpdate a vcol = Ok pv ∧ vals' = vals ++ [pv]).
Proof.
  destruct (filter (targets vcol) exprs) as [|a1 [|a2 rest]] eqn:Hf.
  - rewrite scan_assignments_none by done. intros [= _ <-]. by left.
  - rewrite (scan_assignments_one _ _ _ _ Hf).
    destruct (extractValueFromUpdate a1 vcol) as [pv|] eqn:Hx; [|discriminate].
    intros [= _ <-]. right. by exists a1, pv.
  - rewrite (scan_assignments_two _ _ _ _ _ _ Hf).
    by destruct (extractValueFromUpdate a1 vcol).
Qed.

Lemma scan_columns_app (exprs : list UpdateExpr) (c1 c2 : list ColIdent)
    (vals : list PlanValue) :
  scan_columns exprs (c1 ++ c2) vals
  = match scan_columns exprs c1 vals with
    | Err err => Err err
    | Ok vals' => scan_columns exprs c2 vals'
    end.
Proof.
  revert vals. induction c1 as [|vcol c1 IH]; intros vals; simpl; [done|].
  destruct (scan_assignments vcol exprs false vals) as [[found vals']|]; [|done].
  apply IH.
Qed.

Lemma scan_vindexes_app (update : Update) (i : Z) (pre post : list ColumnVindex)
    (changed : gmap string (list PlanValue)) :
  scan_vindexes update i (pre ++ post) changed
  = match scan_vindexes update i pre changed with
    | Err err => Err err
    | Ok changed' =>
        scan_vindexes update (i + Z.of_nat (length pre)) post changed'
    end.
Proof.
  revert i changed. induction pre as [|v pre IH]; intros i changed.
  - simpl. by rewrite Z.add_0_r.
  - cbn [app scan_vindexes length].
    replace (i + Z.of_nat (S (length pre)))%Z
      with (i + 1 + Z.of_nat (length pre))%Z by lia.
    destruct (scan_columns (Exprs update) (Columns v) []) as [vals|]; [|done].
    repeat (case_match; try done); apply IH.
Qed.

(** A scan of the columns that went through has scanned every column. *)
Lemma scan_columns_Ok_each (exprs : list UpdateExpr) (columns : list ColIdent)
    (vals vals' : list PlanValue) (vcol : ColIdent) :
  scan_columns exprs columns vals = Ok vals' → vcol ∈ columns →
  ∃ vals1 found vals2,
    scan_assignments vcol exprs false vals1 = Ok (found, vals2).
Proof.
  revert vals. induction columns as [|c columns IH]; intros vals Hs Hin.
  - by apply elem_of_nil in Hin.
  - simpl in Hs.
    destruct (scan_assignments c exprs false vals) as [[found vals1]|] eqn:Hc;
      [|discriminate].
    apply elem_of_cons in Hin as [->|Hin]; [by eexists _, _, _|].
    by eapply IH.
Qed.

(** A detection that went through has scanned the columns of every vindex. *)
Lemma scan_vindexes_Ok_each (update : Update) (i : Z)
    (colVindexes : list ColumnVindex)
    (changed changed' : gmap string (list PlanValue)) (v : ColumnVindex) :
  scan_vindexes update i colVindexes changed = Ok changed' → v ∈ colVindexes →
  ∃ vals, scan_columns (Exprs update) (Columns v) [] = Ok vals.
Proof.
  revert i changed. induction colVindexes as [|c colVindexes IH];
    intros i changed Hs Hin.
  - by apply elem_of_nil in Hin.
  - cbn [scan_vindexes] in Hs.
    destruct (scan_columns (Exprs update) (Columns c) []) as [vals|] eqn:Hc;
      [|discriminate].
    apply elem_of_cons in Hin as [->|Hin]; [by eexists|].
    repeat (case_match; try discriminate); by eapply IH.
Qed.

(** An error in the scan for [vcol] is the result of the whole detection,
    once the scan is reached. *)
Lemma scan_reaches_Err (eupd : engine_Update) (update : Update)
    (colVindexes pre : list ColumnVindex) (v : ColumnVindex)
    (cpre : list ColIdent) (vcol : ColIdent) (err : error) :
  scan_reaches update colVindexes pre v cpre vcol →
  (∀ vals, scan_assignments vcol (Exprs update) false vals = Err err) →
  buildChangedVindexesValues eupd update colVindexes = Err err.
Proof.
  intros ([post ->] & [cpost Hcols] & [changed Hpre] & [vals Hcpre]) Hscan.
  unfold buildChangedVindexesValues.
  rewrite scan_vindexes_app, Hpre. cbn [scan_vindexes].
  rewrite Hcols, scan_columns_app, Hcpre. cbn [scan_columns].
  by rewrite Hscan.
Qed.

(** Past the checks on the statement's shape, the plan is decided by
    changed-vindex detection. *)
Lemma buildUpdatePlan_detection (upd : Update) (vschema : VSchema) (vtable : Table) :
  reaches_vindex_detection upd vschema vtable →
  ∃ keyspace vindex values,
    buildUpdatePlan upd vschema
    = match scan_vindexes upd 0 (ColumnVindexes vtable) ∅ with
      | Err err => Err err
      | Ok changed =>
          Ok {| Opcode := UpdateEqual;
                eupd_Keyspace := Some keyspace;
                Query := generateQuery upd;
                eupd_Vindex := vindex;
                Values := values;
                ChangedVindexValues := changed;
                eupd_Table := Some vtable;
                OwnedVindexQuery :=
                  if decide (size changed ≠ 0%nat)
                  then generateUpdateSubquery upd vtable else "" |}
      end.
Proof.
  intros (rb & Hproc & Htarget & Hsharded & Hsub & Hlen & Htable & Hrouting).
  unfold buildUpdatePlan. rewrite Hproc, Htarget, Hsharded, Hsub. simpl.
  destruct (decide (length (Symtab_tables rb) ≠ 1%nat)); [done|].
  rewrite Htable.
  destruct (getDMLRouting (upd_Where upd) vtable) as [[vindex values] err].
  simpl in Hrouting. subst err.
  exists (Route_Keyspace (ERoute rb)), vindex, values.
  unfold buildChangedVindexesValues.
  by destruct (scan_vindexes upd 0 (ColumnVindexes vtable) ∅).
Qed.

Lemma buildUpdatePlan_detection_Err (upd : Update) (vschema : VSchema)
    (vtable : Table) (eupd : engine_Update) (err : error) :
  reaches_vindex_detection upd vschema vtable →
  buildChangedVindexesValues eupd upd (ColumnVindexes vtable) = Err err →
  buildUpdatePlan upd vschema = Err err.
Proof.
  intros Hreach Herr.
  destruct (buildUpdatePlan_detection _ _ _ Hreach) as (ks & vx & vals & ->).
  unfold buildChangedVindexesValues in Herr. by rewrite Herr.
Qed.

(** A plan with the opcode [UpdateEqual], or naming a table, has been
    through changed-vindex detection on that table. *)
Lemma sharded_plan_reaches (upd : Update) (vschema : VSchema)
    (eupd : engine_Update) :
  buildUpdatePlan upd vschema = Ok eupd →
  Opcode eupd = UpdateEqual ∨ is_Some (eupd_Table eupd) →
  ∃ vtable, eupd_Table eupd = Some vtable ∧ Opcode eupd = UpdateEqual ∧
            reaches_vindex_detection upd vschema vtable.
Proof.
  unfold buildUpdatePlan, reaches_vindex_detection.
  destruct (processTableExprs (upd_TableExprs upd) vschema) as [[rb|]|] eqn:Hproc;
    [|discriminate..].
  destruct (TargetDestination (ERoute rb)) eqn:Htarget; [discriminate|].
  destruct (Sharded (Route_Keyspace (ERoute rb))) eqn:Hsharded; simpl.
  2:{ destruct (validateSubquerySamePlan _ _ _ _ _ _ _); simpl; [|discriminate].
      intros [= <-]. simpl. intros [|[? ?]]; discriminate. }
  destruct (hasSubquery upd) eqn:Hsub; [discriminate|].
  destruct (decide (length (Symtab_tables rb) ≠ 1%nat)) as [|Hlen]; [discriminate|].
  destruct (last_vindexTable (Symtab_tables rb)) as [vtable|] eqn:Htable;
    [|discriminate].
  destruct (getDMLRouting (upd_Where upd) vtable) as [[vindex values] [err|]] eqn:Hr;
    [discriminate|].
  destruct (buildChangedVindexesValues _ upd (ColumnVindexes vtable)); [|discriminate].
  intros [= <-] _. exists vtable. split; [done|]. split; [done|].
  exists rb. repeat split; try done.
  - lia.
  - by rewrite Hr.
Qed.

(** Where planning of a sharded UPDATE succeeds, every assignment that
    targets a column of a column-vindex holds a value. *)
Lemma planned_assignments_are_values (upd : Update) (vschema : VSchema)
    (vtable : Table) (eupd : engine_Update) (v : ColumnVindex)
    (vcol : ColIdent) (a : UpdateExpr) :
  reaches_vindex_detection upd vschema vtable →
  buildUpdatePlan upd vschema = Ok eupd →
  v ∈ ColumnVindexes vtable → vcol ∈ Columns v →
  a ∈ Exprs upd → targets vcol a = true →
  IsValue (ue_Expr a) = true.
Proof.
  intros Hreach Hplan Hv Hvcol Ha Ht.
  destruct (buildUpdatePlan_detection _ _ _ Hreach) as (ks & vx & vals & Heq).
  rewrite Heq in Hplan.
  destruct (scan_vindexes upd 0 (ColumnVindexes vtable) ∅) as [changed|] eqn:Hs;
    [|discriminate].
  destruct (scan_vindexes_Ok_each _ _ _ _ _ _ Hs Hv) as [vals' Hcols].
  destruct (scan_columns_Ok_each _ _ _ _ _ Hcols Hvcol)
    as (vals1 & found & vals2 & Hscan).
  apply scan_assignments_Ok in Hscan as [[Hnil _]|(a' & pv & Hf & Hx & _)].
  - by destruct (targets_filter_nonempty _ _ _ Ha Ht).
  - assert (Hin : a ∈ filter (targets vcol) (Exprs upd)).
    { apply list_elem_of_filter. split; [by apply Is_true_true|done]. }
    rewrite Hf in Hin. apply list_elem_of_singleton in Hin as ->.
    by apply extractValueFromUpdate_Ok in Hx as [? _].
Qed.

(** Where the scan of a column is reached and the first assignment
    targeting it holds no value, planning fails with the error of value
    extraction. *)
Lemma first_assignment_not_value (upd : Update) (vschema : VSchema)
    (vtable : Table) (pre : list ColumnVindex) (v : ColumnVindex)
    (cpre : list ColIdent) (vcol : ColIdent) (a : UpdateExpr)
    (more : list UpdateExpr) :
  reaches_vindex_detection upd vschema vtable →
  scan_reaches upd (ColumnVindexes vtable) pre v cpre vcol →
  filter (targets vcol) (Exprs upd) = a :: more →
  IsValue (ue_Expr a) = false →
  buildUpdatePlan upd vschema = Err (err_only_values a).
Proof.
  intros Hreach Hscan Hf Hv.
  eapply (buildUpdatePlan_detection_Err _ _ _
            {| Opcode := UpdateEqual; eupd_Keyspace := None; Query := "";
               eupd_Vindex := None; Values := []; ChangedVindexValues := ∅;
               eupd_Table := None; OwnedVindexQuery := "" |}); [done|].
  eapply scan_reaches_Err; [done|]. intros vals.
  rewrite scan_assignments_filter, Hf.
  rewrite scan_assignments_hit by (by eapply filter_targets_head).
  by rewrite extractValueFromUpdate_not_value.
Qed.

(** C7, as the code has it: value extraction lets through only the literal
    kinds StrVal, HexVal and IntVal and the bind variable ValArg; for any
    other expression, arithmetic, function call, column reference and
    subquery among them, it returns the "Only values are supported" error.
    In a sharded UPDATE that gets as far as changed-vindex detection, an
    assignment of such an expression to a column of a column-vindex, the
    primary one included, makes planning fail.  The error is the one of
    value extraction when the assignment is the first to its column and the
    scan of that column is reached; when it is the second, after one whose
    value is extracted, the error is the duplicate error naming it; an error
    met earlier is returned instead.  In a plan that is built, every
    assignment targeting a column of a column-vindex holds a value.  A
    statement in which [hasSubquery] finds an assigned subquery does not get
    as far as extraction: in a sharded keyspace it is turned down for its
    subquery. *)
Theorem only_values_are_extracted :
  (∀ a col, IsValue (ue_Expr a) = false →
     extractValueFromUpdate a col = Err (err_only_values a)) ∧
  (∀ a col pv, extractValueFromUpdate a col = Ok pv →
     ∃ t v, ue_Expr a = SQLVal t v ∧
            (t = StrVal ∨ t = HexVal ∨ t = IntVal ∨ t = ValArg)) ∧
  (∀ op l r, IsValue (BinaryExpr op l r) = false) ∧
  (∀ name args, IsValue (FuncExpr name args) = false) ∧
  (∀ c, IsValue (ColumnRef c) = false) ∧
  (∀ sel, IsValue (Subquery sel) = false) ∧
  (∀ upd vschema vtable v vcol a,
     reaches_vindex_detection upd vschema vtable →
     v ∈ ColumnVindexes vtable → vcol ∈ Columns v →
     a ∈ Exprs upd → targets vcol a = true →
     IsValue (ue_Expr a) = false →
     (∃ err, buildUpdatePlan upd vschema = Err err) ∧
     (∀ pre cpre more,
        scan_reaches upd (ColumnVindexes vtable) pre v cpre vcol →
        filter (targets vcol) (Exprs upd) = a :: more →
        buildUpdatePlan upd vschema = Err (err_only_values a)) ∧
     (∀ pre cpre a1 pv more,
        scan_reaches upd (ColumnVindexes vtable) pre v cpre vcol →
        filter (targets vcol) (Exprs upd) = a1 :: a :: more →
        extractValueFromUpdate a1 vcol = Ok pv →
        buildUpdatePlan upd vschema = Err (err_duplicate_set_values a))) ∧
  (∀ upd vschema eupd vtable v vcol a,
     buildUpdatePlan upd vschema = Ok eupd →
     eupd_Table eupd = Some vtable →
     v ∈ ColumnVindexes vtable → vcol ∈ Columns v →
     a ∈ Exprs upd → targets vcol a = true →
     ∃ t val, ue_Expr a = SQLVal t val ∧
              (t = StrVal ∨ t = HexVal ∨ t = IntVal ∨ t = ValArg)) ∧
  (∀ upd vschema rb a sel,
     processTableExprs (upd_TableExprs upd) vschema = Ok (builder_route rb) →
     TargetDestination (ERoute rb) = None →
     Sharded (Route_Keyspace (ERoute rb)) = true →
     finds_assigned_subqueries upd →
     a ∈ Exprs upd → ue_Expr a = Subquery sel →
     buildUpdatePlan upd vschema
     = Err (errors_New "unsupported: subqueries in sharded DML")).
Proof.
  split; [apply extractValueFromUpdate_not_value|].
  split.
  { intros a col pv Hx. apply extractValueFromUpdate_Ok in Hx as [Hv _].
    by apply IsValue_inv. }
  do 4 (split; [done|]).
  split.
  { intros upd vschema vtable v vcol a Hreach Hv Hvcol Ha Ht Hnv.
    split; [|split].
    - destruct (buildUpdatePlan upd vschema) as [eupd|err] eqn:Hplan;
        [|by exists err].
      pose proof (planned_assignments_are_values _ _ _ _ _ _ _
                    Hreach Hplan Hv Hvcol Ha Ht) as Hval.
      by rewrite Hnv in Hval.
    - intros pre cpre more Hscan Hf.
      by eapply first_assignment_not_value.
    - intros pre cpre a1 pv more Hscan Hf Hx.
      eapply (buildUpdatePlan_detection_Err _ _ _
                {| Opcode := UpdateEqual; eupd_Keyspace := None; Query := "";
                   eupd_Vindex := None; Values := [];
                   ChangedVindexValues := ∅; eupd_Table := None;
                   OwnedVindexQuery := "" |}); [done|].
      eapply scan_reaches_Err; [done|]. intros vals'.
      by rewrite (scan_assignments_two _ _ _ _ _ _ Hf), Hx. }
  split.
  { intros upd vschema eupd vtable v vcol a Hplan Htable Hv Hvcol Ha Ht.
    destruct (sharded_plan_reaches _ _ _ Hplan)
      as (vtable' & Htable' & _ & Hreach).
    { right. by rewrite Htable. }
    rewrite Htable in Htable'. injection Htable' as <-.
    apply IsValue_inv. by eapply planned_assignments_are_values. }
  intros upd vschema rb a sel Hproc Hdest Hsharded Hfinds Ha Hsel.
  unfold buildUpdatePlan. rewrite Hproc, Hdest, Hsharded. simpl.
  by rewrite (Hfinds a sel Ha Hsel).
Qed.

(** C9, as the code has it: when two or more assignments target a column of
    some column-vindex, the primary one included, detection fails, and so
    does planning.  The error is the duplicate error, naming the column as
    the second of these assignments writes it, when the scan of that column
    is reached and the value of the first of them is extracted; an error met
    earlier is returned instead. *)
Theorem duplicate_set_values_rejected (upd : Update) (vschema : VSchema)
    (vtable : Table) (v : ColumnVindex) (vcol : ColIdent)
    (a1 a2 : UpdateExpr) (more : list UpdateExpr) :
  reaches_vindex_detection upd vschema vtable →
  v ∈ ColumnVindexes vtable → vcol ∈ Columns v →
  filter (targets vcol) (Exprs upd) = a1 :: a2 :: more →
  (∃ err, buildUpdatePlan upd vschema = Err err) ∧
  (∀ pre cpre pv,
     scan_reaches upd (ColumnVindexes vtable) pre v cpre vcol →
     extractValueFromUpdate a1 vcol = Ok pv →
     buildUpdatePlan upd vschema = Err (err_duplicate_set_values a2)).
Proof.
  intros Hreach Hv Hvcol Hf.
  set (eupd := {| Opcode := UpdateEqual; eupd_Keyspace := None; Query := "";
                  eupd_Vindex := None; Values := []; ChangedVindexValues := ∅;
                  eupd_Table := None; OwnedVindexQuery := "" |}).
  split.
  - apply list_elem_of_split in Hv as (pre & post & Hv).
    apply list_elem_of_split in Hvcol as (cpre & cpost & Hvcol).
    destruct (scan_vindexes upd 0 pre ∅) as [changed|err] eqn:Hpre.
    2:{ exists err. apply (buildUpdatePlan_detection_Err upd vschema vtable eupd); [done|].
        unfold buildChangedVindexesValues.
        by rewrite Hv, scan_vindexes_app, Hpre. }
    destruct (scan_columns (Exprs upd) cpre []) as [vals|err] eqn:Hcpre.
    2:{ exists err. apply (buildUpdatePlan_detection_Err upd vschema vtable eupd); [done|].
        unfold buildChangedVindexesValues.
        rewrite Hv, scan_vindexes_app, Hpre. cbn [scan_vindexes].
        by rewrite Hvcol, scan_columns_app, Hcpre. }
    assert (Hs : scan_reaches upd (ColumnVindexes vtable) pre v cpre vcol).
    { repeat split; eauto. }
    destruct (extractValueFromUpdate a1 vcol) as [pv|err] eqn:Hx.
    + exists (err_duplicate_set_values a2).
      apply (buildUpdatePlan_detection_Err upd vschema vtable eupd); [done|].
      eapply scan_reaches_Err; [done|]. intros vals'.
      by rewrite (scan_assignments_two _ _ _ _ _ _ Hf), Hx.
    + exists err.
      apply (buildUpdatePlan_detection_Err upd vschema vtable eupd); [done|].
      eapply scan_reaches_Err; [done|]. intros vals'.
      by rewrite (scan_assignments_two _ _ _ _ _ _ Hf), Hx.
  - intros pre cpre pv Hs Hx.
    apply (buildUpdatePlan_detection_Err upd vschema vtable eupd); [done|].
    eapply scan_reaches_Err; [done|]. intros vals'.
    by rewrite (scan_assignments_two _ _ _ _ _ _ Hf), Hx.
Qed.

(** C8: a statement whose table resolves to a single route without target
    destination in an unsharded keyspace, and whose subqueries plan against
    that keyspace, gets the unsharded plan: the rendering of the statement
    as query text, an empty map of changed vindex values, and no vindex,
    routing values, table or fetch subquery, since no vindex is analysed. *)
Theorem unsharded_update_plan (upd : Update) (vschema : VSchema) (rb : route) :
  processTableExprs (upd_TableExprs upd) vschema = Ok (builder_route rb) →
  TargetDestination (ERoute rb) = None →
  Sharded (Route_Keyspace (ERoute rb)) = false →
  validateSubquerySamePlan (Keyspace_Name (Route_Keyspace (ERoute rb))) rb vschema
    (Exprs upd) (upd_Where upd) (OrderBy upd) (upd_Limit upd) = true →
  buildUpdatePlan upd vschema
  = Ok {| Opcode := UpdateUnsharded;
          eupd_Keyspace := Some (Route_Keyspace (ERoute rb));
          Query := generateQuery upd;
          eupd_Vindex := None;
          Values := [];
          ChangedVindexValues := ∅;
          eupd_Table := None;
          OwnedVindexQuery := "" |}.
Proof.
  intros Hproc Htarget Hsharded Hvalid.
  unfold buildUpdatePlan. by rewrite Hproc, Htarget, Hsharded, Hvalid.
Qed.

(** The values gathered for a vindex never shrink, and grow at every column
    that some assignment targets. *)
Lemma scan_columns_Ok_grows (exprs : list UpdateExpr) (columns : list ColIdent)
    (vals vals' : list PlanValue) :
  scan_columns exprs columns vals = Ok vals' →
  (length vals ≤ length vals')%nat ∧
  ∀ vcol a, vcol ∈ columns → a ∈ exprs → targets vcol a = true →
            (length vals < length vals')%nat.
Proof.
  revert vals. induction columns as [|c columns IH]; intros vals; simpl.
  - intros [= <-]. split; [done|]. intros vcol a Hin. by apply elem_of_nil in Hin.
  - destruct (scan_assignments c exprs false vals) as [[found vals1]|] eqn:Hs;
      [|discriminate].
    intros Hrest. destruct (IH _ Hrest) as [Hle Hlt].
    apply scan_assignments_Ok in Hs.
    assert (Hle1 : (length vals ≤ length vals1)%nat).
    { destruct Hs as [[_ ->]|(a & pv & _ & _ & ->)]; [done|].
      rewrite length_app. simpl. lia. }
    split; [lia|].
    intros vcol a Hin Ha Ht. apply elem_of_cons in Hin as [->|Hin].
    + destruct Hs as [[Hnil _]|(a' & pv & _ & _ & ->)].
      * by destruct (targets_filter_nonempty _ _ _ Ha Ht).
      * rewrite length_app in Hle. simpl in Hle. lia.
    + specialize (Hlt vcol a Hin Ha Ht). lia.
Qed.

(** When every column is assigned exactly once by an extractable value, the
    scan goes through with one value per column. *)
Lemma scan_columns_all_once (exprs : list UpdateExpr) (columns : list ColIdent)
    (vals : list PlanValue) :
  (∀ vcol, vcol ∈ columns →
     ∃ a pv, filter (targets vcol) exprs = [a] ∧
             extractValueFromUpdate a vcol = Ok pv) →
  ∃ vals', scan_columns exprs columns vals = Ok vals' ∧
           length vals' = (length vals + length columns)%nat.
Proof.
  revert vals. induction columns as [|c columns IH]; intros vals Hall; simpl.
  - exists vals. split; [done|lia].
  - destruct (Hall c) as (a & pv & Hf & Hx); [left|].
    rewrite (scan_assignments_one _ _ _ _ Hf), Hx.
    destruct (IH (vals ++ [pv])) as (vals' & -> & Hlen).
    { intros vcol Hin. apply Hall. by right. }
    exists vals'. split; [done|]. rewrite length_app in Hlen. simpl in Hlen. lia.
Qed.


Lemma join_cons (x : string) (l : list string) :
  join ", " (x :: l) = x +:+ with_separators l.
Proof.
  revert x. induction l as [|y l IH]; intros x.
  - simpl. by rewrite string_app_nil_r.
  - change (join ", " (x :: y :: l)) with (x +:+ ", " +:+ join ", " (y :: l)).
    by rewrite IH.
Qed.

Lemma with_separators_app (l1 l2 : list string) :
  with_separators (l1 ++ l2) = with_separators l1 +:+ with_separators l2.
Proof.
  induction l1 as [|x l1 IH]; [done|].
  simpl. by rewrite IH, !string_app_assoc.
Qed.

(** Away from the very first column every column is written after a
    separator. *)
Lemma write_columns_separated (vIdx cIdx : Z) (columns : list ColIdent)
    (buf : string) :
  (vIdx ≠ 0 ∨ 0 < cIdx)%Z →
  write_columns vIdx cIdx columns buf
  = buf +:+ with_separators (ColIdent_Format <$> columns).
Proof.
  revert cIdx buf. induction columns as [|c columns IH]; intros cIdx buf Hidx.
  - simpl. by rewrite string_app_nil_r.
  - cbn [write_columns].
    assert (bool_decide (cIdx = 0%Z) && bool_decide (vIdx = 0%Z) = false) as ->.
    { apply andb_false_iff. destruct Hidx.
      - right. by apply bool_decide_eq_false.
      - left. apply bool_decide_eq_false. lia. }
    rewrite IH by lia. simpl. by rewrite !string_app_assoc.
Qed.

Lemma write_owned_separated (vIdx : Z) (owned : list ColumnVindex) (buf : string) :
  (0 < vIdx)%Z →
  write_owned vIdx owned buf
  = buf +:+ with_separators (ColIdent_Format <$> (owned ≫= Columns)).
Proof.
  revert vIdx buf. induction owned as [|cv owned IH]; intros vIdx buf Hidx.
  - simpl. by rewrite string_app_nil_r.
  - cbn [write_owned]. rewrite IH by lia.
    rewrite write_columns_separated by lia.
    rewrite bind_cons, fmap_app, with_separators_app.
    by rewrite string_app_assoc.
Qed.

Lemma write_owned_first (owned : list ColumnVindex) (buf : string) :
  match owned with [] => True | cv :: _ => Columns cv ≠ [] end →
  write_owned 0 owned buf
  = buf +:+ join ", " (ColIdent_Format <$> (owned ≫= Columns)).
Proof.
  destruct owned as [|cv owned]; intros Hfirst.
  - simpl. by rewrite string_app_nil_r.
  - destruct (Columns cv) as [|c columns] eqn:Hcols; [done|].
    cbn [write_owned]. rewrite Hcols. cbn [write_columns]. simpl bool_decide.
    cbn [andb]. rewrite write_owned_separated by lia.
    rewrite write_columns_separated by lia.
    rewrite bind_cons, Hcols. cbn [app fmap list_fmap].
    rewrite join_cons, fmap_app, with_separators_app.
    by rewrite !string_app_assoc.
Qed.

Lemma write_owned_no_column (vIdx : Z) (owned : list ColumnVindex) (buf : string) :
  (∀ cv, cv ∈ owned → Columns cv = []) →
  write_owned vIdx owned buf = buf ∧ owned ≫= Columns = [].
Proof.
  revert vIdx. induction owned as [|cv owned IH]; intros vIdx Hall; [done|].
  cbn [write_owned]. rewrite bind_cons.
  rewrite (Hall cv) by left. simpl.
  apply IH. intros cv' Hin. apply Hall. by right.
Qed.

Lemma generateUpdateSubquery_expected (upd : Update) (vtable : Table) :
  first_owned_has_column vtable →
  generateUpdateSubquery upd vtable = expected_subquery upd vtable.
Proof.
  intros [Hnone|Hfirst]; unfold generateUpdateSubquery, expected_subquery.
  - destruct (write_owned_no_column 0 (Table_Owned vtable) "select " Hnone)
      as [-> ->].
    done.
  - rewrite write_owned_first by (by destruct (Table_Owned vtable)).
    by rewrite string_app_assoc.
Qed.

Lemma write_columns_extends (vIdx cIdx : Z) (columns : list ColIdent)
    (buf : string) :
  ∃ s, write_columns vIdx cIdx columns buf = buf +:+ s.
Proof.
  revert cIdx buf. induction columns as [|c columns IH]; intros cIdx buf.
  - exists "". simpl. by rewrite string_app_nil_r.
  - cbn [write_columns].
    destruct (bool_decide (cIdx = 0%Z) && bool_decide (vIdx = 0%Z)).
    + destruct (IH (cIdx + 1)%Z (buf +:+ ColIdent_Format c)) as [s ->].
      eexists. by rewrite string_app_assoc.
    + destruct (IH (cIdx + 1)%Z (buf +:+ ", " +:+ ColIdent_Format c)) as [s ->].
      eexists. by rewrite string_app_assoc.
Qed.

Lemma write_owned_extends (vIdx : Z) (owned : list ColumnVindex) (buf : string) :
  ∃ s, write_owned vIdx owned buf = buf +:+ s.
Proof.
  revert vIdx buf. induction owned as [|cv owned IH]; intros vIdx buf.
  - exists "". simpl. by rewrite string_app_nil_r.
  - cbn [write_owned].
    destruct (write_columns_extends vIdx 0 (Columns cv) buf) as [s1 ->].
    destruct (IH (vIdx + 1)%Z (buf +:+ s1)) as [s2 ->].
    eexists. by rewrite string_app_assoc.
Qed.

Lemma generateUpdateSubquery_nonempty (upd : Update) (vtable : Table) :
  generateUpdateSubquery upd vtable ≠ "".
Proof.
  unfold generateUpdateSubquery.
  destruct (write_owned_extends 0 (Table_Owned vtable) "select ") as [s ->].
  rewrite string_app_assoc. by rewrite (string_app_cons "s" "elect ").
Qed.

(** C4: in the plan of a sharded UPDATE the fetch subquery is set exactly
    when the map of changed vindex values is not empty, and it is then the
    text built by [generateUpdateSubquery].  On a table whose first owned
    vindex has a column, as the vindexes of the repository have, that text
    is "select ", the columns of all owned vindexes of the table in order,
    changing or not, separated by ", " with nothing before the first,
    " from " and the table name, the WHERE, ORDER BY and LIMIT clauses of
    the statement, and " for update". *)
Theorem owned_vindex_subquery (upd : Update) (vschema : VSchema)
    (eupd : engine_Update) :
  buildUpdatePlan upd vschema = Ok eupd →
  Opcode eupd = UpdateEqual →
  ∃ vtable,
    eupd_Table eupd = Some vtable ∧
    (OwnedVindexQuery eupd ≠ "" ↔ ChangedVindexValues eupd ≠ ∅) ∧
    (ChangedVindexValues eupd ≠ ∅ →
       OwnedVindexQuery eupd = generateUpdateSubquery upd vtable) ∧
    (first_owned_has_column vtable →
     ChangedVindexValues eupd ≠ ∅ →
     OwnedVindexQuery eupd = expected_subquery upd vtable).
Proof.
  intros Hplan Hop.
  destruct (sharded_plan_reaches _ _ _ Hplan (or_introl Hop))
    as (vtable & Htable & _ & Hreach).
  exists vtable. split; [done|].
  destruct (buildUpdatePlan_detection _ _ _ Hreach) as (ks & vx & vals & Heq).
  rewrite Heq in Hplan.
  destruct (scan_vindexes upd 0 (ColumnVindexes vtable) ∅) as [changed|];
    [|discriminate].
  injection Hplan as <-. simpl.
  destruct (decide (size changed ≠ 0%nat)) as [Hsize|Hsize].
  - assert (changed ≠ ∅) by (by apply map_size_non_empty_iff).
    split; [|split]; try done.
    + split; [done|]. intros _. apply generateUpdateSubquery_nonempty.
    + intros Hfirst _. by apply generateUpdateSubquery_expected.
  - assert (changed = ∅) by (apply map_size_empty_iff; lia).
    split; [|split]; done.
Qed.

End PlanbuilderFacts.

(** The properties above, run in the concrete environment. *)
Section PlanbuilderRuns.
Import Planbuilder.
#[local] Existing Instance Fixture.idents.
#[local] Existing Instance Fixture.ast.
#[local] Existing Instance Fixture.planbuilder_externals.

Lemma reaches_user (exprs : list UpdateExpr) :
  reaches_vindex_detection (Fixture.update_where_id "user" exprs) ()
    Fixture.user_table.
Proof. exists Fixture.user_route. repeat split. Defined.

(** [update user set name = name + 1 where id = 1] *)
Lemma only_values_are_extracted_witness :
  buildUpdatePlan
    (Fixture.update_where_id "user"
       [Fixture.set_to "name" (Fixture.plus_1 "name")]) ()
  = Err (vterrors_Errorf Code_UNIMPLEMENTED
      "unsupported: Only values are supported. Invalid update on column: name").
Proof.
  refine (proj1 (proj2 (proj1 (proj2 (proj2 (proj2 (proj2 (proj2 (proj2
            only_values_are_extracted))))))
    (Fixture.update_where_id "user"
       [Fixture.set_to "name" (Fixture.plus_1 "name")]) ()
    Fixture.user_table Fixture.name_user_map "name"
    (Fixture.set_to "name" (Fixture.plus_1 "name")) _ _ _ _ _ _))
    [Fixture.user_index] [] [] _ _).
  - apply reaches_user.
  - right; left.
  - left.
  - left.
  - reflexivity.
  - reflexivity.
  - split; [by exists []|]. split; [by exists []|].
    split; [by exists ∅|by exists []].
  - reflexivity.
Defined.

(** The claim fails at
    [update user set name = 'x', name = name + 1 where id = 1]: the second
    assignment to [name] holds no value, and the error is the duplicate
    error, met at that assignment before its value is looked at. *)
Lemma only_values_error_hidden_by_duplicate :
  ¬ only_values_error_for_every_assignment
      (Fixture.update_where_id "user"
         [Fixture.set_to "name" Fixture.lit_x;
          Fixture.set_to "name" (Fixture.plus_1 "name")])
      () Fixture.user_table.
Proof.
  intros Hclaim.
  specialize (Hclaim (reaches_user _) 1%nat Fixture.name_user_map "name"
                (Fixture.set_to "name" (Fixture.plus_1 "name"))).
  apply (f_equal error_of) in Hclaim.
  - assert (Hne : error_of (buildUpdatePlan
      (Fixture.update_where_id "user"
         [Fixture.set_to "name" Fixture.lit_x;
          Fixture.set_to "name" (Fixture.plus_1 "name")])
      ()) = Some (err_duplicate_set_values
                    (Fixture.set_to "name" (Fixture.plus_1 "name"))))
      by reflexivity.
    rewrite Hne in Hclaim. by injection Hclaim.
  - reflexivity.
  - lia.
  - left.
  - right; left.
  - reflexivity.
  - reflexivity.
Qed.

(** [update user set name = 'x', name = 2 where id = 1] *)
Lemma duplicate_set_values_rejected_witness :
  buildUpdatePlan
    (Fixture.update_where_id "user"
       [Fixture.set_to "name" Fixture.lit_x; Fixture.set_to "Name" Fixture.lit_2]) ()
  = Err (vterrors_Errorf Code_INVALID_ARGUMENT
      "column has duplicate set values: 'Name'").
Proof.
  refine (proj2 (duplicate_set_values_rejected
    (Fixture.update_where_id "user"
       [Fixture.set_to "name" Fixture.lit_x; Fixture.set_to "Name" Fixture.lit_2]) ()
    Fixture.user_table Fixture.name_user_map "name"
    (Fixture.set_to "name" Fixture.lit_x) (Fixture.set_to "Name" Fixture.lit_2) []
    _ _ _ _)
    [Fixture.user_index] [] (Fixture.pv_literal StrVal [120]%Z) _ _).
  - apply reaches_user.
  - right; left.
  - left.
  - reflexivity.
  - split; [by exists []|]. split; [by exists []|].
    split; [by exists ∅|by exists []].
  - reflexivity.
Defined.

(** The claim fails at [update user set id = id + 1, id = 2 where id = 1]:
    two assignments target the column [id] of the primary vindex, and the
    error is the one of value extraction on the first of them. *)
Lemma duplicate_hidden_by_extraction_error :
  ¬ duplicates_always_reported
      (Fixture.update_where_id "user"
         [Fixture.set_to "id" (Fixture.plus_1 "id"); Fixture.set_to "id" Fixture.lit_2])
      () Fixture.user_table.
Proof.
  intros Hclaim.
  destruct (Hclaim (reaches_user _) Fixture.user_index "id") as (a & _ & _ & Herr).
  - left.
  - left.
  - vm_compute. lia.
  - apply (f_equal error_of) in Herr.
    assert (Hne : error_of (buildUpdatePlan
      (Fixture.update_where_id "user"
         [Fixture.set_to "id" (Fixture.plus_1 "id"); Fixture.set_to "id" Fixture.lit_2])
      ()) = Some (err_only_values (Fixture.set_to "id" (Fixture.plus_1 "id"))))
      by reflexivity.
    rewrite Hne in Herr. by injection Herr.
Qed.



(** [update unsharded set name = 'x' where id = 1] *)
Lemma unsharded_update_plan_witness :
  buildUpdatePlan
    (Fixture.update_where_id "unsharded" [Fixture.set_to "name" Fixture.lit_x]) ()
  = Ok {| Opcode := UpdateUnsharded;
          eupd_Keyspace := Some Fixture.main_ks;
          Query := "update unsharded set name = x where id = 1";
          eupd_Vindex := None;
          Values := [];
          ChangedVindexValues := ∅;
          eupd_Table := None;
          OwnedVindexQuery := "" |}.
Proof.
  exact (unsharded_update_plan
    (Fixture.update_where_id "unsharded" [Fixture.set_to "name" Fixture.lit_x]) ()
    Fixture.unsharded_route eq_refl eq_refl eq_refl eq_refl).
Defined.

(** [update user set name = 'x' where id = 1]: the one value of
    [name_user_map] is the literal, and the subquery locks the rows. *)
Lemma owned_vindex_subquery_witness :
  buildUpdatePlan
    (Fixture.update_where_id "user" [Fixture.set_to "name" Fixture.lit_x]) ()
  = Ok Fixture.set_name_plan ∧
  ChangedVindexValues Fixture.set_name_plan
  = {[ "name_user_map" := [Fixture.pv_literal StrVal [120]%Z] ]} ∧
  OwnedVindexQuery Fixture.set_name_plan
  = expected_subquery
      (Fixture.update_where_id "user" [Fixture.set_to "name" Fixture.lit_x])
      Fixture.user_table ∧
  OwnedVindexQuery Fixture.set_name_plan
  = "select name from user where id = 1 for update".
Proof.
  assert (Hplan : buildUpdatePlan
    (Fixture.update_where_id "user" [Fixture.set_to "name" Fixture.lit_x]) ()
    = Ok Fixture.set_name_plan) by reflexivity.
  split; [exact Hplan|]. split; [reflexivity|]. split; [|reflexivity].
  destruct (owned_vindex_subquery
    (Fixture.update_where_id "user" [Fixture.set_to "name" Fixture.lit_x]) ()
    Fixture.set_name_plan Hplan eq_refl) as (vtable & Htable & _ & _ & Htext).
  injection Htable as <-. apply Htext.
  - right. discriminate.
  - apply map_non_empty_singleton.
Defined.

End PlanbuilderRuns.


(** * Further properties of the keyspace-id resolvers *)

Section WorkerMore.
Import Worker.
Context `{Externals}.

(** X1: [newV2Resolver] succeeds exactly when the keyspace names a sharding
    column, its sharding-column type is set, the table is a base table and
    has that column; the resolver then carries the keyspace information and
    the column's index.  Otherwise the error is that of the first of these
    four requirements that fails, in this order. *)
Theorem newV2Resolver_requirements (keyspaceInfo : KeyspaceInfo)
    (td : TableDefinition) :
  (∀ r, newV2Resolver keyspaceInfo td = Ok r ↔
        ShardingColumnName keyspaceInfo ≠ "" ∧
        ShardingColumnType keyspaceInfo ≠ KeyspaceIdType_UNSET ∧
        td_Type td = TableBaseTable ∧
        TableDefinitionGetColumn td (ShardingColumnName keyspaceInfo)
          = (v2_shardingColumnIndex r, true) ∧
        v2_keyspaceInfo r = keyspaceInfo) ∧
  (ShardingColumnName keyspaceInfo = "" →
   newV2Resolver keyspaceInfo td
   = Err (errors_New "ShardingColumnName needs to be set for a v2 sharding key")) ∧
  (ShardingColumnName keyspaceInfo ≠ "" →
   ShardingColumnType keyspaceInfo = KeyspaceIdType_UNSET →
   newV2Resolver keyspaceInfo td
   = Err (errors_New "ShardingColumnType needs to be set for a v2 sharding key")) ∧
  (ShardingColumnName keyspaceInfo ≠ "" →
   ShardingColumnType keyspaceInfo ≠ KeyspaceIdType_UNSET →
   td_Type td ≠ TableBaseTable →
   newV2Resolver keyspaceInfo td
   = Err (errors_New
       ("a keyspaceID resolver can only be created for a base table, got "
        +:+ td_Type td))) ∧
  (ShardingColumnName keyspaceInfo ≠ "" →
   ShardingColumnType keyspaceInfo ≠ KeyspaceIdType_UNSET →
   td_Type td = TableBaseTable →
   (TableDefinitionGetColumn td (ShardingColumnName keyspaceInfo)).2 = false →
   newV2Resolver keyspaceInfo td
   = Err (errors_New
       ("table " +:+ td_Name td +:+ " doesn't have a column named '" +:+
        ShardingColumnName keyspaceInfo +:+ "'"))).
Proof.
  unfold newV2Resolver.
  destruct (decide (ShardingColumnName keyspaceInfo = "")) as [Hn|Hn];
    [|destruct (decide (ShardingColumnType keyspaceInfo = KeyspaceIdType_UNSET))
        as [Ht|Ht];
      [|destruct (decide (td_Type td = TableBaseTable)) as [Hb|Hb];
        [destruct (TableDefinitionGetColumn td (ShardingColumnName keyspaceInfo))
           as [columnIndex [|]] eqn:Hcol; simpl|]]];
    (split; [intros [ki idx]; simpl; split;
               [intros Heq; by simplify_eq|intros (? & ? & ? & ? & ?); by simplify_eq]
            |repeat split; intros; by simplify_eq]).
Qed.

(** X2: a resolver built by [newV2Resolver] never has the sharding-column
    type UNSET, so on a row holding the sharding column [keyspaceID] reports
    an unsupported type only for a type number outside the names of the
    enum; for the type bytes it never fails. *)
Theorem newV2Resolver_keyspaceID (keyspaceInfo : KeyspaceInfo)
    (td : TableDefinition) (r : v2Resolver) (row : list Value) (v : Value) :
  newV2Resolver keyspaceInfo td = Ok r →
  index row (v2_shardingColumnIndex r) = Returned v →
  ShardingColumnType (v2_keyspaceInfo r) ≠ KeyspaceIdType_UNSET ∧
  (∀ b msg, v2_keyspaceID r row = Returned (b, Some (errors_New msg)) →
     ∃ n, ShardingColumnType (v2_keyspaceInfo r) = KeyspaceIdType_unknown n) ∧
  (ShardingColumnType (v2_keyspaceInfo r) = KeyspaceIdType_BYTES →
   v2_keyspaceID r row = Returned (val v, None)).
Proof.
  intros Hnew Hrow.
  assert (Hset : ShardingColumnType (v2_keyspaceInfo r) ≠ KeyspaceIdType_UNSET).
  { unfold newV2Resolver in Hnew.
    repeat case_match; simplify_eq; done. }
  unfold v2_keyspaceID. rewrite Hrow. simpl.
  split; [done|]. split.
  - intros b msg.
    destruct (ShardingColumnType (v2_keyspaceInfo r)) as [| | |n].
    + done.
    + destruct (ToUint64 v) as [i [err|]]; discriminate.
    + discriminate.
    + intros _. by exists n.
  - by intros ->.
Qed.

Lemma index_Returned {A} (s : list A) (i : Z) (a : A) :
  index s i = Returned a ↔ (0 ≤ i)%Z ∧ s !! Z.to_nat i = Some a.
Proof.
  unfold index. destruct (decide (0 ≤ i)%Z) as [Hi|Hi].
  - destruct (s !! Z.to_nat i) as [a'|]; split.
    + by intros [= ->].
    + by intros [_ [= ->]].
    + discriminate.
    + by intros [_ ?].
  - split; [discriminate|]. by intros [? _].
Qed.

Lemma index_Panicked {A} (s : list A) (i : Z) (p : panic_value) :
  index s i = Panicked p ↔
  p = runtime_index_out_of_range ∧ ¬ (0 ≤ i < Z.of_nat (length s))%Z.
Proof.
  unfold index. destruct (decide (0 ≤ i)%Z) as [Hi|Hi].
  - destruct (s !! Z.to_nat i) as [a|] eqn:Hlook.
    + apply lookup_lt_Some in Hlook. split; [discriminate|]. intros [_ Hn]. lia.
    + apply lookup_ge_None in Hlook. split.
      * intros [= <-]. split; [done|lia].
      * by intros [-> _].
  - split.
    + intros [= <-]. split; [done|lia].
    + by intros [-> _].
Qed.

(** X3: [keyspaceID] of either resolver panics, with an index out of range,
    exactly when the row does not reach the sharding column; on every other
    row it returns, with bytes or with an error. *)
Theorem keyspaceID_panics_on_short_rows (r2 : v2Resolver) (r3 : v3Resolver)
    (row : list Value) :
  (∀ p, v2_keyspaceID r2 row = Panicked p ↔
        p = runtime_index_out_of_range ∧
        ¬ (0 ≤ v2_shardingColumnIndex r2 < Z.of_nat (length row))%Z) ∧
  (∀ p, v3_keyspaceID r3 row = Panicked p ↔
        p = runtime_index_out_of_range ∧
        ¬ (0 ≤ v3_shardingColumnIndex r3 < Z.of_nat (length row))%Z).
Proof.
  split; intros p.
  - rewrite <- index_Panicked. unfold v2_keyspaceID.
    destruct (index row (v2_shardingColumnIndex r2)) as [v|p']; simpl; [|by split; intros [= ->]].
    split; [|discriminate].
    destruct (ShardingColumnType (v2_keyspaceInfo r2)); try discriminate.
    destruct (ToUint64 v) as [i [err|]]; discriminate.
  - rewrite <- index_Panicked. unfold v3_keyspaceID.
    destruct (index row (v3_shardingColumnIndex r3)) as [v|p']; simpl; [|by split; intros [= ->]].
    split; [|discriminate].
    destruct (vindex_Map (v3_vindex r3) None [v]) as [ds [err|]]; [discriminate|].
    destruct ds as [|d [|d' ds]]; try discriminate.
    destruct d as [[|x ksid]| | | |]; discriminate.
Qed.

(** The search finds the first column that the vindex column equals. *)
Lemma findColumnIndex_first (col0 : ColIdent) (columns : list string) (i : Z) :
  match list_find (λ n, ColIdent_EqualString col0 n = true) columns with
  | Some (k, _) => findColumnIndex col0 columns i = (i + Z.of_nat k)%Z
  | None => findColumnIndex col0 columns i = (-1)%Z
  end.
Proof.
  revert i. induction columns as [|n columns IH]; intros i; simpl; [done|].
  destruct (ColIdent_EqualString col0 n) eqn:Hn.
  - rewrite decide_True by done. simpl. lia.
  - rewrite decide_False by done. specialize (IH (i + 1)%Z).
    destruct (list_find _ columns) as [[k x]|]; simpl; [|done].
    rewrite IH. lia.
Qed.

(** What a resolver built from a column list is made of. *)
Lemma newV3ResolverFromColumnList_Ok (keyspaceSchema : KeyspaceSchema)
    (name : string) (columns : list string) (r : v3Resolver) :
  newV3ResolverFromColumnList keyspaceSchema name columns = Returned (Ok r) →
  ∃ tableSchema colVindex col0,
    Tables keyspaceSchema !! name = Some tableSchema ∧
    FindVindexForSharding name (ColumnVindexes tableSchema) = Ok colVindex ∧
    Columns colVindex !! 0%nat = Some col0 ∧
    findColumnIndex col0 columns 0 ≠ (-1)%Z ∧
    r = {| v3_shardingColumnIndex := findColumnIndex col0 columns 0;
           v3_vindex := cv_Vindex colVindex;
           v3_td := None |}.
Proof.
  unfold newV3ResolverFromColumnList.
  destruct (Tables keyspaceSchema !! name) as [tableSchema|]; [|discriminate].
  destruct (FindVindexForSharding name (ColumnVindexes tableSchema))
    as [colVindex|err] eqn:Hv; [|discriminate].
  destruct (index (Columns colVindex) 0) as [col0|p] eqn:Hcol; [|discriminate].
  apply index_Returned in Hcol as [_ Hcol]. simpl.
  destruct (decide (findColumnIndex col0 columns 0 = (-1)%Z)) as [|Hfound];
    [discriminate|].
  intros [= <-]. by exists tableSchema, colVindex, col0.
Qed.

(** X4: a resolver built from a column list reads the first column of the
    list that the first column of the chosen vindex equals (by
    [EqualString]): no earlier column of the list is equal to it.  When the
    table and its vindex are found, the construction fails with the
    unknown-column error exactly when no column of the list is, and it
    panics when the vindex has no column. *)
Theorem newV3ResolverFromColumnList_first_match
    (keyspaceSchema : KeyspaceSchema) (name : string) (columns : list string)
    (tableSchema : Table) (colVindex : ColumnVindex) :
  Tables keyspaceSchema !! name = Some tableSchema →
  FindVindexForSharding name (ColumnVindexes tableSchema) = Ok colVindex →
  (Columns colVindex = [] →
   newV3ResolverFromColumnList keyspaceSchema name columns
   = Panicked runtime_index_out_of_range) ∧
  (∀ col0 rest, Columns colVindex = col0 :: rest →
     (∀ r, newV3ResolverFromColumnList keyspaceSchema name columns
           = Returned (Ok r) →
           v3_vindex r = cv_Vindex colVindex ∧
           ∃ k n, v3_shardingColumnIndex r = Z.of_nat k ∧
                  columns !! k = Some n ∧
                  ColIdent_EqualString col0 n = true ∧
                  ∀ j m, (j < k)%nat → columns !! j = Some m →
                         ColIdent_EqualString col0 m = false) ∧
     (newV3ResolverFromColumnList keyspaceSchema name columns
      = Returned (Err (errors_New
          ("table " +:+ name +:+ " has a Vindex on unknown column " +:+
           ColIdent_String col0)))
      ↔ ∀ n, n ∈ columns → ColIdent_EqualString col0 n = false)).
Proof.
  intros Htable Hvindex.
  unfold newV3ResolverFromColumnList. rewrite Htable, Hvindex.
  split; [by intros ->|].
  intros col0 rest ->. cbn [index decide]. simpl.
  pose proof (findColumnIndex_first col0 columns 0) as Hfirst.
  destruct (list_find (λ n, ColIdent_EqualString col0 n = true) columns)
    as [[k n]|] eqn:Hfind.
  - apply list_find_Some in Hfind as (Hk & Hn & Hbefore).
    rewrite Hfirst. rewrite decide_False by lia.
    split.
    + intros r [= <-]. simpl. split; [done|].
      exists k, n. split; [lia|]. split; [done|]. split; [done|].
      intros j m Hj Hm. specialize (Hbefore j m Hm Hj).
      by destruct (ColIdent_EqualString col0 m).
    + split; [discriminate|]. intros Hnone.
      assert (Hin : n ∈ columns) by (apply list_elem_of_lookup; eauto).
      rewrite (Hnone n Hin) in Hn. discriminate.
  - apply list_find_None in Hfind. rewrite Forall_forall in Hfind.
    rewrite Hfirst. rewrite decide_True by done.
    split; [discriminate|]. split; [|done].
    intros _ n Hin. specialize (Hfind n Hin).
    by destruct (ColIdent_EqualString col0 n).
Qed.

(** X5: a resolver built from a column list never panics on a row that has
    as many values as the list has columns. *)
Theorem column_list_resolver_total (keyspaceSchema : KeyspaceSchema)
    (name : string) (columns : list string) (r : v3Resolver) (row : list Value) :
  newV3ResolverFromColumnList keyspaceSchema name columns = Returned (Ok r) →
  length row = length columns →
  ∃ res, v3_keyspaceID r row = Returned res.
Proof.
  intros Hnew Hlen.
  apply newV3ResolverFromColumnList_Ok in Hnew
    as (tableSchema & colVindex & col0 & _ & _ & _ & Hfound & ->).
  destruct (findColumnIndex_range col0 columns 0) as [|Hrange]; [done|].
  assert (Hlt : (Z.to_nat (findColumnIndex col0 columns 0) < length row)%nat)
    by lia.
  apply lookup_lt_is_Some_2 in Hlt as [v Hv].
  eapply v3_keyspaceID_returns. apply index_Returned. simpl.
  split; [lia|done].
Qed.

(** What a resolver built from a table definition is made of. *)
Lemma newV3ResolverFromTableDefinition_Ok (keyspaceSchema : KeyspaceSchema)
    (td : TableDefinition) (r : v3Resolver) :
  newV3ResolverFromTableDefinition keyspaceSchema td = Returned (Ok r) →
  td_Type td = TableBaseTable ∧
  ∃ tableSchema colVindex col0,
    Tables keyspaceSchema !! td_Name td = Some tableSchema ∧
    FindVindexForSharding (td_Name td) (ColumnVindexes tableSchema)
      = Ok colVindex ∧
    Columns colVindex !! 0%nat = Some col0 ∧
    TableDefinitionGetColumn td (ColIdent_String col0)
      = (v3_shardingColumnIndex r, true) ∧
    v3_vindex r = cv_Vindex colVindex ∧
    v3_td r = Some td.
Proof.
  unfold newV3ResolverFromTableDefinition.
  destruct (decide (td_Type td = TableBaseTable)); [|discriminate].
  destruct (Tables keyspaceSchema !! td_Name td) as [tableSchema|]; [|discriminate].
  destruct (FindVindexForSharding (td_Name td) (ColumnVindexes tableSchema))
    as [colVindex|err] eqn:Hv; [|discriminate].
  destruct (index (Columns colVindex) 0) as [col0|p] eqn:Hcol; [|discriminate].
  apply index_Returned in Hcol as [_ Hcol]. simpl.
  destruct (TableDefinitionGetColumn td (ColIdent_String col0))
    as [columnIndex [|]] eqn:Hget; [|discriminate].
  intros [= <-]. split; [done|]. by exists tableSchema, colVindex, col0.
Qed.

(** X6: the two ways of building a vindex-based resolver for a table choose
    the same vindex, and the two resolvers give the same result, keyspace id
    or error, on any two rows that hold the same value in their sharding
    columns. *)
Theorem v3_constructors_agree (keyspaceSchema : KeyspaceSchema)
    (td : TableDefinition) (columns : list string) (r1 r2 : v3Resolver) :
  newV3ResolverFromTableDefinition keyspaceSchema td = Returned (Ok r1) →
  newV3ResolverFromColumnList keyspaceSchema (td_Name td) columns
    = Returned (Ok r2) →
  v3_vindex r1 = v3_vindex r2 ∧
  ∀ row1 row2 v,
    index row1 (v3_shardingColumnIndex r1) = Returned v →
    index row2 (v3_shardingColumnIndex r2) = Returned v →
    v3_keyspaceID r1 row1 = v3_keyspaceID r2 row2.
Proof.
  intros H1 H2.
  apply newV3ResolverFromTableDefinition_Ok in H1
    as (_ & ts1 & cv1 & c1 & Ht1 & Hv1 & _ & _ & Hvx1 & _).
  apply newV3ResolverFromColumnList_Ok in H2
    as (ts2 & cv2 & c2 & Ht2 & Hv2 & _ & _ & ->).
  rewrite Ht1 in Ht2. injection Ht2 as <-.
  rewrite Hv1 in Hv2. injection Hv2 as <-. simpl.
  split; [done|].
  intros row1 row2 v Hr1 Hr2. unfold v3_keyspaceID. simpl.
  rewrite Hr1, Hr2. simpl. by rewrite Hvx1.
Qed.

(** X7: [newV3ResolverFromTableDefinition] turns down a table that is not a
    base table whatever the schema holds; for a base table it fails when the
    schema has no table of that name, returns the error of the vindex
    selection unchanged, and fails when the table definition lacks the first
    column of the chosen vindex. *)
Theorem newV3ResolverFromTableDefinition_errors
    (keyspaceSchema : KeyspaceSchema) (td : TableDefinition) :
  (td_Type td ≠ TableBaseTable →
   newV3ResolverFromTableDefinition keyspaceSchema td
   = Returned (Err (errors_New
       ("a keyspaceID resolver can only be created for a base table, got "
        +:+ td_Type td)))) ∧
  (td_Type td = TableBaseTable →
   (Tables keyspaceSchema !! td_Name td = None →
    newV3ResolverFromTableDefinition keyspaceSchema td
    = Returned (Err (errors_New
        ("no vschema definition for table " +:+ td_Name td)))) ∧
   (∀ tableSchema,
      Tables keyspaceSchema !! td_Name td = Some tableSchema →
      (∀ err, FindVindexForSharding (td_Name td) (ColumnVindexes tableSchema)
              = Err err →
              newV3ResolverFromTableDefinition keyspaceSchema td
              = Returned (Err err)) ∧
      (∀ colVindex col0 rest,
         FindVindexForSharding (td_Name td) (ColumnVindexes tableSchema)
           = Ok colVindex →
         Columns colVindex = col0 :: rest →
         (TableDefinitionGetColumn td (ColIdent_String col0)).2 = false →
         newV3ResolverFromTableDefinition keyspaceSchema td
         = Returned (Err (errors_New
             ("table " +:+ td_Name td +:+
              " has a Vindex on unknown column " +:+ ColIdent_String col0)))))).
Proof.
  unfold newV3ResolverFromTableDefinition. split.
  - intros Hb. by rewrite decide_False.
  - intros Hb. rewrite decide_True by done. split.
    + by intros ->.
    + intros tableSchema ->. split.
      * by intros err ->.
      * intros colVindex col0 rest -> -> Hget. cbn [index decide]. simpl.
        destruct (TableDefinitionGetColumn td (ColIdent_String col0))
          as [columnIndex [|]]; [discriminate|done].
Qed.

Lemma first_occurrence_NoDup (names : list string) (k : nat) (name : string) :
  NoDup names → names !! k = Some name →
  first_occurrence names name = Z.of_nat k.
Proof.
  intros Hnd Hk. unfold first_occurrence.
  destruct (first_occurrence_elem names name) as [i Hfind].
  { apply list_elem_of_lookup. eauto. }
  rewrite Hfind. apply list_find_Some in Hfind as (Hi & _ & _).
  f_equal. by eapply NoDup_lookup.
Qed.

(** X8: for a primary-key list without repeated names [primaryIndexes]
    returns 0, 1, ..., n - 1; for any list, every index it returns is the
    position of a first occurrence, so that the entry at a returned index is
    that index again. *)
Theorem v3_primaryIndexes_positions (r : v3Resolver) (td : TableDefinition) :
  v3_td r = Some td →
  ∃ idxs,
    v3_primaryIndexes r = Returned idxs ∧
    (NoDup (td_PrimaryKeyColumns td) →
     idxs = Z.of_nat <$> seq 0 (length (td_PrimaryKeyColumns td))) ∧
    (∀ k i, idxs !! k = Some i →
       (0 ≤ i < Z.of_nat (length (td_PrimaryKeyColumns td)))%Z ∧
       idxs !! Z.to_nat i = Some i).
Proof.
  intros Htd. set (pk := td_PrimaryKeyColumns td).
  exists (first_occurrence pk <$> pk). split; [|split].
  - unfold v3_primaryIndexes. rewrite Htd. simpl.
    by rewrite primaryIndexes_outer_self.
  - intros Hnd. apply list_eq. intros k.
    rewrite !list_lookup_fmap.
    destruct (pk !! k) as [name|] eqn:Hk; simpl.
    + rewrite (first_occurrence_NoDup pk k name Hnd Hk).
      rewrite lookup_seq_lt by (by eapply lookup_lt_Some). done.
    + apply lookup_ge_None in Hk. by rewrite lookup_seq_ge.
  - intros k i. rewrite list_lookup_fmap.
    destruct (pk !! k) as [name|] eqn:Hk; [|discriminate]. simpl.
    intros [= <-].
    assert (Hin : name ∈ pk) by (apply list_elem_of_lookup; eauto).
    destruct (first_occurrence_elem pk name Hin) as [j Hfind].
    unfold first_occurrence at 1 2 3. rewrite Hfind.
    pose proof Hfind as Hfind'.
    apply list_find_Some in Hfind as (Hj & _ & Hbefore).
    split; [apply lookup_lt_Some in Hj; lia|].
    rewrite Nat2Z.id, list_lookup_fmap, Hj. simpl.
    unfold first_occurrence. by rewrite Hfind'.
Qed.

End WorkerMore.


(** The further properties, run in the concrete environment. *)
Section WorkerMoreRuns.
Import Worker.
#[local] Existing Instance Fixture.idents.
#[local] Existing Instance Fixture.worker_externals.

Lemma newV2Resolver_table_t :
  newV2Resolver Fixture.bytes_keyspace Fixture.table_t
  = Ok {| v2_keyspaceInfo := Fixture.bytes_keyspace;
          v2_shardingColumnIndex := 1 |}.
Proof. reflexivity. Defined.

(** The resolver of the table [t] in a bytes keyspace returns the second
    value of a row. *)
Lemma newV2Resolver_keyspaceID_witness :
  v2_keyspaceID
    {| v2_keyspaceInfo := Fixture.bytes_keyspace; v2_shardingColumnIndex := 1 |}
    [ {| typ := 6165; val := [104; 105]%Z |}; {| typ := 10262; val := [171]%Z |} ]
  = Returned ([171]%Z, None).
Proof.
  exact (proj2 (proj2 (newV2Resolver_keyspaceID
    Fixture.bytes_keyspace Fixture.table_t
    {| v2_keyspaceInfo := Fixture.bytes_keyspace; v2_shardingColumnIndex := 1 |}
    [ {| typ := 6165; val := [104; 105]%Z |}; {| typ := 10262; val := [171]%Z |} ]
    {| typ := 10262; val := [171]%Z |}
    newV2Resolver_table_t eq_refl)) eq_refl).
Defined.

Lemma column_list_resolver_t :
  newV3ResolverFromColumnList Fixture.schema_identity "t" ["msg"; "ID"; "id"]
  = Returned (Ok {| v3_shardingColumnIndex := 1;
                    v3_vindex := Fixture.identity_vindex;
                    v3_td := None |}).
Proof. vm_compute. reflexivity. Defined.

Lemma table_definition_resolver_t :
  newV3ResolverFromTableDefinition Fixture.schema_identity Fixture.table_t
  = Returned (Ok {| v3_shardingColumnIndex := 1;
                    v3_vindex := Fixture.identity_vindex;
                    v3_td := Some Fixture.table_t |}).
Proof. vm_compute. reflexivity. Defined.

(** Of the columns [msg; ID; id] the resolver reads [ID], the first that
    equals the vindex column [id]. *)
Lemma newV3ResolverFromColumnList_first_match_witness :
  ∃ k n, v3_shardingColumnIndex
           {| v3_shardingColumnIndex := 1; v3_vindex := Fixture.identity_vindex;
              v3_td := None |} = Z.of_nat k ∧
         ["msg"; "ID"; "id"] !! k = Some n ∧ n = "ID".
Proof.
  assert (Htable : Tables Fixture.schema_identity !! "t"
                   = Some Fixture.binary_table) by (vm_compute; reflexivity).
  assert (Hvindex : FindVindexForSharding "t"
                      (ColumnVindexes Fixture.binary_table)
                    = Ok Fixture.binary_index) by reflexivity.
  destruct (proj1 (proj2 (newV3ResolverFromColumnList_first_match
    Fixture.schema_identity "t" ["msg"; "ID"; "id"]
    Fixture.binary_table Fixture.binary_index Htable Hvindex)
    "id" [] eq_refl) _ column_list_resolver_t)
    as (_ & k & n & Hk & Hn & _ & _).
  exists k, n. split; [exact Hk|]. split; [exact Hn|].
  simpl in Hk. assert (k = 1%nat) as -> by lia.
  simpl in Hn. by injection Hn as <-.
Defined.

(** On a row of three values the resolver built from three columns returns. *)
Lemma column_list_resolver_total_witness :
  ∃ res, v3_keyspaceID
           {| v3_shardingColumnIndex := 1; v3_vindex := Fixture.identity_vindex;
              v3_td := None |}
           [ {| typ := 6165; val := [104]%Z |};
             {| typ := 10262; val := [171]%Z |};
             {| typ := 10262; val := [172]%Z |} ]
         = Returned res.
Proof.
  exact (column_list_resolver_total Fixture.schema_identity "t"
    ["msg"; "ID"; "id"] _
    [ {| typ := 6165; val := [104]%Z |};
      {| typ := 10262; val := [171]%Z |};
      {| typ := 10262; val := [172]%Z |} ]
    column_list_resolver_t eq_refl).
Defined.

(** The resolver built from the table definition and the one built from
    the column list [id; msg] agree on a row and its rearrangement. *)
Lemma v3_constructors_agree_witness :
  v3_keyspaceID
    {| v3_shardingColumnIndex := 1; v3_vindex := Fixture.identity_vindex;
       v3_td := Some Fixture.table_t |}
    [ {| typ := 6165; val := [104]%Z |}; {| typ := 10262; val := [171]%Z |} ]
  = v3_keyspaceID
      {| v3_shardingColumnIndex := 0; v3_vindex := Fixture.identity_vindex;
         v3_td := None |}
      [ {| typ := 10262; val := [171]%Z |}; {| typ := 6165; val := [104]%Z |} ].
Proof.
  assert (Hlist : newV3ResolverFromColumnList Fixture.schema_identity
                    (td_Name Fixture.table_t) ["id"; "msg"]
                  = Returned (Ok {| v3_shardingColumnIndex := 0;
                                    v3_vindex := Fixture.identity_vindex;
                                    v3_td := None |}))
    by (vm_compute; reflexivity).
  exact (proj2 (v3_constructors_agree Fixture.schema_identity Fixture.table_t
    ["id"; "msg"] _ _ table_definition_resolver_t Hlist)
    [ {| typ := 6165; val := [104]%Z |}; {| typ := 10262; val := [171]%Z |} ]
    [ {| typ := 10262; val := [171]%Z |}; {| typ := 6165; val := [104]%Z |} ]
    {| typ := 10262; val := [171]%Z |} eq_refl eq_refl).
Defined.

(** The primary key [a; b; c] has the indexes 0, 1, 2. *)
Lemma v3_primaryIndexes_positions_witness :
  v3_primaryIndexes
    {| v3_shardingColumnIndex := 0; v3_vindex := Fixture.identity_vindex;
       v3_td := Some {| td_Name := "t"; td_Type := TableBaseTable;
                        td_Columns := ["a"; "b"; "c"];
                        td_PrimaryKeyColumns := ["a"; "b"; "c"] |} |}
  = Returned [0; 1; 2]%Z.
Proof.
  destruct (v3_primaryIndexes_positions
    {| v3_shardingColumnIndex := 0; v3_vindex := Fixture.identity_vindex;
       v3_td := Some {| td_Name := "t"; td_Type := TableBaseTable;
                        td_Columns := ["a"; "b"; "c"];
                        td_PrimaryKeyColumns := ["a"; "b"; "c"] |} |}
    _ eq_refl) as (idxs & Hret & Hnodup & _).
  rewrite Hret. f_equal. apply Hnodup. simpl.
  apply (bool_decide_unpack _). vm_compute. exact I.
Defined.

(** A view is turned down by [newV2Resolver] with the base-table error. *)
Lemma newV2Resolver_requirements_witness :
  newV2Resolver Fixture.bytes_keyspace
    {| td_Name := "v"; td_Type := "VIEW"; td_Columns := ["id"];
       td_PrimaryKeyColumns := [] |}
  = Err (errors_New
      "a keyspaceID resolver can only be created for a base table, got VIEW").
Proof.
  apply (proj1 (proj2 (proj2 (proj2 (newV2Resolver_requirements
    Fixture.bytes_keyspace
    {| td_Name := "v"; td_Type := "VIEW"; td_Columns := ["id"];
       td_PrimaryKeyColumns := [] |}))))); discriminate.
Defined.

(** On a row of one value a resolver for the second column panics. *)
Lemma keyspaceID_panics_on_short_rows_witness :
  v2_keyspaceID
    {| v2_keyspaceInfo := Fixture.bytes_keyspace; v2_shardingColumnIndex := 1 |}
    [ {| typ := 10262; val := [171]%Z |} ]
  = Panicked runtime_index_out_of_range.
Proof.
  apply (proj1 (keyspaceID_panics_on_short_rows
    {| v2_keyspaceInfo := Fixture.bytes_keyspace; v2_shardingColumnIndex := 1 |}
    {| v3_shardingColumnIndex := 1; v3_vindex := Fixture.identity_vindex;
       v3_td := None |}
    [ {| typ := 10262; val := [171]%Z |} ])).
  split; [reflexivity|]. simpl. lia.
Defined.

(** A view is turned down by [newV3ResolverFromTableDefinition], whatever
    the schema holds. *)
Lemma newV3ResolverFromTableDefinition_errors_witness :
  newV3ResolverFromTableDefinition Fixture.schema_identity
    {| td_Name := "t"; td_Type := "VIEW"; td_Columns := ["id"];
       td_PrimaryKeyColumns := [] |}
  = Returned (Err (errors_New
      "a keyspaceID resolver can only be created for a base table, got VIEW")).
Proof.
  apply (proj1 (newV3ResolverFromTableDefinition_errors
    Fixture.schema_identity
    {| td_Name := "t"; td_Type := "VIEW"; td_Columns := ["id"];
       td_PrimaryKeyColumns := [] |})).
  discriminate.
Defined.

End WorkerMoreRuns.


(** * Further properties of the UPDATE planner *)

Section PlanbuilderMore.
Import Planbuilder.
Context `{Externals}.

(** X9: a plan that [buildUpdatePlan] returns comes from a single route
    without target destination, carries the rendering of the statement as its
    query and the keyspace of the route.  For an unsharded keyspace the
    subqueries were validated and nothing else is set; for a sharded one the
    statement has no subquery, the route has one table, which the plan
    names, the opcode is [UpdateEqual], the vindex and values are those of
    [getDMLRouting] on that table, and the changed vindex values are those
    of [buildChangedVindexesValues] on its column vindexes. *)
Theorem buildUpdatePlan_plan_shape (upd : Update) (vschema : VSchema)
    (eupd : engine_Update) :
  buildUpdatePlan upd vschema = Ok eupd →
  ∃ rb,
    processTableExprs (upd_TableExprs upd) vschema = Ok (builder_route rb) ∧
    TargetDestination (ERoute rb) = None ∧
    Query eupd = generateQuery upd ∧
    eupd_Keyspace eupd = Some (Route_Keyspace (ERoute rb)) ∧
    (Sharded (Route_Keyspace (ERoute rb)) = false →
     validateSubquerySamePlan (Keyspace_Name (Route_Keyspace (ERoute rb))) rb
       vschema (Exprs upd) (upd_Where upd) (OrderBy upd) (upd_Limit upd) = true ∧
     Opcode eupd = UpdateUnsharded ∧ ChangedVindexValues eupd = ∅ ∧
     eupd_Table eupd = None ∧ eupd_Vindex eupd = None ∧ Values eupd = [] ∧
     OwnedVindexQuery eupd = "") ∧
    (Sharded (Route_Keyspace (ERoute rb)) = true →
     hasSubquery upd = false ∧
     ∃ name tval vtable,
       Symtab_tables rb = [(name, tval)] ∧ vindexTable tval = Some vtable ∧
       Opcode eupd = UpdateEqual ∧ eupd_Table eupd = Some vtable ∧
       getDMLRouting (upd_Where upd) vtable
         = (eupd_Vindex eupd, Values eupd, None) ∧
       buildChangedVindexesValues eupd upd (ColumnVindexes vtable)
         = Ok (ChangedVindexValues eupd)).
Proof.
  unfold buildUpdatePlan.
  destruct (processTableExprs (upd_TableExprs upd) vschema) as [[rb|]|] eqn:Hproc;
    [|discriminate..].
  destruct (TargetDestination (ERoute rb)) eqn:Htarget; [discriminate|].
  destruct (Sharded (Route_Keyspace (ERoute rb))) eqn:Hsharded; simpl.
  2:{ destruct (validateSubquerySamePlan _ _ _ _ _ _ _) eqn:Hvalid; simpl;
        [|discriminate].
      intros [= <-]. exists rb. simpl. do 4 (split; [done|]).
      split; [by intros _|]. intros Hs. congruence. }
  destruct (hasSubquery upd) eqn:Hsub; [discriminate|].
  destruct (decide (length (Symtab_tables rb) ≠ 1%nat)) as [|Hlen]; [discriminate|].
  destruct (Symtab_tables rb) as [|[name tval] [|more]] eqn:Htables;
    try (simpl in Hlen; lia).
  unfold last_vindexTable. cbn [fold_left snd].
  destruct (vindexTable tval) as [vtable|] eqn:Htable; [|discriminate].
  destruct (getDMLRouting (upd_Where upd) vtable) as [[vindex values] [err|]] eqn:Hr;
    [discriminate|].
  unfold buildChangedVindexesValues.
  destruct (scan_vindexes upd 0 (ColumnVindexes vtable) ∅) as [changed|] eqn:Hs;
    [|discriminate].
  intros [= <-]. exists rb. simpl. do 4 (split; [done|]).
  split; [intros Hns; congruence|]. intros _. split; [done|].
  by exists name, tval, vtable.
Qed.

(** X10: [buildUpdatePlan] turns a statement down on its shape, in this
    order: an error of [processTableExprs] is returned unchanged; a builder
    that is not a route and a route with a target destination are
    unsupported, whatever the keyspace; in an unsharded keyspace a subquery
    that does not plan in the keyspace is; in a sharded keyspace a subquery
    is, then a route of other than one table, then a table without vindex
    table, and an error of [getDMLRouting] is returned unchanged. *)
Theorem buildUpdatePlan_shape_errors (upd : Update) (vschema : VSchema) :
  (∀ err, processTableExprs (upd_TableExprs upd) vschema = Err err →
     buildUpdatePlan upd vschema = Err err) ∧
  (processTableExprs (upd_TableExprs upd) vschema = Ok builder_other →
   buildUpdatePlan upd vschema
   = Err (errors_New
       "unsupported: multi-table update statement in sharded keyspace")) ∧
  (∀ rb, processTableExprs (upd_TableExprs upd) vschema = Ok (builder_route rb) →
     (is_Some (TargetDestination (ERoute rb)) →
      buildUpdatePlan upd vschema
      = Err (errors_New "unsupported: UPDATE with a target destination")) ∧
     (TargetDestination (ERoute rb) = None →
      (Sharded (Route_Keyspace (ERoute rb)) = false →
       validateSubquerySamePlan (Keyspace_Name (Route_Keyspace (ERoute rb))) rb
         vschema (Exprs upd) (upd_Where upd) (OrderBy upd) (upd_Limit upd)
         = false →
       buildUpdatePlan upd vschema
       = Err (errors_New "unsupported: sharded subqueries in DML")) ∧
      (Sharded (Route_Keyspace (ERoute rb)) = true →
       (hasSubquery upd = true →
        buildUpdatePlan upd vschema
        = Err (errors_New "unsupported: subqueries in sharded DML")) ∧
       (hasSubquery upd = false →
        (length (Symtab_tables rb) ≠ 1%nat →
         buildUpdatePlan upd vschema
         = Err (errors_New
             "unsupported: multi-table update statement in sharded keyspace")) ∧
        (∀ name tval, Symtab_tables rb = [(name, tval)] →
           (vindexTable tval = None →
            buildUpdatePlan upd vschema
            = Err (errors_New
                "internal error: table.vindexTable is mysteriously nil")) ∧
           (∀ vtable err,
              vindexTable tval = Some vtable →
              (getDMLRouting (upd_Where upd) vtable).2 = Some err →
              buildUpdatePlan upd vschema = Err err)))))).
Proof.
  unfold buildUpdatePlan. split; [by intros err ->|]. split; [by intros ->|].
  intros rb ->. split.
  { intros [d ->]. done. }
  intros ->. split.
  { intros -> ->. done. }
  intros ->. simpl. split; [by intros ->|]. intros ->. split.
  { intros Hlen. by rewrite decide_True. }
  intros name tval ->. unfold last_vindexTable. cbn [fold_left snd length].
  rewrite decide_False by (intros Hne; by apply Hne). split.
  { by intros ->. }
  intros vtable err -> Herr.
  destruct (getDMLRouting (upd_Where upd) vtable) as [[vindex values] e].
  simpl in Herr. by subst e.
Qed.

Lemma filter_targets_nil (vcol : ColIdent) (exprs : list UpdateExpr) :
  filter (targets vcol) exprs = [] ↔
  ∀ a, a ∈ exprs → targets vcol a = false.
Proof.
  split.
  - intros Hnil a Ha. destruct (targets vcol a) eqn:Ht; [|done].
    by destruct (targets_filter_nonempty _ _ _ Ha Ht).
  - intros Hall. destruct (filter (targets vcol) exprs) as [|a more] eqn:Hf; [done|].
    assert (Hin : a ∈ filter (targets vcol) exprs) by (rewrite Hf; left).
    apply list_elem_of_filter in Hin as [Ht Ha].
    rewrite (Hall a Ha) in Ht. done.
Qed.

(** The values that a scan of the columns adds: at most one per column, and
    when there is one per column, each is the value assigned to its column. *)
Lemma scan_columns_Ok_values (update : Update) (columns : list ColIdent)
    (acc vals : list PlanValue) :
  scan_columns (Exprs update) columns acc = Ok vals →
  ∃ new, vals = acc ++ new ∧ (length new ≤ length columns)%nat ∧
         (length new = length columns →
          Forall2 (assigned_value update) columns new).
Proof.
  revert acc. induction columns as [|c columns IH]; intros acc; simpl.
  - intros [= <-]. exists []. rewrite app_nil_r. repeat split; [done|].
    intros _. constructor.
  - destruct (scan_assignments c (Exprs update) false acc)
      as [[found acc1]|] eqn:Hs; [|discriminate].
    intros Hrest. destruct (IH _ Hrest) as (new & -> & Hle & Hall).
    apply scan_assignments_Ok in Hs as [[_ ->]|(a & pv & Hf & Hx & ->)].
    + exists new. split; [done|]. split; [lia|]. intros Hlen. lia.
    + exists (pv :: new). rewrite <- app_assoc. split; [done|].
      simpl. split; [lia|]. intros Hlen. constructor.
      * by exists a.
      * apply Hall. lia.
Qed.

Lemma scan_columns_untouched (exprs : list UpdateExpr) (columns : list ColIdent)
    (acc : list PlanValue) :
  (∀ vcol, vcol ∈ columns → filter (targets vcol) exprs = []) →
  scan_columns exprs columns acc = Ok acc.
Proof.
  revert acc. induction columns as [|c columns IH]; intros acc Hall; simpl; [done|].
  rewrite scan_assignments_none by (apply Hall; left).
  apply IH. intros vcol Hin. apply Hall. by right.
Qed.

Lemma not_touched_scan (update : Update) (v : ColumnVindex) :
  ¬ touched update v →
  scan_columns (Exprs update) (Columns v) [] = Ok [].
Proof.
  intros Hnot. apply scan_columns_untouched. intros vcol Hin.
  apply filter_targets_nil. intros a Ha.
  destruct (targets vcol a) eqn:Ht; [|done].
  destruct Hnot. by exists vcol, a.
Qed.

Lemma scan_columns_Ok_touched (exprs : list UpdateExpr)
    (columns : list ColIdent) (acc vals : list PlanValue) :
  scan_columns exprs columns acc = Ok vals →
  vals = acc ∨
  ∃ vcol a, vcol ∈ columns ∧ a ∈ exprs ∧ targets vcol a = true.
Proof.
  revert acc. induction columns as [|c columns IH]; intros acc; simpl.
  - intros [= <-]. by left.
  - destruct (scan_assignments c exprs false acc) as [[found acc1]|] eqn:Hs;
      [|discriminate].
    intros Hrest.
    apply scan_assignments_Ok in Hs as [[_ ->]|(a & pv & Hf & _ & _)].
    + destruct (IH _ Hrest) as [->|(vcol & a & Hin & Ha & Ht)]; [by left|].
      right. exists vcol, a. split; [by right|done].
    + right. exists c, a.
      assert (Hin : a ∈ filter (targets c) exprs) by (rewrite Hf; left).
      apply list_elem_of_filter in Hin as [Ht Ha].
      split; [left|]. split; [done|]. by apply Is_true_true.
Qed.

Lemma touched_scan (update : Update) (v : ColumnVindex) (vals : list PlanValue) :
  scan_columns (Exprs update) (Columns v) [] = Ok vals →
  touched update v ↔ vals ≠ [].
Proof.
  intros Hs. split.
  - intros (vcol & a & Hvcol & Ha & Ht).
    apply scan_columns_Ok_grows in Hs as [_ Hlt].
    specialize (Hlt vcol a Hvcol Ha Ht). intros ->. simpl in Hlt. lia.
  - intros Hne. apply scan_columns_Ok_touched in Hs as [->|Ht]; done.
Qed.

Lemma length_zero_nil {A} (l : list A) : length l = 0%nat ↔ l = [].
Proof. destruct l; split; done. Qed.

(** The keys of the map that detection returns, and the values under them. *)
Lemma scan_vindexes_Ok_entries (update : Update) (i : Z)
    (colVindexes : list ColumnVindex)
    (acc changed : gmap string (list PlanValue)) (name : string)
    (vals : list PlanValue) :
  scan_vindexes update i colVindexes acc = Ok changed →
  changed !! name = Some vals →
  acc !! name = Some vals ∨
  ∃ k v, colVindexes !! k = Some v ∧ (i + Z.of_nat k ≠ 0)%Z ∧
         cv_Name v = name ∧
         vindex_implements_Lookup (cv_Vindex v) = true ∧ Owned v = true ∧
         vals ≠ [] ∧ Forall2 (assigned_value update) (Columns v) vals ∧
         ¬ (is_Some (upd_Limit update) ∧ length (OrderBy update) = 0%nat).
Proof.
  revert i acc. induction colVindexes as [|c colVindexes IH]; intros i acc.
  - simpl. intros [= <-] Hlook. by left.
  - cbn [scan_vindexes].
    destruct (scan_columns (Exprs update) (Columns c) []) as [vals0|] eqn:Hc;
      [|discriminate].
    destruct (decide (length vals0 = 0%nat)) as [Hz|Hz].
    { intros Hs Hlook. destruct (IH _ _ Hs Hlook) as [|(k & v & Hk & Hi & Hrest)];
        [by left|].
      right. exists (S k), v. split; [done|]. split; [lia|done]. }
    destruct (decide (length vals0 ≠ length (Columns c))) as [|Hfull];
      [discriminate|].
    destruct (bool_decide (is_Some (upd_Limit update)) &&
              bool_decide (length (OrderBy update) = 0%nat)) eqn:Hlimit;
      [discriminate|].
    destruct (decide (i = 0%Z)) as [|Hi0]; [discriminate|].
    destruct (vindex_implements_Lookup (cv_Vindex c)) eqn:Hlookup;
      [|discriminate].
    destruct (Owned c) eqn:Howned; [|discriminate]. simpl.
    intros Hs Hlook.
    destruct (IH _ _ Hs Hlook) as [Hacc|(k & v & Hk & Hi & Hrest)].
    + destruct (decide (cv_Name c = name)) as [<-|Hne].
      * rewrite lookup_insert_eq in Hacc. injection Hacc as <-.
        right. exists 0%nat, c. split; [done|]. split; [lia|].
        do 3 (split; [done|]). split; [by intros ->|]. split.
        -- apply scan_columns_Ok_values in Hc as (new & -> & _ & Hall).
           apply Hall. simpl in *. lia.
        -- intros [Hl Ho]. apply andb_false_iff in Hlimit as [Hf|Hf];
             apply bool_decide_eq_false in Hf; done.
      * rewrite lookup_insert_ne in Hacc by done. by left.
    + right. exists (S k), v. split; [done|]. split; [lia|done].
Qed.

(** X11: every entry of the map that [buildChangedVindexesValues] returns
    stands for a column vindex of the table that is not the primary one, is
    a lookup vindex and is owned: the key is its name, and the values are
    one per column of the vindex, in the order of the columns, each the
    extracted value of the one assignment to that column.  If the map has an
    entry, the statement has no LIMIT without ORDER BY. *)
Theorem changed_vindex_values_entries (eupd : engine_Update) (update : Update)
    (colVindexes : list ColumnVindex)
    (changed : gmap string (list PlanValue)) (name : string)
    (vals : list PlanValue) :
  buildChangedVindexesValues eupd update colVindexes = Ok changed →
  changed !! name = Some vals →
  ∃ k v, colVindexes !! k = Some v ∧ (0 < k)%nat ∧ cv_Name v = name ∧
         vindex_implements_Lookup (cv_Vindex v) = true ∧ Owned v = true ∧
         vals ≠ [] ∧ Forall2 (assigned_value update) (Columns v) vals ∧
         ¬ (is_Some (upd_Limit update) ∧ length (OrderBy update) = 0%nat).
Proof.
  intros Hs Hlook.
  destruct (scan_vindexes_Ok_entries _ _ _ _ _ _ _ Hs Hlook)
    as [Hempty|(k & v & Hk & Hi & Hrest)].
  - by rewrite lookup_empty in Hempty.
  - exists k, v. split; [done|]. split; [lia|done].
Qed.

(** The keys of the map that detection returns are the names of the vindexes
    that the SET list touches. *)
Lemma scan_vindexes_Ok_keys (update : Update) (i : Z)
    (colVindexes : list ColumnVindex)
    (acc changed : gmap string (list PlanValue)) (name : string) :
  scan_vindexes update i colVindexes acc = Ok changed →
  is_Some (changed !! name) ↔
  is_Some (acc !! name) ∨
  ∃ v, v ∈ colVindexes ∧ cv_Name v = name ∧ touched update v.
Proof.
  revert i acc. induction colVindexes as [|c colVindexes IH]; intros i acc.
  - simpl. intros [= <-]. split; [by left|].
    intros [|(v & Hin & _)]; [done|]. by apply elem_of_nil in Hin.
  - cbn [scan_vindexes].
    destruct (scan_columns (Exprs update) (Columns c) []) as [vals0|] eqn:Hc;
      [|discriminate].
    pose proof (touched_scan _ _ _ Hc) as Htouched.
    destruct (decide (length vals0 = 0%nat)) as [Hz|Hz].
    { apply length_zero_nil in Hz. intros Hs. rewrite (IH _ _ Hs).
      split.
      - intros [|(v & Hin & Hrest)]; [by left|].
        right. exists v. split; [by right|done].
      - intros [|(v & Hin & Hn & Ht)]; [by left|].
        apply elem_of_cons in Hin as [->|Hin].
        + apply Htouched in Ht. done.
        + right. by exists v. }
    repeat (case_match; try discriminate).
    intros Hs. rewrite (IH _ _ Hs). split.
    + intros [Hacc|(v & Hin & Hrest)].
      * destruct (decide (cv_Name c = name)) as [Heq|Hne].
        -- right. exists c. split; [left|]. split; [done|].
           apply Htouched. intros ->. done.
        -- rewrite lookup_insert_ne in Hacc by done. by left.
      * right. exists v. split; [by right|done].
    + intros [Hacc|(v & Hin & Hn & Ht)].
      * left. destruct (decide (cv_Name c = name)) as [Heq|Hne].
        -- rewrite Heq, lookup_insert_eq. done.
        -- by rewrite lookup_insert_ne.
      * apply elem_of_cons in Hin as [->|Hin].
        -- left. rewrite Hn, lookup_insert_eq. done.
        -- right. by exists v.
Qed.

(** X12: the keys of the map that [buildChangedVindexesValues] returns are
    exactly the names of the column vindexes of which the SET list assigns
    some column. *)
Theorem changed_vindex_values_keys (eupd : engine_Update) (update : Update)
    (colVindexes : list ColumnVindex)
    (changed : gmap string (list PlanValue)) (name : string) :
  buildChangedVindexesValues eupd update colVindexes = Ok changed →
  is_Some (changed !! name) ↔
  ∃ v, v ∈ colVindexes ∧ cv_Name v = name ∧ touched update v.
Proof.
  intros Hs. rewrite (scan_vindexes_Ok_keys _ _ _ _ _ name Hs).
  rewrite lookup_empty. split; [|by right].
  intros [[x Hx]|]; done.
Qed.

Lemma scan_vindexes_untouched (update : Update) (i : Z)
    (colVindexes : list ColumnVindex) (acc : gmap string (list PlanValue)) :
  (∀ v, v ∈ colVindexes → ¬ touched update v) →
  scan_vindexes update i colVindexes acc = Ok acc.
Proof.
  revert i. induction colVindexes as [|c colVindexes IH]; intros i Hall; [done|].
  cbn [scan_vindexes]. rewrite not_touched_scan by (apply Hall; left).
  simpl. apply IH. intros v Hin. apply Hall. by right.
Qed.

(** X13: a sharded UPDATE whose SET list assigns no column of any column
    vindex of its table is planned with the opcode [UpdateEqual] and the
    routing of [getDMLRouting], without changed vindex values and without
    fetch subquery, also when it has a LIMIT and no ORDER BY. *)
Theorem untouched_vindexes_plan (upd : Update) (vschema : VSchema)
    (vtable : Table) :
  reaches_vindex_detection upd vschema vtable →
  (∀ v, v ∈ ColumnVindexes vtable → ¬ touched upd v) →
  ∃ eupd,
    buildUpdatePlan upd vschema = Ok eupd ∧
    Opcode eupd = UpdateEqual ∧
    Query eupd = generateQuery upd ∧
    eupd_Table eupd = Some vtable ∧
    (getDMLRouting (upd_Where upd) vtable).1
      = (eupd_Vindex eupd, Values eupd) ∧
    ChangedVindexValues eupd = ∅ ∧
    OwnedVindexQuery eupd = "".
Proof.
  intros Hreach Hnone. unfold buildUpdatePlan.
  destruct Hreach as (rb & -> & -> & -> & -> & Hlen & -> & Hrouting). simpl.
  rewrite decide_False by (intros Hne; by apply Hne).
  destruct (getDMLRouting (upd_Where upd) vtable) as [[vindex values] err].
  simpl in Hrouting. subst err.
  unfold buildChangedVindexesValues.
  rewrite scan_vindexes_untouched by done.
  eexists. split; [done|]. simpl. repeat split.
Qed.

(** The scan of columns that are each unassigned or assigned once. *)
Lemma scan_columns_partial (update : Update) (columns : list ColIdent)
    (acc : list PlanValue) :
  (∀ vcol, vcol ∈ columns →
     filter (targets vcol) (Exprs update) = [] ∨
     ∃ pv, assigned_value update vcol pv) →
  ∃ new,
    scan_columns (Exprs update) columns acc = Ok (acc ++ new) ∧
    (length new ≤ length columns)%nat ∧
    ((∃ vcol, vcol ∈ columns ∧ filter (targets vcol) (Exprs update) = []) →
     (length new < length columns)%nat) ∧
    ((∃ vcol pv, vcol ∈ columns ∧ assigned_value update vcol pv) →
     (0 < length new)%nat).
Proof.
  revert acc. induction columns as [|c columns IH]; intros acc Hall.
  - exists []. rewrite app_nil_r. split; [done|]. split; [done|].
    split; intros (vcol & Hrest); [destruct Hrest as [Hin _]|
                                   destruct Hrest as (pv & Hin & _)];
      by apply elem_of_nil in Hin.
  - assert (Hrest : ∀ vcol, vcol ∈ columns →
              filter (targets vcol) (Exprs update) = [] ∨
              ∃ pv, assigned_value update vcol pv).
    { intros vcol Hin. apply Hall. by right. }
    cbn [scan_columns].
    destruct (Hall c) as [Hnil|(pv & a & Hf & Hx)]; [left|..].
    + rewrite scan_assignments_none by done.
      destruct (IH acc Hrest) as (new & -> & Hle & Hlt & Hpos).
      exists new. split; [done|]. simpl. split; [lia|]. split; [lia|].
      intros (vcol & pv & Hin & Ha). apply Hpos.
      apply elem_of_cons in Hin as [->|Hin]; [|by exists vcol, pv].
      destruct Ha as (a & Hf & _). rewrite Hnil in Hf. discriminate.
    + rewrite (scan_assignments_one _ _ _ _ Hf), Hx.
      destruct (IH (acc ++ [pv]) Hrest) as (new & -> & Hle & Hlt & Hpos).
      exists (pv :: new). rewrite <- app_assoc. split; [done|].
      simpl. split; [lia|]. split; [|lia].
      intros (vcol & Hin & Hnil).
      apply elem_of_cons in Hin as [->|Hin].
      * rewrite Hnil in Hf. discriminate.
      * assert (length new < length columns)%nat; [|lia].
        apply Hlt. by exists vcol.
Qed.

Lemma vindex_reached_scan (eupd : engine_Update) (update : Update)
    (colVindexes pre : list ColumnVindex) (v : ColumnVindex) :
  vindex_reached update colVindexes pre v →
  ∃ post changed,
    scan_vindexes update 0 pre ∅ = Ok changed ∧
    buildChangedVindexesValues eupd update colVindexes
    = scan_vindexes update (Z.of_nat (length pre)) (v :: post) changed.
Proof.
  intros ([post ->] & [changed Hpre]). exists post, changed. split; [done|].
  unfold buildChangedVindexesValues. by rewrite scan_vindexes_app, Hpre.
Qed.

(** X14: when detection reaches a vindex of which the SET list assigns some
    columns, each once and by an extracted value, and leaves another column
    unassigned, it fails with the error that the update has no values for
    all the columns of that vindex. *)
Theorem partly_assigned_vindex_rejected (eupd : engine_Update) (update : Update)
    (colVindexes pre : list ColumnVindex) (v : ColumnVindex) :
  vindex_reached update colVindexes pre v →
  (∀ vcol, vcol ∈ Columns v →
     filter (targets vcol) (Exprs update) = [] ∨
     ∃ pv, assigned_value update vcol pv) →
  (∃ vcol, vcol ∈ Columns v ∧ filter (targets vcol) (Exprs update) = []) →
  (∃ vcol pv, vcol ∈ Columns v ∧ assigned_value update vcol pv) →
  buildChangedVindexesValues eupd update colVindexes
  = Err (err_all_columns v).
Proof.
  intros Hreach Hall Hmissing Hsome.
  destruct (vindex_reached_scan eupd _ _ _ _ Hreach) as (post & changed & _ & ->).
  cbn [scan_vindexes].
  destruct (scan_columns_partial update (Columns v) [] Hall)
    as (new & -> & _ & Hlt & Hpos).
  specialize (Hlt Hmissing). specialize (Hpos Hsome). simpl.
  rewrite decide_False by lia. by rewrite decide_True by lia.
Qed.

Lemma fully_assigned_scan (update : Update) (v : ColumnVindex) :
  fully_assigned update v →
  ∃ vals, scan_columns (Exprs update) (Columns v) [] = Ok vals ∧
          length vals = length (Columns v) ∧ length vals ≠ 0%nat.
Proof.
  intros [Hne Hall].
  destruct (scan_columns_all_once (Exprs update) (Columns v) []) as (vals & Hs & Hlen).
  { intros vcol Hin. destruct (Hall vcol Hin) as (pv & a & Hf & Hx).
    by exists a, pv. }
  exists vals. split; [done|]. simpl in Hlen. split; [done|].
  rewrite Hlen. by destruct (Columns v).
Qed.


(** X16: when detection reaches a vindex after the primary one, all of whose
    columns the SET list assigns, in a statement without LIMIT or with ORDER
    BY, it fails if the vindex is not a lookup vindex, and fails if it is a
    lookup vindex that the table does not own. *)
Theorem unmaintained_vindex_rejected (eupd : engine_Update) (update : Update)
    (colVindexes pre : list ColumnVindex) (v : ColumnVindex) :
  vindex_reached update colVindexes pre v →
  pre ≠ [] →
  fully_assigned update v →
  ¬ (is_Some (upd_Limit update) ∧ length (OrderBy update) = 0%nat) →
  (vindex_implements_Lookup (cv_Vindex v) = false →
   buildChangedVindexesValues eupd update colVindexes = Err (err_not_lookup v)) ∧
  (vindex_implements_Lookup (cv_Vindex v) = true → Owned v = false →
   buildChangedVindexesValues eupd update colVindexes = Err (err_not_owned v)).
Proof.
  intros Hreach Hpre Hfull Hlimit.
  destruct (vindex_reached_scan eupd _ _ _ _ Hreach) as (post & changed & _ & ->).
  cbn [scan_vindexes].
  destruct (fully_assigned_scan _ _ Hfull) as (vals & -> & Hlen & Hne).
  rewrite decide_False by done. rewrite decide_False by (intros Hn; by apply Hn).
  assert (bool_decide (is_Some (upd_Limit update)) &&
          bool_decide (length (OrderBy update) = 0%nat) = false) as ->.
  { apply andb_false_iff.
    destruct (bool_decide (is_Some (upd_Limit update))) eqn:Hl; [|by left].
    right. apply bool_decide_eq_false. intros Ho.
    apply bool_decide_eq_true in Hl. by apply Hlimit. }
  rewrite decide_False by (destruct pre; [done|simpl; lia]).
  split.
  - by intros ->.
  - by intros -> ->.
Qed.

Lemma scan_columns_ext (exprs exprs' : list UpdateExpr) (columns : list ColIdent)
    (acc : list PlanValue) :
  (∀ vcol, vcol ∈ columns →
     filter (targets vcol) exprs = filter (targets vcol) exprs') →
  scan_columns exprs columns acc = scan_columns exprs' columns acc.
Proof.
  revert acc. induction columns as [|c columns IH]; intros acc Hall; [done|].
  simpl. rewrite (scan_assignments_filter c exprs).
  rewrite (scan_assignments_filter c exprs').
  rewrite (Hall c) by left.
  destruct (scan_assignments c _ false acc) as [[found acc1]|]; [|done].
  apply IH. intros vcol Hin. apply Hall. by right.
Qed.

(** Detection sees of the SET list only, column by column, the assignments
    that target the column. *)
Lemma scan_vindexes_ext (u1 u2 : Update) (i : Z)
    (colVindexes : list ColumnVindex) (acc : gmap string (list PlanValue)) :
  upd_Limit u1 = upd_Limit u2 → OrderBy u1 = OrderBy u2 →
  (∀ v vcol, v ∈ colVindexes → vcol ∈ Columns v →
     filter (targets vcol) (Exprs u1) = filter (targets vcol) (Exprs u2)) →
  scan_vindexes u1 i colVindexes acc = scan_vindexes u2 i colVindexes acc.
Proof.
  intros Hlimit Horder. revert i acc.
  induction colVindexes as [|c colVindexes IH]; intros i acc Hall; [done|].
  cbn [scan_vindexes].
  rewrite (scan_columns_ext (Exprs u1) (Exprs u2))
    by (intros vcol Hin; apply (Hall c); [left|done]).
  rewrite Hlimit, Horder.
  destruct (scan_columns (Exprs u2) (Columns c) []) as [vals|]; [|done].
  repeat (case_match; try done);
    apply IH; intros v vcol Hin; apply Hall; by right.
Qed.

(** X17: an assignment that targets no column of any column vindex plays no
    part in changed-vindex detection: with it or without it in the SET list,
    wherever it stands, the result is the same map or the same error. *)
Theorem other_assignments_ignored (eupd : engine_Update) (update : Update)
    (colVindexes : list ColumnVindex) (before after : list UpdateExpr)
    (a : UpdateExpr) :
  (∀ v vcol, v ∈ colVindexes → vcol ∈ Columns v → targets vcol a = false) →
  buildChangedVindexesValues eupd
    (with_Exprs update (before ++ a :: after)) colVindexes
  = buildChangedVindexesValues eupd
      (with_Exprs update (before ++ after)) colVindexes.
Proof.
  intros Hother. unfold buildChangedVindexesValues.
  apply scan_vindexes_ext; [done..|].
  intros v vcol Hv Hvcol. simpl.
  rewrite !filter_app, filter_cons_False; [done|].
  apply Is_true_false. by eapply Hother.
Qed.

(** X18: the map that [buildChangedVindexesValues] returns does not depend
    on the order of the assignments in the SET list: the values stand in the
    order of the columns of the vindex. *)
Theorem set_list_order_irrelevant (eupd : engine_Update) (update : Update)
    (colVindexes : list ColumnVindex) (exprs : list UpdateExpr)
    (changed : gmap string (list PlanValue)) :
  Permutation (Exprs update) exprs →
  buildChangedVindexesValues eupd update colVindexes = Ok changed →
  buildChangedVindexesValues eupd (with_Exprs update exprs) colVindexes
  = Ok changed.
Proof.
  intros Hperm Hs. rewrite <- Hs. unfold buildChangedVindexesValues.
  apply scan_vindexes_ext; [done..|].
  intros v vcol Hv Hvcol. simpl.
  unfold buildChangedVindexesValues in Hs.
  destruct (scan_vindexes_Ok_each _ _ _ _ _ _ Hs Hv) as [vals Hcols].
  destruct (scan_columns_Ok_each _ _ _ _ _ Hcols Hvcol)
    as (vals1 & found & vals2 & Hscan).
  assert (Hp : Permutation (filter (targets vcol) exprs)
                           (filter (targets vcol) (Exprs update))).
  { symmetry. by apply filter_Permutation. }
  apply scan_assignments_Ok in Hscan as [[Hnil _]|(a' & pv & Hf & _ & _)].
  - rewrite Hnil in Hp |- *. by apply Permutation_nil_r in Hp.
  - rewrite Hf in Hp |- *. by apply Permutation_singleton_r in Hp.
Qed.

(** X19: the text that [generateUpdateSubquery] builds for any table:
    "select ", the columns of the owned vindexes, with separators between
    them when the first owned vindex has a column and with a separator
    before each of them when it has none, " from " and the table name, the
    three clauses and " for update".  The SET list has no part in it. *)
Theorem generateUpdateSubquery_text (upd : Update) (vtable : Table) :
  generateUpdateSubquery upd vtable
  = "select " +:+ subquery_columns (Table_Owned vtable) +:+
    " from " +:+ TableIdent_Format (Table_Name vtable) +:+
    Where_Format (upd_Where upd) +:+ OrderBy_Format (OrderBy upd) +:+
    Limit_Format (upd_Limit upd) +:+ " for update" ∧
  ∀ exprs, generateUpdateSubquery (with_Exprs upd exprs) vtable
           = generateUpdateSubquery upd vtable.
Proof.
  split; [|done].
  unfold generateUpdateSubquery, subquery_columns.
  destruct (Table_Owned vtable) as [|cv owned] eqn:Howned; [done|].
  destruct (Columns cv) as [|c columns] eqn:Hcols.
  - cbn [write_owned]. rewrite Hcols. cbn [write_columns].
    rewrite write_owned_separated by lia.
    rewrite bind_cons, Hcols. simpl app.
    by rewrite string_app_assoc.
  - rewrite write_owned_first by (by rewrite Hcols).
    by rewrite string_app_assoc.
Qed.

End PlanbuilderMore.

Section PlanbuilderMoreRuns.
Import Planbuilder.
#[local] Existing Instance Fixture.idents.
#[local] Existing Instance Fixture.ast.
#[local] Existing Instance Fixture.planbuilder_externals.

Lemma plan_set_name :
  buildUpdatePlan
    (Fixture.update_where_id "user" [Fixture.set_to "name" Fixture.lit_x]) ()
  = Ok Fixture.set_name_plan.
Proof. reflexivity. Defined.

Lemma changed_set_name :
  buildChangedVindexesValues Fixture.set_name_plan
    (Fixture.update_where_id "user" [Fixture.set_to "name" Fixture.lit_x])
    (ColumnVindexes Fixture.user_table)
  = Ok {[ "name_user_map" := [Fixture.pv_literal StrVal [120]%Z] ]}.
Proof. reflexivity. Defined.

(** The plan of [update user set name = 'x' where id = 1] names the table
    [user] and has the opcode [UpdateEqual]. *)
Lemma buildUpdatePlan_plan_shape_witness :
  ∃ rb,
    processTableExprs "user" () = Ok (builder_route rb) ∧
    Query Fixture.set_name_plan
    = generateQuery
        (Fixture.update_where_id "user" [Fixture.set_to "name" Fixture.lit_x]) ∧
    eupd_Keyspace Fixture.set_name_plan = Some (Route_Keyspace (ERoute rb)).
Proof.
  destruct (buildUpdatePlan_plan_shape
    (Fixture.update_where_id "user" [Fixture.set_to "name" Fixture.lit_x]) ()
    Fixture.set_name_plan plan_set_name) as (rb & Hproc & _ & Hq & Hks & _).
  exists rb. split; [exact Hproc|]. split; [exact Hq|exact Hks].
Defined.

(** The entry of [name_user_map] stands for the second vindex of [user]. *)
Lemma changed_vindex_values_entries_witness :
  ∃ k v, ColumnVindexes Fixture.user_table !! k = Some v ∧ (0 < k)%nat ∧
         cv_Name v = "name_user_map" ∧ Owned v = true.
Proof.
  destruct (changed_vindex_values_entries Fixture.set_name_plan
    (Fixture.update_where_id "user" [Fixture.set_to "name" Fixture.lit_x])
    (ColumnVindexes Fixture.user_table)
    {[ "name_user_map" := [Fixture.pv_literal StrVal [120]%Z] ]}
    "name_user_map" [Fixture.pv_literal StrVal [120]%Z]
    changed_set_name (lookup_singleton_eq _ _))
    as (k & v & Hk & Hpos & Hn & _ & Ho & _).
  by exists k, v.
Defined.

(** [name_user_map] is a key because the SET list assigns [name]. *)
Lemma changed_vindex_values_keys_witness :
  ∃ v, v ∈ ColumnVindexes Fixture.user_table ∧ cv_Name v = "name_user_map" ∧
       touched
         (Fixture.update_where_id "user" [Fixture.set_to "name" Fixture.lit_x]) v.
Proof.
  apply (changed_vindex_values_keys Fixture.set_name_plan
    (Fixture.update_where_id "user" [Fixture.set_to "name" Fixture.lit_x])
    (ColumnVindexes Fixture.user_table)
    {[ "name_user_map" := [Fixture.pv_literal StrVal [120]%Z] ]}
    "name_user_map" changed_set_name).
  rewrite lookup_singleton_eq. by eexists.
Defined.

Lemma reaches_user_limit (exprs : list UpdateExpr) :
  reaches_vindex_detection (Fixture.update_limit exprs) () Fixture.user_table.
Proof. exists Fixture.user_route. repeat split. Defined.

Lemma msg_touches_nothing (v : ColumnVindex) :
  v ∈ ColumnVindexes Fixture.user_table →
  ¬ touched (Fixture.update_limit [Fixture.set_to "msg" Fixture.lit_x]) v.
Proof.
  intros Hv (vcol & a & Hvcol & Ha & Ht).
  apply list_elem_of_singleton in Ha as ->.
  apply elem_of_cons in Hv as [->|Hv].
  { apply list_elem_of_singleton in Hvcol as ->. discriminate. }
  apply list_elem_of_singleton in Hv as ->.
  apply list_elem_of_singleton in Hvcol as ->. discriminate.
Defined.

(** [update user set msg = 'x' where id = 1 limit 10] *)
Lemma untouched_vindexes_plan_witness :
  ∃ eupd,
    buildUpdatePlan
      (Fixture.update_limit [Fixture.set_to "msg" Fixture.lit_x]) ()
    = Ok eupd ∧
    ChangedVindexValues eupd = ∅ ∧ OwnedVindexQuery eupd = "".
Proof.
  destruct (untouched_vindexes_plan
    (Fixture.update_limit [Fixture.set_to "msg" Fixture.lit_x]) ()
    Fixture.user_table (reaches_user_limit _)
    msg_touches_nothing)
    as (eupd & Hplan & _ & _ & _ & _ & Hc & Hq).
  by exists eupd.
Defined.

Lemma reached_second (update : Update) (v : ColumnVindex) :
  (∀ a, a ∈ Exprs update → targets ("id" : ColIdent) a = false) →
  vindex_reached update [Fixture.user_index; v] [Fixture.user_index] v.
Proof.
  intros Hid. split; [by exists []|]. exists ∅.
  apply scan_vindexes_untouched. intros c Hc (vcol & a & Hvcol & Ha & Ht).
  apply list_elem_of_singleton in Hc as ->.
  apply list_elem_of_singleton in Hvcol as ->.
  rewrite (Hid a Ha) in Ht. discriminate.
Defined.

Lemma not_id (column : string) (e : Expr) (a : UpdateExpr) :
  Fixture.string_lower column ≠ "id" →
  a ∈ [Fixture.set_to column e] → targets ("id" : ColIdent) a = false.
Proof.
  intros Hne Ha. apply list_elem_of_singleton in Ha as ->.
  unfold targets. simpl. apply bool_decide_eq_false. intros Heq. by apply Hne.
Defined.

(** [update ... set first = 'x'] on a table with the vindex [full_name_map]
    on [first] and [last]. *)
Lemma partly_assigned_vindex_rejected_witness :
  buildChangedVindexesValues Fixture.set_name_plan
    (Fixture.update_where_id "user" [Fixture.set_to "first" Fixture.lit_x])
    [Fixture.user_index; Fixture.full_name_map]
  = Err (vterrors_Errorf Code_UNIMPLEMENTED
      "unsupported: update does not have values for all the columns in vindex (full_name_map)").
Proof.
  apply (partly_assigned_vindex_rejected Fixture.set_name_plan
    (Fixture.update_where_id "user" [Fixture.set_to "first" Fixture.lit_x])
    [Fixture.user_index; Fixture.full_name_map] [Fixture.user_index]
    Fixture.full_name_map).
  - apply reached_second. intros a. by apply not_id.
  - intros vcol Hin. apply elem_of_cons in Hin as [->|Hin].
    + right. exists (Fixture.pv_literal StrVal [120]%Z).
      by exists (Fixture.set_to "first" Fixture.lit_x).
    + apply list_elem_of_singleton in Hin as ->. by left.
  - exists "last". split; [right; left|reflexivity].
  - exists "first", (Fixture.pv_literal StrVal [120]%Z). split; [left|].
    by exists (Fixture.set_to "first" Fixture.lit_x).
Defined.


(** [update ... set email = 'x'] on a hash vindex, and [set phone = 'x'] on
    a lookup vindex that the table does not own. *)
Lemma unmaintained_vindex_rejected_witness :
  buildChangedVindexesValues Fixture.set_name_plan
    (Fixture.update_where_id "user" [Fixture.set_to "email" Fixture.lit_x])
    [Fixture.user_index; Fixture.email_index]
  = Err (vterrors_Errorf Code_UNIMPLEMENTED
      "unsupported: You can only update lookup vindexes. Invalid update on vindex: email_index") ∧
  buildChangedVindexesValues Fixture.set_name_plan
    (Fixture.update_where_id "user" [Fixture.set_to "phone" Fixture.lit_x])
    [Fixture.user_index; Fixture.phone_map]
  = Err (vterrors_Errorf Code_UNIMPLEMENTED
      "unsupported: You can only update owned vindexes. Invalid update on vindex: phone_map").
Proof.
  split.
  - apply (unmaintained_vindex_rejected Fixture.set_name_plan
      (Fixture.update_where_id "user" [Fixture.set_to "email" Fixture.lit_x])
      [Fixture.user_index; Fixture.email_index] [Fixture.user_index]
      Fixture.email_index).
    + apply reached_second. intros a. by apply not_id.
    + discriminate.
    + split; [discriminate|]. intros vcol Hin.
      apply list_elem_of_singleton in Hin as ->.
      exists (Fixture.pv_literal StrVal [120]%Z).
      by exists (Fixture.set_to "email" Fixture.lit_x).
    + intros [[l Hl] _]. discriminate.
    + reflexivity.
  - apply (unmaintained_vindex_rejected Fixture.set_name_plan
      (Fixture.update_where_id "user" [Fixture.set_to "phone" Fixture.lit_x])
      [Fixture.user_index; Fixture.phone_map] [Fixture.user_index]
      Fixture.phone_map).
    + apply reached_second. intros a. by apply not_id.
    + discriminate.
    + split; [discriminate|]. intros vcol Hin.
      apply list_elem_of_singleton in Hin as ->.
      exists (Fixture.pv_literal StrVal [120]%Z).
      by exists (Fixture.set_to "phone" Fixture.lit_x).
    + intros [[l Hl] _]. discriminate.
    + reflexivity.
    + reflexivity.
Defined.

(** With [msg = 2] before [name = 'x'] the detection gives what it gives
    without it. *)
Lemma other_assignments_ignored_witness :
  buildChangedVindexesValues Fixture.set_name_plan
    (Fixture.update_where_id "user"
       [Fixture.set_to "msg" Fixture.lit_2; Fixture.set_to "name" Fixture.lit_x])
    (ColumnVindexes Fixture.user_table)
  = Ok {[ "name_user_map" := [Fixture.pv_literal StrVal [120]%Z] ]}.
Proof.
  change (buildChangedVindexesValues Fixture.set_name_plan
    (with_Exprs (Fixture.update_where_id "user" [])
       ([] ++ Fixture.set_to "msg" Fixture.lit_2
           :: [Fixture.set_to "name" Fixture.lit_x]))
    (ColumnVindexes Fixture.user_table)
  = Ok {[ "name_user_map" := [Fixture.pv_literal StrVal [120]%Z] ]}).
  rewrite (other_assignments_ignored Fixture.set_name_plan
    (Fixture.update_where_id "user" []) (ColumnVindexes Fixture.user_table)
    [] [Fixture.set_to "name" Fixture.lit_x] (Fixture.set_to "msg" Fixture.lit_2)).
  - reflexivity.
  - intros v vcol Hv Hvcol.
    apply elem_of_cons in Hv as [->|Hv];
      [|apply list_elem_of_singleton in Hv as ->];
      apply list_elem_of_singleton in Hvcol as ->; reflexivity.
Defined.

(** The two-column vindex gets its values in the order of its columns,
    whichever way the SET list is written. *)
Lemma set_list_order_irrelevant_witness :
  buildChangedVindexesValues Fixture.set_name_plan
    (with_Exprs
       (Fixture.update_where_id "user"
          [Fixture.set_to "first" Fixture.lit_x; Fixture.set_to "last" Fixture.lit_2])
       [Fixture.set_to "last" Fixture.lit_2; Fixture.set_to "first" Fixture.lit_x])
    [Fixture.user_index; Fixture.full_name_map]
  = Ok {[ "full_name_map" := [Fixture.pv_literal StrVal [120]%Z;
                              Fixture.pv_literal IntVal [50]%Z] ]}.
Proof.
  apply set_list_order_irrelevant.
  - simpl. apply perm_swap.
  - reflexivity.
Defined.

(** [update user join unsharded set name = 'x' where id = 1] is turned
    down as a multi-table update. *)
Lemma buildUpdatePlan_shape_errors_witness :
  buildUpdatePlan
    (Fixture.update_where_id "user join unsharded"
       [Fixture.set_to "name" Fixture.lit_x]) ()
  = Err (errors_New
      "unsupported: multi-table update statement in sharded keyspace").
Proof.
  apply (proj1 (proj2 (buildUpdatePlan_shape_errors
    (Fixture.update_where_id "user join unsharded"
       [Fixture.set_to "name" Fixture.lit_x]) ()))).
  reflexivity.
Defined.

End PlanbuilderMoreRuns.

(** * Properties of the tablet environment of vtexplain *)

Section VtexplainFacts.
Import Vtexplain.
Context `{Externals}.

Lemma specified_Some (ddl : option DDL) :
  specified ddl = true ↔
  ∃ d spec, ddl = Some d ∧ ddl_TableSpec d = Some spec.
Proof.
  unfold specified. split.
  - destruct ddl as [d|]; [|done]. intros Hs.
    apply bool_decide_eq_true_1 in Hs as [spec Hs]. by exists d, spec.
  - intros (d & spec & -> & Hs). apply bool_decide_eq_true_2.
    by rewrite Hs.
Qed.

(** The first loop returns the rows of the statements when every pointer is
    set, and panics at the first that is nil. *)
Lemma scan_tables_outcome (ddls : list (option DDL))
    (showTableRows : list (list Value)) :
  (ddls = Some <$> omap id ddls ∧
   scan_tables ddls showTableRows
   = Returned (showTableRows ++ (show_table_row <$> omap id ddls))) ∨
  (forallb specified ddls = false ∧
   scan_tables ddls showTableRows = Panicked runtime_nil_dereference).
Proof.
  revert showTableRows.
  induction ddls as [|[d|] rest IH]; intros showTableRows.
  - left. simpl. by rewrite app_nil_r.
  - destruct (IH (showTableRows ++ [show_table_row d]))
      as [[Hrest Hscan]|[Hspec Hscan]].
    + left. split; [simpl; f_equal; exact Hrest|].
      simpl. unfold show_table_row in Hscan. rewrite Hscan.
      by rewrite <- app_assoc.
    + right. simpl. split; [by rewrite Hspec, andb_false_r|].
      unfold show_table_row in Hscan. by rewrite Hscan.
  - right. done.
Qed.

Lemma scan_index_columns_rows (table : string) (idx : IndexDefinition)
    (columns : list ColIdent) (i : Z) (indexRows : list (list Value))
    (pkColumns : gmap string bool) :
  (scan_index_columns table idx columns i indexRows pkColumns).1
  = indexRows ++
    imap (λ k col,
            mysql_ShowIndexFromTableRow table (Unique (Info idx))
              (ColIdent_String (ii_Name (Info idx)))
              (i + Z.of_nat k + 1) (ColIdent_String col) false) columns.
Proof.
  revert i indexRows pkColumns.
  induction columns as [|col rest IH]; intros i indexRows pkColumns; simpl.
  - by rewrite app_nil_r.
  - rewrite IH, <- app_assoc. simpl. rewrite Z.add_0_r. do 2 f_equal.
    apply imap_ext. intros k c _. simpl. f_equal. lia.
Qed.

Lemma scan_index_columns_pk (table : string) (idx : IndexDefinition)
    (columns : list ColIdent) (i : Z) (indexRows : list (list Value))
    (pkColumns : gmap string bool) (name : string) :
  pk_lookup (scan_index_columns table idx columns i indexRows pkColumns).2 name
  = pk_lookup pkColumns name
    || bool_decide
         (name ∈ if Primary (Info idx) then ColIdent_String <$> columns else []).
Proof.
  revert i indexRows pkColumns.
  induction columns as [|col rest IH]; intros i indexRows pkColumns; simpl.
  - destruct (Primary (Info idx));
      (rewrite bool_decide_eq_false_2 by apply not_elem_of_nil);
      by rewrite orb_false_r.
  - rewrite IH. destruct (Primary (Info idx)) eqn:Hp; [|done].
    unfold pk_lookup.
    destruct (decide (name = ColIdent_String col)) as [->|Hne].
    + rewrite lookup_insert_eq. simpl.
      rewrite (bool_decide_eq_true_2 (_ ∈ _ :: _)) by apply list_elem_of_here.
      by rewrite orb_true_r.
    + rewrite lookup_insert_ne by done.
      f_equal. apply bool_decide_ext. rewrite elem_of_cons.
      split; [by right|]. by intros [?|?].
Qed.

Lemma scan_indexes_rows (table : string) (indexes : list IndexDefinition)
    (indexRows : list (list Value)) (pkColumns : gmap string bool) :
  (scan_indexes table indexes indexRows pkColumns).1
  = indexRows ++
    (indexes ≫= λ idx,
       imap (λ k col,
               mysql_ShowIndexFromTableRow table (Unique (Info idx))
                 (ColIdent_String (ii_Name (Info idx)))
                 (Z.of_nat k + 1) (ColIdent_String col) false)
            (idx_Columns idx)).
Proof.
  revert indexRows pkColumns.
  induction indexes as [|idx rest IH]; intros indexRows pkColumns; simpl.
  - by rewrite app_nil_r.
  - pose proof (scan_index_columns_rows table idx (idx_Columns idx) 0
                  indexRows pkColumns) as Hrows.
    destruct (scan_index_columns table idx (idx_Columns idx) 0 indexRows
                pkColumns) as [rows pk]. simpl in Hrows. subst rows.
    rewrite IH, <- app_assoc. done.
Qed.

Lemma scan_indexes_pk (table : string) (indexes : list IndexDefinition)
    (indexRows : list (list Value)) (pkColumns : gmap string bool)
    (name : string) :
  pk_lookup (scan_indexes table indexes indexRows pkColumns).2 name
  = pk_lookup pkColumns name
    || bool_decide
         (name ∈ indexes ≫= λ idx,
            if Primary (Info idx) then ColIdent_String <$> idx_Columns idx
            else []).
Proof.
  revert indexRows pkColumns.
  induction indexes as [|idx rest IH]; intros indexRows pkColumns; simpl.
  - by rewrite orb_false_r.
  - pose proof (scan_index_columns_pk table idx (idx_Columns idx) 0
                  indexRows pkColumns name) as Hpk.
    destruct (scan_index_columns table idx (idx_Columns idx) 0 indexRows
                pkColumns) as [rows pk]. simpl in Hpk.
    rewrite IH, Hpk, <- orb_assoc. f_equal.
    destruct (bool_decide (name ∈ (if Primary (Info idx) then _ else _)))
      eqn:Hhere.
    + apply bool_decide_eq_true_1 in Hhere. simpl. symmetry.
      apply bool_decide_eq_true_2, elem_of_app. by left.
    + apply bool_decide_eq_false_1 in Hhere. simpl.
      apply bool_decide_ext. rewrite elem_of_app.
      split; [by right|]. by intros [?|?].
Qed.

Lemma pk_lookup_empty (name : string) : pk_lookup ∅ name = false.
Proof. unfold pk_lookup. by rewrite lookup_empty. Qed.

Lemma scan_table_columns_rows (spec : TableSpec)
    (columns : list ColumnDefinition) (pkColumns : gmap string bool)
    (describeTableRows : list (list Value)) (rowTypes : list Field) :
  (∀ name, pk_lookup pkColumns name
           = bool_decide (name ∈ primary_key_names spec)) →
  scan_table_columns columns pkColumns describeTableRows rowTypes
  = (describeTableRows ++ (describe_row spec <$> columns),
     rowTypes ++ (row_type <$> columns)).
Proof.
  intros Hpk. revert describeTableRows rowTypes.
  induction columns as [|col rest IH]; intros describeTableRows rowTypes;
    simpl.
  - by rewrite !app_nil_r.
  - rewrite IH, <- !app_assoc. simpl. do 3 f_equal.
    unfold describe_row. rewrite Hpk. f_equal.
    by destruct (ColumnType_Default (cd_Type col)).
Qed.

(** The body of the second loop stores the four results of a statement that
    has a table specification. *)
Lemma scan_ddls_step (showTableRows : list (list Value)) (ddl : DDL)
    (spec : TableSpec) (rest : list (option DDL)) (k : nat)
    (schemaQueries : gmap string Result) :
  ddl_TableSpec ddl = Some spec →
  showTableRows !! k = Some (show_table_row ddl) →
  scan_ddls showTableRows (Some ddl :: rest) (Z.of_nat k) schemaQueries
  = scan_ddls showTableRows rest (Z.of_nat (S k))
      (table_entries (Some ddl) schemaQueries).
Proof.
  intros Hspec Hrow. cbn [scan_ddls deref obind]. unfold index.
  rewrite decide_True by lia. rewrite Nat2Z.id, Hrow, Hspec.
  cbn [deref obind].
  pose proof (scan_indexes_rows (table_of ddl) (Indexes spec) [] ∅) as Hidx.
  pose proof (λ name, scan_indexes_pk (table_of ddl) (Indexes spec) [] ∅ name)
    as Hpk.
  destruct (scan_indexes (table_of ddl) (Indexes spec) [] ∅)
    as [indexRows pkColumns]. simpl in Hidx, Hpk. subst indexRows.
  rewrite (scan_table_columns_rows spec).
  2:{ intros name. rewrite Hpk. by rewrite pk_lookup_empty. }
  simpl. replace (Z.of_nat k + 1)%Z with (Z.of_nat (S k)) by lia.
  unfold table_entries. rewrite Hspec.
  unfold fields_result, describe_result, index_result, table_row_result.
  by rewrite length_fmap.
Qed.

Lemma scan_ddls_entries (showTableRows : list (list Value))
    (ddls : list (option DDL)) (k : nat) (schemaQueries : gmap string Result) :
  forallb specified ddls = true →
  (∀ j ddl, ddls !! j = Some (Some ddl) →
            showTableRows !! (k + j)%nat = Some (show_table_row ddl)) →
  scan_ddls showTableRows ddls (Z.of_nat k) schemaQueries
  = Returned (fold_left (λ sq ddl, table_entries ddl sq) ddls schemaQueries).
Proof.
  revert k schemaQueries.
  induction ddls as [|p rest IH]; intros k schemaQueries Hall Hrows; [done|].
  simpl in Hall. apply andb_true_iff in Hall as [Hp Hall].
  apply specified_Some in Hp as (ddl & spec & -> & Hspec).
  rewrite (scan_ddls_step _ _ spec) by
    (done || (rewrite <- (Nat.add_0_r k); by apply Hrows)).
  rewrite IH; [done|done|].
  intros j d Hj. replace (S k + j)%nat with (k + S j)%nat by lia.
  by apply Hrows.
Qed.

Lemma scan_ddls_panics (showTableRows : list (list Value))
    (ddls : list (option DDL)) (k : nat) (schemaQueries : gmap string Result) :
  forallb specified ddls = false →
  (∀ j ddl, ddls !! j = Some (Some ddl) →
            showTableRows !! (k + j)%nat = Some (show_table_row ddl)) →
  scan_ddls showTableRows ddls (Z.of_nat k) schemaQueries
  = Panicked runtime_nil_dereference.
Proof.
  revert k schemaQueries.
  induction ddls as [|p rest IH]; intros k schemaQueries Hall Hrows; [done|].
  destruct p as [ddl|]; [|done].
  destruct (ddl_TableSpec ddl) as [spec|] eqn:Hspec.
  - rewrite (scan_ddls_step _ _ spec) by
      (done || (rewrite <- (Nat.add_0_r k); by apply Hrows)).
    apply IH.
    + simpl in Hall. rewrite Hspec in Hall.
      by rewrite bool_decide_eq_true_2 in Hall.
    + intros j d Hj. replace (S k + j)%nat with (k + S j)%nat by lia.
      by apply Hrows.
  - cbn [scan_ddls deref obind]. unfold index.
    rewrite decide_True by lia. rewrite Nat2Z.id.
    specialize (Hrows 0%nat ddl eq_refl). rewrite Nat.add_0_r in Hrows.
    rewrite Hrows, Hspec. done.
Qed.

(** The package variable after [initTabletEnvironment]. *)
Lemma initTabletEnvironment_entries (ddls : list (option DDL))
    (before : gmap string Result) :
  forallb specified ddls = true →
  initTabletEnvironment ddls before
  = Returned (None,
      fold_left (λ sq ddl, table_entries ddl sq) ddls
        (<[ mysql_BaseShowTables := show_tables_result (omap id ddls) ]>
           fixed_queries)).
Proof.
  intros Hall. unfold initTabletEnvironment.
  destruct (scan_tables_outcome ddls []) as [[Hddls ->]|[Hnot _]];
    [|by rewrite Hall in Hnot].
  cbn [obind app]. rewrite (scan_ddls_entries _ ddls 0 _ Hall).
  - cbn [obind]. unfold show_tables_result. by rewrite length_fmap.
  - intros j ddl Hj. rewrite Hddls in Hj.
    rewrite list_lookup_fmap in Hj. simpl.
    rewrite list_lookup_fmap.
    destruct (omap id ddls !! j) as [d|]; [|done].
    simpl in Hj. by injection Hj as ->.
Qed.

Lemma initTabletEnvironment_panics (ddls : list (option DDL))
    (before : gmap string Result) :
  forallb specified ddls = false →
  initTabletEnvironment ddls before = Panicked runtime_nil_dereference.
Proof.
  intros Hall. unfold initTabletEnvironment.
  destruct (scan_tables_outcome ddls []) as [[Hddls ->]|[_ ->]]; [|done].
  cbn [obind app]. rewrite (scan_ddls_panics _ ddls 0 _ Hall); [done|].
  intros j ddl Hj. rewrite Hddls in Hj.
  rewrite list_lookup_fmap in Hj. simpl.
  rewrite list_lookup_fmap.
  destruct (omap id ddls !! j) as [d|]; [|done].
  simpl in Hj. by injection Hj as ->.
Qed.

Lemma initTabletEnvironment_Returned (ddls : list (option DDL))
    (before schemaQueries : gmap string Result) (err : option error) :
  initTabletEnvironment ddls before = Returned (err, schemaQueries) →
  forallb specified ddls = true ∧ err = None ∧
  schemaQueries
  = fold_left (λ sq ddl, table_entries ddl sq) ddls
      (<[ mysql_BaseShowTables := show_tables_result (omap id ddls) ]>
         fixed_queries).
Proof.
  destruct (forallb specified ddls) eqn:Hall.
  - rewrite (initTabletEnvironment_entries _ _ Hall). by intros [= <- <-].
  - by rewrite (initTabletEnvironment_panics _ _ Hall).
Qed.

Lemma string_app_inj_r (s a b : string) : a +:+ s = b +:+ s → a = b.
Proof.
  revert b. induction a as [|c a IH]; intros [|c' b] Heq; [done| | |].
  - apply (f_equal String.length) in Heq.
    rewrite !string_app_length in Heq. simpl in Heq. lia.
  - apply (f_equal String.length) in Heq.
    rewrite !string_app_length in Heq. simpl in Heq. lia.
  - rewrite !string_app_cons in Heq. injection Heq as -> Heq.
    f_equal. by apply IH.
Qed.

(** The written-out queries of two different tables differ, and so do the
    three queries of one table. *)
Lemma own_keys_apart (t t' q : string) :
  t' ≠ t → q ∈ own_keys t → q ∉ own_keys t'.
Proof.
  intros Hne Hq Hq'. unfold own_keys in Hq, Hq'.
  repeat (apply elem_of_cons in Hq as [->|Hq]);
    [| | |by apply elem_of_nil in Hq];
    (repeat (apply elem_of_cons in Hq' as [Hq'|Hq']);
     [| | |by apply elem_of_nil in Hq']); try discriminate.
  - by apply String.app_inj in Hq'.
  - by apply String.app_inj in Hq'.
  - apply String.app_inj, string_app_inj_r in Hq'. done.
Qed.

Lemma table_entries_lookup_ne (ddl : option DDL) (m : gmap string Result)
    (q : string) :
  (∀ d, ddl = Some d → q ∉ table_keys d) →
  table_entries ddl m !! q = m !! q.
Proof.
  intros Hq. unfold table_entries. destruct ddl as [d|]; [|done].
  destruct (ddl_TableSpec d) as [spec|]; [|done].
  specialize (Hq d eq_refl). unfold table_keys, own_keys in Hq.
  rewrite !not_elem_of_cons in Hq. destruct Hq as (H1 & H2 & H3 & H4 & _).
  by rewrite !lookup_insert_ne.
Qed.

Lemma fold_entries_lookup_ne (ddls : list (option DDL))
    (m : gmap string Result) (q : string) :
  (∀ d, Some d ∈ ddls → q ∉ table_keys d) →
  fold_left (λ sq ddl, table_entries ddl sq) ddls m !! q = m !! q.
Proof.
  revert m. induction ddls as [|p rest IH]; intros m Hq; [done|]. simpl.
  rewrite IH.
  - apply table_entries_lookup_ne. intros d ->. apply Hq. by left.
  - intros d' Hd'. apply Hq. by right.
Qed.

Lemma table_entries_own (ddl : DDL) (spec : TableSpec)
    (m : gmap string Result) :
  ddl_TableSpec ddl = Some spec →
  table_entries (Some ddl) m !! ("show index from " +:+ table_of ddl)
    = Some (index_result (table_of ddl) spec) ∧
  table_entries (Some ddl) m !! ("describe " +:+ table_of ddl)
    = Some (describe_result spec) ∧
  table_entries (Some ddl) m
    !! ("select * from " +:+ table_of ddl +:+ " where 1 != 1")
    = Some (fields_result spec).
Proof.
  intros Hspec. unfold table_entries. rewrite Hspec. repeat split.
  - rewrite lookup_insert_ne by discriminate.
    rewrite lookup_insert_ne by discriminate. by rewrite lookup_insert_eq.
  - rewrite lookup_insert_ne by discriminate. by rewrite lookup_insert_eq.
  - by rewrite lookup_insert_eq.
Qed.

Lemma table_entries_is_Some (ddl : option DDL) (m : gmap string Result)
    (q : string) :
  specified ddl = true →
  is_Some (table_entries ddl m !! q) ↔
  (∃ d, ddl = Some d ∧ q ∈ table_keys d) ∨ is_Some (m !! q).
Proof.
  intros Hs. apply specified_Some in Hs as (d & spec & -> & Hspec).
  unfold table_entries, table_keys, own_keys. rewrite Hspec.
  rewrite !lookup_insert_is_Some'. split.
  - intros [<-|[<-|[<-|[<-|Hm]]]]; [left; exists d; split; [done|]..|by right].
    + do 3 right. by left.
    + do 2 right. by left.
    + right. by left.
    + by left.
  - intros [(d' & [= <-] & Hq)|Hm]; [|by do 4 right].
    rewrite !elem_of_cons, elem_of_nil in Hq.
    destruct Hq as [->|[->|[->|[->|[]]]]]; intuition.
Qed.

Lemma fold_entries_is_Some (ddls : list (option DDL))
    (m : gmap string Result) (q : string) :
  forallb specified ddls = true →
  is_Some (fold_left (λ sq ddl, table_entries ddl sq) ddls m !! q) ↔
  is_Some (m !! q) ∨ ∃ d, Some d ∈ ddls ∧ q ∈ table_keys d.
Proof.
  revert m. induction ddls as [|p rest IH]; intros m Hall; simpl.
  - split; [by left|]. intros [?|(d & Hd & _)]; [done|].
    by apply elem_of_nil in Hd.
  - simpl in Hall. apply andb_true_iff in Hall as [Hp Hall].
    rewrite (IH _ Hall), (table_entries_is_Some _ _ _ Hp). split.
    + intros [[(d & -> & Hq)|Hm]|(d' & Hd' & Hq)].
      * right. exists d. split; [by left|done].
      * by left.
      * right. exists d'. split; [by right|done].
    + intros [Hm|(d' & Hd' & Hq)]; [left; by right|].
      apply elem_of_cons in Hd' as [<-|Hd'].
      * left; left. by exists d'.
      * right. by exists d'.
Qed.

Lemma fixed_queries_is_Some (q : string) :
  is_Some (fixed_queries !! q) ↔ q ∈ fixed_keys.
Proof.
  unfold fixed_queries, fixed_keys.
  rewrite !lookup_insert_is_Some', lookup_empty, !elem_of_cons, elem_of_nil.
  rewrite is_Some_alt. intuition congruence.
Qed.

Lemma table_entries_counts (ddl : option DDL) (m : gmap string Result) :
  map_Forall (λ _, counts_its_rows) m →
  map_Forall (λ _, counts_its_rows) (table_entries ddl m).
Proof.
  intros Hm. unfold table_entries. destruct ddl as [d|]; [|done].
  destruct (ddl_TableSpec d) as [spec|]; [|done].
  repeat apply map_Forall_insert_2; try done.
  unfold counts_its_rows. simpl. by rewrite length_fmap.
Qed.

Lemma fold_entries_counts (ddls : list (option DDL))
    (m : gmap string Result) :
  map_Forall (λ _, counts_its_rows) m →
  map_Forall (λ _, counts_its_rows)
    (fold_left (λ sq ddl, table_entries ddl sq) ddls m).
Proof.
  revert m. induction ddls as [|d rest IH]; intros m Hm; [done|]. simpl.
  by apply IH, table_entries_counts.
Qed.

Lemma split_statements (pre post : list (option DDL)) (ddl : option DDL)
    (m : gmap string Result) :
  fold_left (λ sq ddl, table_entries ddl sq) (pre ++ ddl :: post) m
  = fold_left (λ sq ddl, table_entries ddl sq) post
      (table_entries ddl
         (fold_left (λ sq ddl, table_entries ddl sq) pre m)).
Proof. by rewrite fold_left_app. Qed.

Lemma omap_id_Some (stmts : list DDL) : omap id (Some <$> stmts) = stmts.
Proof. induction stmts as [|d rest IH]; [done|]. simpl. f_equal. exact IH. Qed.

Lemma scan_index_columns_true (table : string) (idx : IndexDefinition)
    (columns : list ColIdent) (i : Z) (indexRows : list (list Value))
    (pkColumns : gmap string bool) :
  map_Forall (λ _ b, b = true) pkColumns →
  map_Forall (λ _ b, b = true)
    (scan_index_columns table idx columns i indexRows pkColumns).2.
Proof.
  revert i indexRows pkColumns.
  induction columns as [|col rest IH]; intros i indexRows pkColumns Hpk;
    [done|].
  simpl. apply IH. destruct (Primary (Info idx)); [|done].
  by apply map_Forall_insert_2.
Qed.

Lemma scan_indexes_true (table : string) (indexes : list IndexDefinition)
    (indexRows : list (list Value)) (pkColumns : gmap string bool) :
  map_Forall (λ _ b, b = true) pkColumns →
  map_Forall (λ _ b, b = true)
    (scan_indexes table indexes indexRows pkColumns).2.
Proof.
  revert indexRows pkColumns.
  induction indexes as [|idx rest IH]; intros indexRows pkColumns Hpk;
    [done|].
  simpl.
  pose proof (scan_index_columns_true table idx (idx_Columns idx) 0
                indexRows pkColumns Hpk) as Htrue.
  destruct (scan_index_columns table idx (idx_Columns idx) 0 indexRows
              pkColumns) as [rows pk].
  by apply IH.
Qed.

Lemma index_rows_length (table : string) (spec : TableSpec) :
  length (index_rows table spec)
  = sum_list (length ∘ idx_Columns <$> Indexes spec).
Proof.
  unfold index_rows.
  induction (Indexes spec) as [|idx rest IH]; [done|].
  simpl. rewrite length_app, length_imap. by f_equal.
Qed.

Lemma fixed_keys_not_own (q table : string) :
  q ∈ fixed_keys → q ∉ own_keys table.
Proof.
  intros Hq Hq'. unfold fixed_keys in Hq. unfold own_keys in Hq'.
  repeat (apply elem_of_cons in Hq as [->|Hq]);
    try (by apply elem_of_nil in Hq);
    (repeat (apply elem_of_cons in Hq' as [Hq'|Hq']);
     try (by apply elem_of_nil in Hq')); discriminate.
Qed.

(** X20: [initTabletEnvironment] returns, with a nil error, when every
    statement is there and has a table specification; when the pointer to a
    statement or to its table specification is nil, it panics with a nil
    dereference.  There is no other panic: the index into the rows of the
    table list is always in range. *)
Theorem initTabletEnvironment_returns (ddls : list (option DDL))
    (before : gmap string Result) :
  (forallb specified ddls = true →
   ∃ schemaQueries,
     initTabletEnvironment ddls before = Returned (None, schemaQueries)) ∧
  (forallb specified ddls = false →
   initTabletEnvironment ddls before = Panicked runtime_nil_dereference).
Proof.
  split.
  - intros Hall. eexists. by apply initTabletEnvironment_entries.
  - apply initTabletEnvironment_panics.
Qed.

(** X21: every result that [initTabletEnvironment] stores says that it
    affects as many rows as it holds. *)
Theorem stored_results_count_their_rows (ddls : list (option DDL))
    (before schemaQueries : gmap string Result) (err : option error)
    (query : string) (r : Result) :
  initTabletEnvironment ddls before = Returned (err, schemaQueries) →
  schemaQueries !! query = Some r →
  RowsAffected r = Z.of_nat (length (Rows r)).
Proof.
  intros Hret Hr.
  apply initTabletEnvironment_Returned in Hret as (_ & _ & ->).
  eapply (fold_entries_counts ddls); [|exact Hr].
  apply map_Forall_insert_2.
  { unfold counts_its_rows. simpl. by rewrite length_fmap. }
  unfold fixed_queries. repeat apply map_Forall_insert_2; try done.
Qed.

(** X22: the queries that have a result after [initTabletEnvironment] are
    the five fixed ones, the query for the list of tables and, for each
    statement, the query for its row of that list and the three queries
    written out for its table; there is no other. *)
Theorem stored_queries (ddls : list (option DDL))
    (before schemaQueries : gmap string Result) (err : option error)
    (query : string) :
  initTabletEnvironment ddls before = Returned (err, schemaQueries) →
  is_Some (schemaQueries !! query) ↔
  query ∈ fixed_keys ∨ query = mysql_BaseShowTables ∨
  ∃ ddl, Some ddl ∈ ddls ∧
         (query = mysql_BaseShowTablesForTable (table_of ddl) ∨
          query ∈ own_keys (table_of ddl)).
Proof.
  intros Hret.
  apply initTabletEnvironment_Returned in Hret as (Hall & _ & ->).
  rewrite (fold_entries_is_Some _ _ _ Hall), lookup_insert_is_Some',
    fixed_queries_is_Some.
  unfold table_keys. split.
  - intros [[<-|Hq]|(d & Hd & Hq)]; [by right; left|by left|].
    right; right. exists d. split; [done|]. by apply elem_of_cons in Hq.
  - intros [Hq|[->|(d & Hd & Hq)]]; [left; by right|left; by left|].
    right. exists d. split; [done|]. by apply elem_of_cons.
Qed.

(** X23: the loop over the indexes of a table gives one row for each column
    of each index, in order, the columns numbered from 1 within their
    index, and a map that holds [true] for exactly the names of the columns
    of the primary indexes; it never holds [false]. *)
Theorem scan_indexes_primary_keys (table : string) (spec : TableSpec) :
  ∃ indexRows pkColumns,
    scan_indexes table (Indexes spec) [] ∅ = (indexRows, pkColumns) ∧
    indexRows = index_rows table spec ∧
    length indexRows = sum_list (length ∘ idx_Columns <$> Indexes spec) ∧
    ∀ name, (pkColumns !! name = Some true ↔ name ∈ primary_key_names spec) ∧
            pkColumns !! name ≠ Some false.
Proof.
  pose proof (scan_indexes_rows table (Indexes spec) [] ∅) as Hrows.
  pose proof (λ name, scan_indexes_pk table (Indexes spec) [] ∅ name) as Hpk.
  pose proof (scan_indexes_true table (Indexes spec) [] ∅
                (map_Forall_empty _)) as Htrue.
  destruct (scan_indexes table (Indexes spec) [] ∅)
    as [indexRows pkColumns]. simpl in Hrows, Hpk, Htrue.
  exists indexRows, pkColumns. split; [done|]. split; [done|].
  split; [rewrite Hrows; apply index_rows_length|].
  intros name. specialize (Hpk name). rewrite pk_lookup_empty in Hpk.
  simpl in Hpk. unfold pk_lookup in Hpk. split.
  - rewrite <- (bool_decide_spec (name ∈ primary_key_names spec)).
    unfold primary_key_names. rewrite <- Hpk. split.
    + by intros ->.
    + destruct (pkColumns !! name) as [[|]|]; simpl; by intros ?.
  - intros Hfalse. by specialize (Htrue name false Hfalse).
Qed.

(** X24: the results stored under the three queries written out for a
    table are those of the last statement on that table: its index rows,
    the rows describing its columns, a column being marked [PRI] when its
    name is that of a column of a primary index of the same statement, and
    the fields of its columns.  This holds when no later statement has the
    query for its row of the table list coincide with one of the three. *)
Theorem last_statement_describes_table (ddls pre post : list (option DDL))
    (ddl : DDL) (spec : TableSpec)
    (before schemaQueries : gmap string Result) (err : option error) :
  initTabletEnvironment ddls before = Returned (err, schemaQueries) →
  ddls = pre ++ Some ddl :: post →
  ddl_TableSpec ddl = Some spec →
  (∀ d, Some d ∈ post → table_of d ≠ table_of ddl) →
  (∀ d, Some d ∈ post →
        mysql_BaseShowTablesForTable (table_of d) ∉ own_keys (table_of ddl)) →
  schemaQueries !! ("show index from " +:+ table_of ddl)
    = Some (index_result (table_of ddl) spec) ∧
  schemaQueries !! ("describe " +:+ table_of ddl)
    = Some (describe_result spec) ∧
  schemaQueries !! ("select * from " +:+ table_of ddl +:+ " where 1 != 1")
    = Some (fields_result spec).
Proof.
  intros Hret -> Hspec Hlast Hrow.
  apply initTabletEnvironment_Returned in Hret as (_ & _ & ->).
  rewrite split_statements.
  assert (Hkeep : ∀ q, q ∈ own_keys (table_of ddl) →
            ∀ d, Some d ∈ post → q ∉ table_keys d).
  { intros q Hq d Hd. unfold table_keys. apply not_elem_of_cons. split.
    - intros ->. by apply (Hrow d Hd).
    - apply (own_keys_apart (table_of ddl)); [by apply Hlast|done]. }
  destruct (table_entries_own ddl spec
    (fold_left (λ sq ddl, table_entries ddl sq) pre
       (<[ mysql_BaseShowTables :=
             show_tables_result (omap id (pre ++ Some ddl :: post)) ]>
          fixed_queries)) Hspec) as (Hidx & Hdesc & Hsel).
  repeat split.
  - rewrite fold_entries_lookup_ne; [done|]. apply Hkeep. by left.
  - rewrite fold_entries_lookup_ne; [done|]. apply Hkeep. right; by left.
  - rewrite fold_entries_lookup_ne; [done|]. apply Hkeep.
    right; right; by left.
Qed.

(** X25: the result stored under the query for a table's row of the table
    list holds that one row, the row of the last statement whose query it
    is, when that query is none of the queries written out for that
    statement or a later one. *)
Theorem table_row_entry (ddls pre post : list (option DDL)) (ddl : DDL)
    (before schemaQueries : gmap string Result) (err : option error) :
  initTabletEnvironment ddls before = Returned (err, schemaQueries) →
  ddls = pre ++ Some ddl :: post →
  (∀ d, Some d ∈ post →
        mysql_BaseShowTablesForTable (table_of d)
        ≠ mysql_BaseShowTablesForTable (table_of ddl)) →
  (∀ d, Some d ∈ Some ddl :: post →
        mysql_BaseShowTablesForTable (table_of ddl) ∉ own_keys (table_of d)) →
  schemaQueries !! mysql_BaseShowTablesForTable (table_of ddl)
  = Some {| Fields := mysql_BaseShowTablesFields;
            RowsAffected := 1;
            Rows := [mysql_BaseShowTablesRow (table_of ddl) false ""] |}.
Proof.
  intros Hret -> Hlast Hown.
  apply initTabletEnvironment_Returned in Hret as (Hall & _ & ->).
  rewrite forallb_app in Hall. apply andb_true_iff in Hall as [_ Hall].
  cbn [forallb] in Hall. apply andb_true_iff in Hall as [Hddl _].
  apply specified_Some in Hddl as (d & spec & [= <-] & Hspec).
  rewrite split_statements, fold_entries_lookup_ne.
  - assert (Hddl : mysql_BaseShowTablesForTable (table_of ddl)
                   ∉ own_keys (table_of ddl)) by (apply Hown; by left).
    unfold own_keys in Hddl. rewrite !not_elem_of_cons in Hddl.
    destruct Hddl as (H1 & H2 & H3 & _).
    unfold table_entries. rewrite Hspec, !lookup_insert_ne by done.
    by rewrite lookup_insert_eq.
  - intros d Hd. unfold table_keys. apply not_elem_of_cons. split.
    + intros Heq. by apply (Hlast d Hd).
    + apply Hown. by right.
Qed.

(** X26: the result stored for the list of tables has one row for each
    statement, in the order of the statements, so that a table with two
    statements is listed twice; this holds when the query for the list is
    none of the queries stored for a statement. *)
Theorem table_list_has_every_statement (ddls : list (option DDL))
    (stmts : list DDL)
    (before schemaQueries : gmap string Result) (err : option error) :
  initTabletEnvironment ddls before = Returned (err, schemaQueries) →
  ddls = Some <$> stmts →
  (∀ d, d ∈ stmts →
        mysql_BaseShowTables ≠ mysql_BaseShowTablesForTable (table_of d) ∧
        mysql_BaseShowTables ∉ own_keys (table_of d)) →
  schemaQueries !! mysql_BaseShowTables
  = Some {| Fields := mysql_BaseShowTablesFields;
            RowsAffected := Z.of_nat (length stmts);
            Rows := (λ d, mysql_BaseShowTablesRow (table_of d) false "")
                      <$> stmts |}.
Proof.
  intros Hret -> Hkeys.
  apply initTabletEnvironment_Returned in Hret as (_ & _ & ->).
  rewrite fold_entries_lookup_ne.
  - by rewrite lookup_insert_eq, omap_id_Some.
  - intros d Hd. apply list_elem_of_fmap in Hd as (d' & [= <-] & Hd).
    unfold table_keys. apply not_elem_of_cons. by apply Hkeys.
Qed.

(** X27: each of the five fixed queries keeps its result, whatever the
    tables are called, when it is neither the query for the list of tables
    nor the query for a statement's row of that list. *)
Theorem fixed_queries_kept (ddls : list (option DDL))
    (before schemaQueries : gmap string Result) (err : option error)
    (query : string) :
  initTabletEnvironment ddls before = Returned (err, schemaQueries) →
  query ∈ fixed_keys →
  query ≠ mysql_BaseShowTables →
  (∀ d, Some d ∈ ddls → query ≠ mysql_BaseShowTablesForTable (table_of d)) →
  schemaQueries !! query = fixed_queries !! query ∧
  is_Some (fixed_queries !! query).
Proof.
  intros Hret Hq Hlist Hrow.
  apply initTabletEnvironment_Returned in Hret as (_ & _ & ->).
  split; [|by apply fixed_queries_is_Some].
  rewrite fold_entries_lookup_ne.
  - by rewrite lookup_insert_ne.
  - intros d Hd. unfold table_keys. apply not_elem_of_cons. split.
    + by apply Hrow.
    + by apply fixed_keys_not_own.
Qed.

End VtexplainFacts.

Section VtexplainRuns.
Import Vtexplain.
#[local] Existing Instance Fixture.idents.
#[local] Existing Instance Fixture.vtexplain_externals.

(** A statement without table specification after [create table t (...)],
    and a nil pointer after it: both calls panic. *)
Lemma initTabletEnvironment_returns_witness :
  initTabletEnvironment [Some Fixture.create_t; Some Fixture.rename_to_t] ∅
  = Panicked runtime_nil_dereference ∧
  initTabletEnvironment [Some Fixture.create_t; None] ∅
  = Panicked runtime_nil_dereference.
Proof.
  split.
  - apply (proj2 (initTabletEnvironment_returns
      [Some Fixture.create_t; Some Fixture.rename_to_t] ∅)).
    reflexivity.
  - apply (proj2 (initTabletEnvironment_returns
      [Some Fixture.create_t; None] ∅)).
    reflexivity.
Defined.

Lemma specified_create_t :
  forallb specified [Some Fixture.create_t] = true.
Proof. reflexivity. Defined.

(** After [create table t (...)] the result of [describe t] counts its two
    rows. *)
Lemma stored_results_count_their_rows_witness :
  ∃ r schemaQueries,
    initTabletEnvironment [Some Fixture.create_t] ∅
    = Returned (None, schemaQueries) ∧
    schemaQueries !! "describe t" = Some r ∧
    length (Rows r) = 2%nat ∧ RowsAffected r = 2%Z.
Proof.
  destruct (table_entries_own Fixture.create_t _
    (<[ mysql_BaseShowTables :=
          show_tables_result (omap id [Some Fixture.create_t]) ]>
       fixed_queries) eq_refl) as (_ & Hdesc & _).
  eexists. eexists.
  split; [apply (initTabletEnvironment_entries _ _ specified_create_t)|].
  split; [exact Hdesc|]. split; [reflexivity|].
  exact (stored_results_count_their_rows [Some Fixture.create_t] ∅ _ None
           "describe t" _
           (initTabletEnvironment_entries _ _ specified_create_t) Hdesc).
Defined.

(** After [create table t (...)] the query [show index from t] has a
    result. *)
Lemma stored_queries_witness :
  ∃ schemaQueries,
    initTabletEnvironment [Some Fixture.create_t] ∅
    = Returned (None, schemaQueries) ∧
    is_Some (schemaQueries !! "show index from t").
Proof.
  eexists.
  split; [apply (initTabletEnvironment_entries _ _ specified_create_t)|].
  apply (stored_queries [Some Fixture.create_t] ∅ _ None "show index from t"
           (initTabletEnvironment_entries _ _ specified_create_t)).
  right; right. exists Fixture.create_t. split; [by left|].
  right. by left.
Defined.

(** Of the two statements on [t], followed by one on [u], the second gives
    the description of [t]: the one column [name], not marked [PRI]. *)
Lemma last_statement_describes_table_witness :
  ∃ schemaQueries,
    initTabletEnvironment
      [Some Fixture.create_t; Some Fixture.create_t_again;
       Some Fixture.create_u] ∅
    = Returned (None, schemaQueries) ∧
    schemaQueries !! "describe t"
    = Some {| Fields := mysql_DescribeTableFields;
              RowsAffected := 1;
              Rows := [mysql_DescribeTableRow "name" "varchar(64)" true "" ""] |}.
Proof.
  assert (Hall : forallb specified
            [Some Fixture.create_t; Some Fixture.create_t_again;
             Some Fixture.create_u] = true) by reflexivity.
  eexists. split; [apply (initTabletEnvironment_entries _ _ Hall)|].
  apply (last_statement_describes_table
    [Some Fixture.create_t; Some Fixture.create_t_again; Some Fixture.create_u]
    [Some Fixture.create_t] [Some Fixture.create_u] Fixture.create_t_again _
    ∅ _ None (initTabletEnvironment_entries _ _ Hall) eq_refl eq_refl).
  - intros d Hd. apply list_elem_of_singleton in Hd as [= ->]. discriminate.
  - intros d Hd. apply list_elem_of_singleton in Hd as [= ->].
    unfold own_keys. rewrite !not_elem_of_cons.
    repeat split; try discriminate. apply not_elem_of_nil.
Defined.

(** With the statements on [t] and on [u], the query for the row of [t] has
    that row as its result. *)
Lemma table_row_entry_witness :
  ∃ schemaQueries,
    initTabletEnvironment [Some Fixture.create_t; Some Fixture.create_u] ∅
    = Returned (None, schemaQueries) ∧
    schemaQueries !! "show tables like 't'"
    = Some {| Fields := mysql_BaseShowTablesFields;
              RowsAffected := 1;
              Rows := [mysql_BaseShowTablesRow "t" false ""] |}.
Proof.
  assert (Hall : forallb specified
            [Some Fixture.create_t; Some Fixture.create_u] = true)
    by reflexivity.
  eexists. split; [apply (initTabletEnvironment_entries _ _ Hall)|].
  apply (table_row_entry [Some Fixture.create_t; Some Fixture.create_u]
    [] [Some Fixture.create_u] Fixture.create_t ∅ _ None
    (initTabletEnvironment_entries _ _ Hall) eq_refl).
  - intros d Hd. apply list_elem_of_singleton in Hd as [= ->]. discriminate.
  - intros d Hd. unfold own_keys. rewrite !not_elem_of_cons.
    apply elem_of_cons in Hd as [[= ->]|Hd];
      [|apply list_elem_of_singleton in Hd as [= ->]];
      (repeat split; try discriminate; apply not_elem_of_nil).
Defined.

(** The table [t] of two statements is listed twice. *)
Lemma table_list_has_every_statement_witness :
  ∃ schemaQueries,
    initTabletEnvironment
      [Some Fixture.create_t; Some Fixture.create_t_again] ∅
    = Returned (None, schemaQueries) ∧
    schemaQueries !! "show tables"
    = Some {| Fields := mysql_BaseShowTablesFields;
              RowsAffected := 2;
              Rows := [mysql_BaseShowTablesRow "t" false "";
                       mysql_BaseShowTablesRow "t" false ""] |}.
Proof.
  assert (Hall : forallb specified
            [Some Fixture.create_t; Some Fixture.create_t_again] = true)
    by reflexivity.
  eexists. split; [apply (initTabletEnvironment_entries _ _ Hall)|].
  apply (table_list_has_every_statement
    [Some Fixture.create_t; Some Fixture.create_t_again]
    [Fixture.create_t; Fixture.create_t_again] ∅ _ None
    (initTabletEnvironment_entries _ _ Hall) eq_refl).
  intros d Hd. unfold own_keys. rewrite !not_elem_of_cons.
  apply elem_of_cons in Hd as [->|Hd];
    [|apply list_elem_of_singleton in Hd as ->];
    (repeat split; try discriminate; apply not_elem_of_nil).
Defined.

(** After [create table t (...)] the query [select @@autocommit] still has
    its fixed result. *)
Lemma fixed_queries_kept_witness :
  ∃ schemaQueries,
    initTabletEnvironment [Some Fixture.create_t] ∅
    = Returned (None, schemaQueries) ∧
    schemaQueries !! "select @@autocommit"
    = fixed_queries !! "select @@autocommit".
Proof.
  eexists.
  split; [apply (initTabletEnvironment_entries _ _ specified_create_t)|].
  apply (fixed_queries_kept [Some Fixture.create_t] ∅ _ None
    "select @@autocommit"
    (initTabletEnvironment_entries _ _ specified_create_t)).
  - unfold fixed_keys. right; right; by left.
  - discriminate.
  - intros d Hd. apply list_elem_of_singleton in Hd as [= ->]. discriminate.
Defined.

End VtexplainRuns.
